(** * sat-bucket: temporal grouping, granule ingestion and bucket merging

    A shallow embedding of [satbucket/routines.py] and [satbucket/info.py].

    - Python exceptions are values of type [exn]; a call that may raise
      returns a [Res].
    - [pandas.Timestamp] values are naive calendar records (year, month, day,
      nanoseconds since midnight) of the proleptic Gregorian calendar,
      compared chronologically.  They have the nanosecond resolution: a
      timestamp that the routines build outside [Timestamp.min] ..
      [Timestamp.max] raises [OutOfBoundsDatetime].
    - The file system and the standard output are an explicit [World] threaded
      through every routine that touches the disk or prints.
    - Functions of the package that the routines import from modules outside
      the two files above, and the functions of pyarrow, dask and trollsift,
      are fields of the records [Collaborators] and [Parser]; the functions
      of info.py are the embedded ones. *)

From Stdlib Require Import ZArith List String Ascii Bool Lia Sorted.
From Stdlib Require Import DecimalString.
From Stdlib Require DecimalZ DecimalPos.
Import ListNotations.
Open Scope string_scope.
Open Scope Z_scope.

(* ------------------------------------------------------------------------- *)
(** ** Python exceptions and results *)

Inductive exn_class :=
| TypeError | ValueError | NameError | KeyError | IndexError
| OSError | FileNotFoundError | NotImplementedError | RuntimeError
| OutOfBoundsDatetime  (* pandas.errors.OutOfBoundsDatetime, a ValueError *)
| KeyboardInterrupt.

(** [except Exception] catches every class but the ones that derive directly
    from [BaseException]. *)
Definition is_Exception (c : exn_class) : bool :=
  match c with
  | KeyboardInterrupt => false
  | _ => true
  end.

(** An exception instance; [exn_msg] is what [str(e)] returns. *)
Record exn := mkExn { exn_cls : exn_class; exn_msg : string }.

Inductive Res (A : Type) :=
| Ok (a : A)
| Raise (e : exn).
Arguments Ok {A} a.
Arguments Raise {A} e.

Definition bind {A B} (r : Res A) (k : A -> Res B) : Res B :=
  match r with
  | Ok a => k a
  | Raise e => Raise e
  end.

Notation "'do' x <- r ; k" := (bind r (fun x => k))
  (at level 10, x pattern, r at level 100, k at level 200).

(** [[f(x) for x in xs]] where [f] may raise. *)
Fixpoint map_res {A B} (f : A -> Res B) (xs : list A) : Res (list B) :=
  match xs with
  | [] => Ok []
  | x :: rest =>
      do y <- f x;
      do ys <- map_res f rest;
      Ok (y :: ys)
  end.

(** Scalars passed around as keyword arguments. *)
Inductive PyVal :=
| VNone
| VBool (b : bool)
| VInt (n : Z)
| VStr (s : string).

(** [str(n)] for a Python int. *)
Definition str_int (n : Z) : string := NilZero.string_of_int (Z.to_int n).

(* ------------------------------------------------------------------------- *)
(** ** Dictionaries (insertion ordered) *)

Definition Dict (V : Type) : Type := list (string * V).

Fixpoint dict_get {V} (d : Dict V) (k : string) : option V :=
  match d with
  | [] => None
  | (k', v) :: rest => if (k' =? k)%string then Some v else dict_get rest k
  end.

Definition dict_mem {V} (d : Dict V) (k : string) : bool :=
  match dict_get d k with Some _ => true | None => false end.

(** [d[k] = v]: an existing key keeps its position. *)
Fixpoint dict_set {V} (d : Dict V) (k : string) (v : V) : Dict V :=
  match d with
  | [] => [(k, v)]
  | (k', v') :: rest =>
      if (k' =? k)%string then (k, v) :: rest
      else (k', v') :: dict_set rest k v
  end.

(** [d.pop(k, None)] *)
Fixpoint dict_pop {V} (d : Dict V) (k : string) : Dict V :=
  match d with
  | [] => []
  | (k', v') :: rest =>
      if (k' =? k)%string then rest else (k', v') :: dict_pop rest k
  end.

Definition dict_keys {V} (d : Dict V) : list string := map fst d.

(* ------------------------------------------------------------------------- *)
(** ** Strings and POSIX paths *)

Definition sep : ascii := "/"%char.

Fixpoint rfind_from (c : ascii) (s : string) (i : Z) (found : Z) : Z :=
  match s with
  | EmptyString => found
  | String a rest =>
      rfind_from c rest (i + 1) (if Ascii.eqb a c then i else found)
  end.

(** [s.rfind(c)]: the index of the last [c], or [-1]. *)
Definition rfind (c : ascii) (s : string) : Z := rfind_from c s 0 (-1).

Definition str_len (s : string) : Z := Z.of_nat (String.length s).

(** [s[i:j]] for [0 <= i]. *)
Definition slice (s : string) (i j : Z) : string :=
  String.substring (Z.to_nat i) (Z.to_nat (j - i)) s.

(** [s.startswith(prefix)] *)
Definition startswith (s prefix : string) : bool := String.prefix prefix s.

(** [os.path.basename(p)] *)
Definition basename (p : string) : string :=
  let i := rfind sep p + 1 in
  slice p i (str_len p).

(** Whether some character of [s[i:j]] differs from [c]. *)
Fixpoint some_other_char (c : ascii) (s : string) (i j : Z) (pos : Z) : bool :=
  match s with
  | EmptyString => false
  | String a rest =>
      ((i <=? pos) && (pos <? j) && negb (Ascii.eqb a c))
      || some_other_char c rest i j (pos + 1)
  end.

(** [os.path.splitext(p)]: the extension starts at the last dot of the last
    component, unless that component consists of leading dots only. *)
Definition splitext (p : string) : string * string :=
  let sepIndex := rfind sep p in
  let dotIndex := rfind "."%char p in
  if (sepIndex <? dotIndex) && some_other_char "."%char p (sepIndex + 1) dotIndex 0
  then (slice p 0 dotIndex, slice p dotIndex (str_len p))
  else (p, "").

(** [os.path.join(a, b)] *)
Definition path_join (a b : string) : string :=
  if startswith b "/" then b
  else if (a =? "")%string || (rfind sep a =? str_len a - 1) then (a ++ b)%string
  else (a ++ "/" ++ b)%string.

(** [s.split(c)] *)
Fixpoint split_on (c : ascii) (s : string) : list string :=
  match s with
  | EmptyString => [""]
  | String a rest =>
      if Ascii.eqb a c then "" :: split_on c rest
      else match split_on c rest with
           | w :: ws => String a w :: ws
           | [] => [String a ""]
           end
  end.

Fixpoint lstrip (c : ascii) (s : string) : string :=
  match s with
  | String a rest => if Ascii.eqb a c then lstrip c rest else s
  | EmptyString => s
  end.

Fixpoint rstrip (c : ascii) (s : string) : string :=
  match s with
  | EmptyString => ""
  | String a rest =>
      match rstrip c rest with
      | EmptyString => if Ascii.eqb a c then "" else String a ""
      | r => String a r
      end
  end.

(** [s.strip(c)] *)
Definition strip (c : ascii) (s : string) : string := rstrip c (lstrip c s).

(** [c.join(parts)] *)
Fixpoint join_with (c : ascii) (parts : list string) : string :=
  match parts with
  | [] => ""
  | [p] => p
  | p :: rest => (p ++ String c (join_with c rest))%string
  end.

(** [xs[-n:]] *)
Definition last_n {A} (n : nat) (xs : list A) : list A :=
  match n with
  | O => xs
  | _ => skipn (List.length xs - n)%nat xs
  end.

(* ------------------------------------------------------------------------- *)
(** ** The file system and the standard output *)

Record FileSystem := mkFS {
  dirs : list string;
  files : list (string * string)  (* path, content *)
}.

(** What the routines print. *)
Inductive Output :=
| ExecutingBlock (i n : Z)
    (* "Executing tasks block {i}/{n}" *)
| IngestionError (src_filepath error_str : string)
    (* "An error occurred while processing {src_filepath}: {error_str}" *)
| PartitionsToProcess (n : Z)
    (* "{n} geographic partitions to process." *)
| StartConcatenating
    (* "Start concatenating the granules bucket archive" *)
| NoDataToConsolidate (partition_label : string)
    (* "No data to consolidate for partition {partition_label}." *).

Record World := mkWorld { fs : FileSystem; stdout : list Output }.

(** Computations that read and write the world and may raise.  The world at
    the point of the raise is kept: nothing is undone. *)
Definition M (A : Type) : Type := World -> Res A * World.

Definition ret {A} (a : A) : M A := fun w => (Ok a, w).
Definition raise {A} (e : exn) : M A := fun w => (Raise e, w).
Definition bindM {A B} (m : M A) (k : A -> M B) : M B :=
  fun w => match m w with
           | (Ok a, w') => k a w'
           | (Raise e, w') => (Raise e, w')
           end.
Definition lift {A} (r : Res A) : M A := fun w => (r, w).
(** A call that only reads the file system. *)
Definition reading {A} (f : FileSystem -> Res A) : M A := fun w => (f (fs w), w).
(** A call that only changes the file system. *)
Definition on_fs (f : FileSystem -> Res unit * FileSystem) : M unit :=
  fun w => let '(r, fs') := f (fs w) in (r, mkWorld fs' (stdout w)).
Definition print (o : Output) : M unit :=
  fun w => (Ok tt, mkWorld (fs w) (stdout w ++ [o])).

Notation "x <- m ;; k" := (bindM m (fun x => k))
  (at level 61, m at next level, right associativity).
Notation "' p <- m ;; k" := (bindM m (fun p => k))
  (at level 61, p pattern, m at next level, right associativity).
Notation "m ;; k" := (bindM m (fun _ => k))
  (at level 61, right associativity).

(** [for x in xs: body(x)] *)
Fixpoint for_each {A} (xs : list A) (body : A -> M unit) : M unit :=
  match xs with
  | [] => ret tt
  | x :: rest => body x ;; for_each rest body
  end.

(** [[f(x) for x in xs]] in the world. *)
Fixpoint map_M {A B} (f : A -> M B) (xs : list A) : M (list B) :=
  match xs with
  | [] => ret []
  | x :: rest => y <- f x ;; ys <- map_M f rest ;; ret (y :: ys)
  end.

Definition is_dir (f : FileSystem) (p : string) : bool :=
  existsb (String.eqb p) (dirs f).
Definition is_file (f : FileSystem) (p : string) : bool :=
  existsb (fun e => String.eqb p (fst e)) (files f).

(** [os.path.exists(p)] *)
Definition path_exists (p : string) : M bool :=
  fun w => (Ok (is_dir (fs w) p || is_file (fs w) p), w).

(** [os.remove(p)] *)
Definition os_remove (p : string) : M unit :=
  on_fs (fun f =>
    if is_file f p
    then (Ok tt, mkFS (dirs f)
                      (filter (fun e => negb (String.eqb p (fst e))) (files f)))
    else (Raise (mkExn FileNotFoundError
                   ("[Errno 2] No such file or directory: '" ++ p ++ "'")%string),
          f)).

(** The proper ancestors of a path and the path itself, outermost first. *)
Fixpoint path_prefixes (acc : string) (s : string) : list string :=
  match s with
  | EmptyString => if (acc =? "")%string then [] else [acc]
  | String a rest =>
      (if Ascii.eqb a sep && negb (acc =? "")%string then [acc] else [])
      ++ path_prefixes (acc ++ String a "")%string rest
  end.

(** [os.makedirs(p, exist_ok=True)] *)
Definition os_makedirs (p : string) : M unit :=
  on_fs (fun f =>
    if is_file f p
    then (Raise (mkExn OSError
                   ("[Errno 17] File exists: '" ++ p ++ "'")%string), f)
    else (Ok tt,
          mkFS (dirs f ++ filter (fun d => negb (is_dir f d))
                            (path_prefixes "" p))
               (files f))).

(* ------------------------------------------------------------------------- *)
(** ** Timestamps *)

Record Timestamp := mkTimestamp {
  year : Z;
  month : Z;
  day : Z;
  nanos : Z  (* nanoseconds elapsed since 00:00:00 of that day *)
}.

Definition NANOS_PER_DAY : Z := 86400 * 1000000000.

Definition is_leap_year (y : Z) : bool :=
  (y mod 4 =? 0) && (negb (y mod 100 =? 0) || (y mod 400 =? 0)).

Definition days_in_month (y m : Z) : Z :=
  if m =? 2 then (if is_leap_year y then 29 else 28)
  else if (m =? 4) || (m =? 6) || (m =? 9) || (m =? 11) then 30
  else 31.

Definition valid_timestamp (t : Timestamp) : Prop :=
  1 <= month t <= 12 /\
  1 <= day t <= days_in_month (year t) (month t) /\
  0 <= nanos t < NANOS_PER_DAY.

(** Chronological order: lexicographic on the calendar fields. *)
Definition ts_lt (a b : Timestamp) : Prop :=
  year a < year b \/
  (year a = year b /\
   (month a < month b \/
    (month a = month b /\
     (day a < day b \/
      (day a = day b /\ nanos a < nanos b))))).

Definition ts_le (a b : Timestamp) : Prop := ts_lt a b \/ a = b.

Definition ts_ltb (a b : Timestamp) : bool :=
  (year a <? year b) ||
  ((year a =? year b) &&
   ((month a <? month b) ||
    ((month a =? month b) &&
     ((day a <? day b) ||
      ((day a =? day b) && (nanos a <? nanos b)))))).

Definition ts_eqb (a b : Timestamp) : bool :=
  (year a =? year b) && (month a =? month b) &&
  (day a =? day b) && (nanos a =? nanos b).

Definition ts_leb (a b : Timestamp) : bool := ts_ltb a b || ts_eqb a b.

(** Python's [max(a, b)] keeps [a] unless [b > a]; [min(a, b)] keeps [a]
    unless [b < a]. *)
Definition ts_max (a b : Timestamp) : Timestamp := if ts_ltb a b then b else a.
Definition ts_min (a b : Timestamp) : Timestamp := if ts_ltb b a then b else a.

(** *** The range of the timestamps

    [pd.Timestamp.min] is 1677-09-21 00:12:43.145224193 and
    [pd.Timestamp.max] is 2262-04-11 23:47:16.854775807.  The functions
    below ([midnight], [normalize], [add_years], [add_months],
    [add_one_day]) give the calendar record of the result; the routines pass
    each timestamp they build through [checked], which raises when the
    record lies outside the range. *)
Definition Timestamp_min : Timestamp := mkTimestamp 1677 9 21 763145224193.
Definition Timestamp_max : Timestamp := mkTimestamp 2262 4 11 85636854775807.

Definition in_bounds (t : Timestamp) : bool :=
  ts_leb Timestamp_min t && ts_leb t Timestamp_max.

(** The message of pandas goes on with the timestamp. *)
Definition out_of_bounds : exn :=
  mkExn OutOfBoundsDatetime "Out of bounds nanosecond timestamp".

Definition checked (t : Timestamp) : Res Timestamp :=
  if in_bounds t then Ok t else Raise out_of_bounds.

(** [pd.Timestamp(f"{y}-{m}-{d} 00:00:00")] *)
Definition midnight (y m d : Z) : Timestamp := mkTimestamp y m d 0.

(** [t.normalize()] *)
Definition normalize (t : Timestamp) : Timestamp :=
  midnight (year t) (month t) (day t).

(** [t + pd.DateOffset(years=n)]: the day is clamped to the length of the
    target month (29 February moves to 28 February). *)
Definition add_years (t : Timestamp) (n : Z) : Timestamp :=
  let y := year t + n in
  mkTimestamp y (month t) (Z.min (day t) (days_in_month y (month t))) (nanos t).

(** [t + pd.DateOffset(months=n)] *)
Definition add_months (t : Timestamp) (n : Z) : Timestamp :=
  let idx := year t * 12 + (month t - 1) + n in
  let y := idx / 12 in
  let m := idx mod 12 + 1 in
  mkTimestamp y m (Z.min (day t) (days_in_month y m)) (nanos t).

(** [t + pd.DateOffset(days=1)] *)
Definition add_one_day (t : Timestamp) : Timestamp :=
  if day t <? days_in_month (year t) (month t)
  then mkTimestamp (year t) (month t) (day t + 1) (nanos t)
  else if month t <? 12
       then mkTimestamp (year t) (month t + 1) 1 (nanos t)
       else mkTimestamp (year t + 1) 1 1 (nanos t).

(** *** [pd.date_range(start, end, freq)] *)

Inductive Freq := YS | MS | QS | D.

(** Whether a timestamp lies on the offset of the frequency. *)
Definition on_offset (f : Freq) (t : Timestamp) : bool :=
  match f with
  | YS => (month t =? 1) && (day t =? 1)
  | MS => day t =? 1
  | QS => ((month t - 1) mod 3 =? 0) && (day t =? 1)
  | D => true
  end.

(** The next timestamp on the offset strictly after [t]; the time of the day
    is kept. *)
Definition offset_next (f : Freq) (t : Timestamp) : Timestamp :=
  match f with
  | YS => mkTimestamp (year t + 1) 1 1 (nanos t)
  | MS =>
      if month t <? 12
      then mkTimestamp (year t) (month t + 1) 1 (nanos t)
      else mkTimestamp (year t + 1) 1 1 (nanos t)
  | QS =>
      let q := 3 * ((month t - 1) / 3) + 1 in
      if q <? 10
      then mkTimestamp (year t) (q + 3) 1 (nanos t)
      else mkTimestamp (year t + 1) 1 1 (nanos t)
  | D => add_one_day t
  end.

Definition rollforward (f : Freq) (t : Timestamp) : Timestamp :=
  if on_offset f t then t else offset_next f t.

(** A rank of calendar days that grows with the chronological order; it
    bounds the number of offsets between two dates. *)
Definition day_rank (t : Timestamp) : Z :=
  372 * year t + 31 * (month t - 1) + (day t - 1).

Fixpoint date_range_from (fuel : nat) (f : Freq) (cur end_ : Timestamp)
  : list Timestamp :=
  match fuel with
  | O => []
  | S fuel' =>
      if ts_leb cur end_
      then cur :: date_range_from fuel' f (offset_next f cur) end_
      else []
  end.

Definition date_range (start end_ : Timestamp) (f : Freq) : list Timestamp :=
  let first := rollforward f start in
  date_range_from (Z.to_nat (day_rank end_ - day_rank first + 1)) f first end_.

(* ------------------------------------------------------------------------- *)
(** ** Calling a Python function *)

(** A function defined with [def name(p1, ..., pn)]: no defaults, no [*args],
    no [**kwargs]. *)
Record PyFunction (V R : Type) := mkPyFunction {
  fn_name : string;
  fn_params : list string;
  fn_body : Dict V -> Res R
}.
Arguments fn_name {V R} _.
Arguments fn_params {V R} _.
Arguments fn_body {V R} _.

(** Binding of the keyword arguments of a call, one after the other. *)
Fixpoint bind_keywords {V} (name : string) (params : list string)
  (bound : Dict V) (kwargs : list (string * V)) : Res (Dict V) :=
  match kwargs with
  | [] => Ok bound
  | (k, v) :: rest =>
      if negb (existsb (String.eqb k) params) then
        Raise (mkExn TypeError
                 (name ++ "() got an unexpected keyword argument '" ++ k ++ "'")%string)
      else if dict_mem bound k then
        Raise (mkExn TypeError
                 (name ++ "() got multiple values for argument '" ++ k ++ "'")%string)
      else bind_keywords name params (dict_set bound k v) rest
  end.

(** A call with positional and keyword arguments. *)
Definition call {V R} (f : PyFunction V R) (args : list V)
  (kwargs : list (string * V)) : Res R :=
  if (List.length (fn_params f) <? List.length args)%nat then
    Raise (mkExn TypeError
             (fn_name f ++ "() takes " ++
              str_int (Z.of_nat (List.length (fn_params f))) ++
              " positional arguments but " ++
              str_int (Z.of_nat (List.length args)) ++ " were given")%string)
  else
    do bound <- bind_keywords (fn_name f) (fn_params f)
                  (combine (fn_params f) args) kwargs;
    if forallb (dict_mem bound) (fn_params f)
    then fn_body f bound
    else Raise (mkExn TypeError
                  (fn_name f ++ "() missing required positional arguments")%string).

(* ------------------------------------------------------------------------- *)
(** ** info.py *)

(** The values that trollsift stores in an info dictionary. *)
Inductive InfoValue :=
| IDatetime (t : Timestamp)         (* datetime.datetime *)
| ITime (nanos_of_day : Z)          (* datetime.time *)
| IDate (y m d : Z)                 (* datetime.date *)
| IStr (s : string).

Definition InfoDict : Type := Dict InfoValue.

(** [trollsift.Parser(pattern).parse(filename)] *)
Record Parser := mkParser {
  trollsift_parse : string -> string -> Res InfoDict
}.

Definition NANOS_PER_SECOND : Z := 1000000000.

(** [datetime.datetime.combine(date, time)] when [date] is an instance of
    [datetime.date] (a [datetime.datetime] is one). *)
Definition combine_date_time (date : InfoValue) (nanos_of_day : Z)
  : option Timestamp :=
  match date with
  | IDate y m d => Some (mkTimestamp y m d nanos_of_day)
  | IDatetime t => Some (mkTimestamp (year t) (month t) (day t) nanos_of_day)
  | _ => None
  end.

(** [start.replace(hour=t.hour, minute=t.minute, second=t.second)] *)
Definition replace_hms (start : Timestamp) (nanos_of_day : Z) : Timestamp :=
  mkTimestamp (year start) (month start) (day start)
    (nanos_of_day / NANOS_PER_SECOND * NANOS_PER_SECOND
     + nanos start mod NANOS_PER_SECOND).

Definition parse_filename_pattern (P : Parser)
  (filename filename_pattern : string) : Res InfoDict :=
  do info_dict <- trollsift_parse P filename_pattern filename;
  (* Handle start_time *)
  do start_datetime <-
    match dict_get info_dict "start_time" with
    | Some (IDatetime start_time) => Ok start_time
    | Some (ITime start_time) =>
        match dict_get info_dict "start_date" with
        | Some start_date =>
            match combine_date_time start_date start_time with
            | Some t => Ok t
            | None =>
                Raise (mkExn ValueError
                  "start_time is a time object but start_date is missing or invalid.")
            end
        | None =>
            Raise (mkExn ValueError
              "start_time is a time object but start_date is missing or invalid.")
        end
    | _ => Raise (mkExn ValueError "Invalid or missing start_time in info_dict.")
    end;
  (* Handle end_time *)
  do end_datetime <-
    match dict_get info_dict "end_time" with
    | Some (IDatetime end_time) => Ok end_time
    | Some (ITime end_time) =>
        match match dict_get info_dict "end_date" with
              | Some end_date => combine_date_time end_date end_time
              | None => None
              end with
        | Some t => Ok t
        | None =>
            let end_datetime := replace_hms start_datetime end_time in
            Ok (if ts_ltb end_datetime start_datetime
                then add_one_day end_datetime else end_datetime)
        end
    | _ => Raise (mkExn ValueError "Invalid or missing end_time in info_dict.")
    end;
  (* Update info_dict *)
  let info_dict := dict_set info_dict "start_time" (IDatetime start_datetime) in
  let info_dict := dict_set info_dict "end_time" (IDatetime end_datetime) in
  (* Remove unused fields *)
  let info_dict := dict_pop info_dict "start_date" in
  let info_dict := dict_pop info_dict "end_date" in
  Ok info_dict.

(** [def parse_filename_pattern(filename, filename_pattern)] as a callable. *)
Definition parse_filename_pattern_def (P : Parser)
  : PyFunction string InfoDict :=
  mkPyFunction _ _ "parse_filename_pattern" ["filename"; "filename_pattern"]
    (fun bound =>
       match dict_get bound "filename", dict_get bound "filename_pattern" with
       | Some filename, Some filename_pattern =>
           parse_filename_pattern P filename filename_pattern
       | _, _ => Raise (mkExn RuntimeError "unbound parameter")
       end).

(** What a function of info.py may return: a dictionary, or an exception
    instance handed back as a value. *)
Inductive PyObj :=
| ODict (d : InfoDict)
| OException (e : exn).

(** A [str], or a list of them. *)
Inductive StrOrList :=
| One (s : string)
| Many (l : list string).

Definition as_list (x : StrOrList) : list string :=
  match x with
  | One s => [s]
  | Many l => l
  end.

(** The loop of [_get_info_from_filename]: the info dictionary of the first
    pattern that parses, if any.  [except Exception: pass] swallows what the
    attempt raises. *)
Fixpoint find_valid_pattern (P : Parser) (filename : string)
  (filename_patterns : list string) : Res (option InfoDict) :=
  match filename_patterns with
  | [] => Ok None
  | pattern :: rest =>
      match call (parse_filename_pattern_def P) [filename] [("pattern", pattern)] with
      | Ok info_dict =>
          if dict_mem info_dict "start_time" && dict_mem info_dict "end_time"
          then Ok (Some info_dict)
          else find_valid_pattern P filename rest
      | Raise e =>
          if is_Exception (exn_cls e)
          then find_valid_pattern P filename rest
          else Raise e
      end
  end.

Definition _get_info_from_filename (P : Parser) (filename : string)
  (filename_patterns : StrOrList) : Res PyObj :=
  let filename_patterns := as_list filename_patterns in
  do found <- find_valid_pattern P filename filename_patterns;
  match found with
  | None => Ok (OException (mkExn ValueError "Invalid pattern specified."))
  | Some info_dict => Ok (ODict info_dict)
  end.

(** The file path is a [str]: the [isinstance] test of the source passes. *)
Definition get_info_from_filepath (P : Parser) (filepath : string)
  (filename_pattern : StrOrList) : Res PyObj :=
  let filename := basename filepath in
  _get_info_from_filename P filename filename_pattern.

(** [obj[key]] *)
Definition subscript (obj : PyObj) (key : string) : Res InfoValue :=
  match obj with
  | ODict d =>
      match dict_get d key with
      | Some v => Ok v
      | None => Raise (mkExn KeyError ("'" ++ key ++ "'")%string)
      end
  | OException _ =>
      Raise (mkExn TypeError "'ValueError' object is not subscriptable")
  end.

Definition get_key_from_filepath (P : Parser) (filepath key : string)
  (filename_pattern : StrOrList) : Res InfoValue :=
  do info <- get_info_from_filepath P filepath filename_pattern;
  subscript info key.

Definition get_key_from_filepaths (P : Parser) (filepaths : StrOrList)
  (key : string) (filename_pattern : StrOrList) : Res (list InfoValue) :=
  let filepaths := as_list filepaths in
  map_res (fun filepath => get_key_from_filepath P filepath key filename_pattern)
    filepaths.

Definition get_start_time_from_filepaths (P : Parser) (filepaths : StrOrList)
  (filename_pattern : StrOrList) : Res (list InfoValue) :=
  get_key_from_filepaths P filepaths "start_time" filename_pattern.

(** The names bound at the top level of info.py: its imports and its
    functions. *)
Definition info_globals : list string :=
  ["os"; "datetime"; "Parser"; "parse_filename_pattern";
   "_get_info_from_filename"; "get_info_from_filepath";
   "get_key_from_filepath"; "get_key_from_filepaths";
   "get_start_time_from_filepaths"; "get_start_end_time_from_filepaths"].

(** Loading a global name of a module. *)
Definition load_global (globals : list string) (name : string) : Res unit :=
  if existsb (String.eqb name) globals then Ok tt
  else Raise (mkExn NameError ("name '" ++ name ++ "' is not defined")%string).

Definition get_start_end_time_from_filepaths (P : Parser)
  (filepaths : StrOrList) (filename_pattern : StrOrList)
  : Res (list InfoValue * list InfoValue) :=
  do list_start_time <-
    get_key_from_filepaths P filepaths "start_time" filename_pattern;
  do list_end_time <-
    get_key_from_filepaths P filepaths "end_time" filename_pattern;
  do _ <- load_global info_globals "np";
  Ok (list_start_time, list_end_time).
(* ------------------------------------------------------------------------- *)
(** ** Collaborators *)

(** A spatial partitioning object (satbucket.partitioning). *)
Record SpatialPartitioning (DataFrame : Type) := mkSpatialPartitioning {
  add_labels : DataFrame -> PyVal -> PyVal -> Res DataFrame;
  order : list string;
  flavor : PyVal;
  levels : list string;
  n_levels : nat;
  directories : list string
}.
Arguments add_labels {DataFrame} _.
Arguments order {DataFrame} _.
Arguments flavor {DataFrame} _.
Arguments levels {DataFrame} _.
Arguments n_levels {DataFrame} _.
Arguments directories {DataFrame} _.

(** What routines.py imports from the other modules of the package and from
    pyarrow: the routines are embedded against these functions.  Readers
    take the file system, writers return the new one.  Of the modules
    imported, only satbucket.info is among the sources: its functions are
    the embedded ones, run on the parser of trollsift. *)
Record Collaborators := mkCollaborators {
  DataFrame : Type;
  Table : Type;
  MetadataCollector : Type;
  (* satbucket.checks *)
  check_start_end_time : Timestamp -> Timestamp -> Res (Timestamp * Timestamp);
  (* satbucket.filters *)
  filter_filepaths :
    list string -> Timestamp -> Timestamp -> string -> Res (list string);
  is_within_time_period :
    list Timestamp -> list Timestamp -> Timestamp -> Timestamp -> list bool;
  (* trollsift, which satbucket.info imports *)
  trollsift : Parser;
  (* dask: str(dask.delayed(_try_write_granule_bucket)) *)
  delayed_str : string;
  (* satbucket.io *)
  get_bucket_spatial_partitioning :
    string -> FileSystem -> Res (SpatialPartitioning DataFrame);
  get_bucket_temporal_partitioning : string -> FileSystem -> Res string;
  get_exisiting_partitions_paths :
    string -> list string -> FileSystem -> Res (list string);
  get_filepaths_within_paths : list string -> FileSystem -> Res (list string);
  write_bucket_info :
    string -> SpatialPartitioning DataFrame -> option string ->
    FileSystem -> Res unit * FileSystem;
  (* satbucket.utils.directories *)
  get_first_file : string -> FileSystem -> Res (option string);
  list_and_filter_files : string -> FileSystem -> Res (list string);
  (* satbucket.writers *)
  preprocess_writer_kwargs :
    Dict PyVal -> Table -> Res (Dict PyVal * option MetadataCollector);
  write_dataset_metadata :
    string -> MetadataCollector -> FileSystem -> Res unit * FileSystem;
  write_partitioned_dataset :
    DataFrame -> string -> string -> list string -> PyVal -> Dict PyVal ->
    FileSystem -> Res unit * FileSystem;
  (* pyarrow *)
  read_table : string -> FileSystem -> Res Table;
  column_names : Table -> list string;
  drop_columns : Table -> list string -> Table;
  collector_filled : MetadataCollector -> bool;
  (* dataset(src_filepaths).scanner(filter=time in [start, end), **scanner
     options) written with write_dataset(base_dir, basename_template,
     **writer_kwargs) *)
  scan_and_write_dataset :
    list string -> Timestamp -> Timestamp -> string -> string ->
    Dict PyVal -> Dict PyVal -> FileSystem -> Res unit * FileSystem
}.

(** Modelled from the spec: [satbucket.utils.parallel.compute_list_delayed]
    is not among the sources.  Every delayed call submitted in a block is run
    and its result collected; the calls are run here one after the other in
    submission order. *)
Definition compute_list_delayed {A} (list_delayed : list (M A))
  (max_concurrent_tasks : option Z) : M (list A) :=
  map_M (fun task => task) list_delayed.

(** Modelled from the spec: [get_client], [clean_memory] and
    [client.restart] of satbucket.utils.dask reclaim the executor between two
    blocks; they leave the file system and the output alone. *)
Definition restart_client : M unit := ret tt.

(* ------------------------------------------------------------------------- *)
(** ** routines.py: bucketing of granules *)

(** [range(0, stop, step)] for [0 <= stop]. *)
Fixpoint range_from (fuel : nat) (i stop step : Z) : list Z :=
  match fuel with
  | O => []
  | S fuel' =>
      if i <? stop then i :: range_from fuel' (i + step) stop step else []
  end.

Definition py_range (stop step : Z) : Res (list Z) :=
  if step =? 0 then Raise (mkExn ValueError "range() arg 3 must not be zero")
  else if step <? 0 then Ok []
  else Ok (range_from (Z.to_nat stop) 0 stop step).

(** [values[i : j]] for [0 <= i <= j]. *)
Definition list_slice {A} (values : list A) (i j : Z) : list A :=
  firstn (Z.to_nat (j - i)) (skipn (Z.to_nat i) values).

Definition split_list_in_blocks {A} (values : list A) (block_size : Z)
  : Res (list (list A)) :=
  do starts <- py_range (Z.of_nat (List.length values)) block_size;
  Ok (map (fun i => list_slice values i (i + block_size)) starts).

(** The extraction function handed in by the caller: it reads the granule
    and returns a dataframe or [None]. *)
Definition Extractor (E : Collaborators) : Type :=
  string -> FileSystem -> Res (option (DataFrame E)).

Definition write_granule_bucket (E : Collaborators)
  (src_filepath bucket_dir : string)
  (spatial_partitioning : SpatialPartitioning (DataFrame E))
  (granule_to_df_func : Extractor E)
  (x y : PyVal) (writer_kwargs : Dict PyVal) : M unit :=
  (* Define unique prefix name so to add files to the bucket archive *)
  let filename_prefix := fst (splitext (basename src_filepath)) in
  (* Retrieve dataframe *)
  df <- reading (granule_to_df_func src_filepath) ;;
  (* Do nothing if returns None *)
  match df with
  | None => ret tt
  | Some df =>
      (* Add partitioning columns *)
      df <- lift (add_labels spatial_partitioning df x y) ;;
      (* Write partitioned dataframe *)
      on_fs (write_partitioned_dataset E df bucket_dir filename_prefix
               (order spatial_partitioning) (flavor spatial_partitioning)
               writer_kwargs)
  end.

(** The binding of [**kwargs] to the signature of [write_granule_bucket]:
    [x] and [y] take the value given under their name, whatever it is, and
    default to "lon" and "lat"; the other keywords go to the writer. *)
Definition keyword_or (kwargs : Dict PyVal) (name default : string) : PyVal :=
  match dict_get kwargs name with
  | Some v => v
  | None => VStr default
  end.

Definition _try_write_granule_bucket (E : Collaborators)
  (src_filepath bucket_dir : string)
  (spatial_partitioning : SpatialPartitioning (DataFrame E))
  (granule_to_df_func : Extractor E)
  (kwargs : Dict PyVal) : M (option (string * string)) :=
  fun w =>
    match write_granule_bucket E src_filepath bucket_dir spatial_partitioning
            granule_to_df_func
            (keyword_or kwargs "x" "lon") (keyword_or kwargs "y" "lat")
            (dict_pop (dict_pop kwargs "x") "y") w with
    | (Ok _, w') =>
        (* If works, return None *)
        (Ok None, w')
    | (Raise e, w') =>
        if is_Exception (exn_cls e)
        then (Ok (Some (src_filepath, exn_msg e)), w')
        else (Raise e, w')
    end.

(** [enumerate(xs)] counting from [i]. *)
Fixpoint enumerate_from {A} (i : Z) (xs : list A) : list (Z * A) :=
  match xs with
  | [] => []
  | x :: rest => (i, x) :: enumerate_from (i + 1) rest
  end.

(** [[r for r in results if r is not None]] *)
Definition not_none {A} (results : list (option A)) : list A :=
  flat_map (fun r => match r with Some a => [a] | None => [] end) results.

(** The keywords that the loop over the granules passes by name to
    [_try_write_granule_bucket], before [**writer_kwargs]. *)
Definition explicit_keywords : list string :=
  ["src_filepath"; "bucket_dir"; "spatial_partitioning"; "granule_to_df_func"].

(** What the message of the call says of the callee: the qualified name of
    the function, or the [str] of the object that [dask.delayed] returns. *)
Definition callee_name (E : Collaborators) (parallel : bool) : string :=
  if parallel then delayed_str E
  else "satbucket.routines._try_write_granule_bucket()".

(** [func(src_filepath=..., bucket_dir=..., spatial_partitioning=...,
    granule_to_df_func=..., **writer_kwargs)]: a key of [writer_kwargs] that
    is also passed by name makes the call raise [TypeError], before the
    callee is entered. *)
Definition explicit_keywords_free (callee : string)
  (writer_kwargs : Dict PyVal) : Res unit :=
  match find (fun k => existsb (String.eqb k) explicit_keywords)
          (dict_keys writer_kwargs) with
  | Some k =>
      Raise (mkExn TypeError
               (callee ++ " got multiple values for keyword argument '"
                ++ k ++ "'")%string)
  | None => Ok tt
  end.

(** One iteration of the loop over the blocks of [write_granules_bucket].
    The calls of the list comprehension are made in order: the first one
    raises if a keyword is given twice, and the comprehension of an empty
    block makes no call. *)
Definition write_granules_block (E : Collaborators) (bucket_dir : string)
  (spatial_partitioning : SpatialPartitioning (DataFrame E))
  (granule_to_df_func : Extractor E)
  (parallel : bool) (max_concurrent_tasks : option Z)
  (writer_kwargs : Dict PyVal) (n_blocks : Z)
  (numbered_block : Z * list string) : M unit :=
  let '(i, block_filepaths) := numbered_block in
  print (ExecutingBlock (i + 1) n_blocks) ;;
  (* Loop over granules *)
  lift (match block_filepaths with
        | [] => Ok tt
        | _ :: _ =>
            explicit_keywords_free (callee_name E parallel) writer_kwargs
        end) ;;
  let list_calls :=
    map (fun src_filepath =>
           _try_write_granule_bucket E src_filepath bucket_dir
             spatial_partitioning granule_to_df_func writer_kwargs)
        block_filepaths in
  (* If delayed, execute the tasks *)
  list_results <-
    (if parallel
     then compute_list_delayed list_calls max_concurrent_tasks
     else map_M (fun c => c) list_calls) ;;
  (* Process results to detect errors *)
  let list_errors := not_none list_results in
  for_each list_errors (fun '(src_filepath, error_str) =>
    print (IngestionError src_filepath error_str)) ;;
  (* If parallel=True, retrieve client, clean the memory and restart *)
  if parallel then restart_client else ret tt.

(** The elapsed-time line that the decorator prints when the routine
    returns is left out. *)
Definition write_granules_bucket (E : Collaborators)
  (filepaths : list string) (bucket_dir : string)
  (spatial_partitioning : SpatialPartitioning (DataFrame E))
  (granule_to_df_func : Extractor E)
  (parallel : bool) (max_concurrent_tasks : option Z)
  (max_dask_total_tasks : Z)
  (use_threads : bool) (row_group_size : PyVal)
  (writer_kwargs : Dict PyVal) : M unit :=
  let writer_kwargs := dict_set writer_kwargs "row_group_size" row_group_size in
  let writer_kwargs := dict_set writer_kwargs "use_threads" (VBool use_threads) in
  (* Write down the information of the bucket *)
  on_fs (write_bucket_info E bucket_dir spatial_partitioning None) ;;
  (* Split long list of files in blocks *)
  list_blocks <- lift (split_list_in_blocks filepaths max_dask_total_tasks) ;;
  (* Execute tasks by blocks to avoid dask overhead *)
  let n_blocks := Z.of_nat (List.length list_blocks) in
  for_each (enumerate_from 0 list_blocks)
    (write_granules_block E bucket_dir spatial_partitioning granule_to_df_func
       parallel max_concurrent_tasks writer_kwargs n_blocks).

(** [write_bucket] *)
Definition write_bucket (E : Collaborators) (df : DataFrame E)
  (bucket_dir : string)
  (spatial_partitioning : SpatialPartitioning (DataFrame E))
  (x y : PyVal) (filename_prefix : string) (row_group_size : PyVal)
  (writer_kwargs : Dict PyVal) : M unit :=
  (* Write down the information of the bucket *)
  on_fs (write_bucket_info E bucket_dir spatial_partitioning None) ;;
  (* Add partitioning columns *)
  df <- lift (add_labels spatial_partitioning df x y) ;;
  (* Write bucket *)
  let writer_kwargs := dict_set writer_kwargs "row_group_size" row_group_size in
  on_fs (write_partitioned_dataset E df bucket_dir filename_prefix
           (order spatial_partitioning) (flavor spatial_partitioning)
           writer_kwargs).
(* ------------------------------------------------------------------------- *)
(** ** routines.py: temporal grouping *)

(** The error kinds of the specification, as the exceptions that the
    routines raise for them. *)
Definition UnsupportedGranularity (temporal_partitioning : string) : exn :=
  mkExn ValueError
    ("Invalid '" ++ temporal_partitioning ++
     "'. Valid values are ['year', 'month', 'season', 'quarter']")%string.

Definition DestinationMissing (dst_bucket_dir : string) : exn :=
  mkExn OSError
    ("The bucket directory " ++ dst_bucket_dir ++ " does not exists.")%string.

Definition MissingTimeBounds : exn :=
  mkExn ValueError "Define both 'start_time' and 'end_time' if update=True.".

Definition PartitionAlreadyExists (partition_label : string) : exn :=
  mkExn ValueError
    ("The partition " ++ partition_label ++
     " already exists. Use 'update=True' to update an archive.")%string.

Definition NoFileFound : exn :=
  mkExn ValueError "No file found in the source bucket archive.".

(** The argument is a [str]: the [isinstance] test of the source passes. *)
Definition check_temporal_partitioning (temporal_partitioning : string)
  : Res string :=
  let valid_values := ["year"; "month"; "season"; "quarter"] in
  if existsb (String.eqb temporal_partitioning) valid_values
  then Ok temporal_partitioning
  else Raise (UnsupportedGranularity temporal_partitioning).

Definition invalid_temporal_partitioning (temporal_partitioning : string) : exn :=
  mkExn NotImplementedError
    ("Invalid '" ++ temporal_partitioning ++ "' temporal_partitioning")%string.

Definition get_time_prefix (timestep : Timestamp) (temporal_partitioning : string)
  : Res string :=
  if (temporal_partitioning =? "year")%string then
    Ok (str_int (year timestep))
  else if (temporal_partitioning =? "month")%string then
    Ok (str_int (year timestep) ++ "_" ++ str_int (month timestep))%string
  else if (temporal_partitioning =? "quarter")%string then
    let quarter := (month timestep - 1) / 3 + 1 in
    Ok (str_int (year timestep) ++ "_" ++ str_int quarter)%string
  else if (temporal_partitioning =? "day")%string then
    Ok (str_int (year timestep) ++ "_" ++ str_int (month timestep)
        ++ "_" ++ str_int (day timestep))%string
  else Raise (invalid_temporal_partitioning temporal_partitioning).

Definition get_partitioning_boundaries
  (start_time end_time : Timestamp) (temporal_partitioning : string)
  : Res (list Timestamp) :=
  if (temporal_partitioning =? "year")%string then
    do year_start <- checked (midnight (year end_time) 1 1);
    do end_time <-
      (if negb (ts_eqb end_time year_start)
       then checked (add_years end_time 1) else Ok end_time);
    do start_ <- checked (midnight (year start_time) 1 1);
    do end_ <- checked (midnight (year end_time) 1 1);
    Ok (date_range start_ end_ YS)
  else if (temporal_partitioning =? "month")%string then
    do month_start <- checked (midnight (year end_time) (month end_time) 1);
    do end_time <-
      (if negb (ts_eqb end_time month_start)
       then checked (add_months end_time 1) else Ok end_time);
    do start_ <- checked (midnight (year start_time) (month start_time) 1);
    do end_ <- checked (midnight (year end_time) (month end_time) 1);
    Ok (date_range start_ end_ MS)
  else if (temporal_partitioning =? "quarter")%string then
    let start_quarter_idx := (month start_time - 1) / 3 + 1 in
    let start_quarter_start_month := 3 * (start_quarter_idx - 1) + 1 in
    let end_quarter_idx := (month end_time - 1) / 3 + 1 in
    let end_quarter_start_month := 3 * (end_quarter_idx - 1) + 1 in
    do quarter_start <-
      checked (midnight (year end_time) end_quarter_start_month 1);
    do (end_time, end_quarter_start_month) <-
      (if negb (ts_eqb end_time quarter_start)
       then
         do end_time <- checked (add_months end_time 3);
         let end_quarter_idx := (month end_time - 1) / 3 + 1 in
         Ok (end_time, 3 * (end_quarter_idx - 1) + 1)
       else Ok (end_time, end_quarter_start_month));
    do start_ <- checked (midnight (year start_time) start_quarter_start_month 1);
    do end_ <- checked (midnight (year end_time) end_quarter_start_month 1);
    Ok (date_range start_ end_ QS)
  else if (temporal_partitioning =? "day")%string then
    do day_start <- checked (normalize end_time);
    do end_time <-
      (if negb (ts_eqb end_time day_start)
       then
         do day_start <- checked (normalize end_time);
         checked (add_one_day day_start)
       else Ok end_time);
    do start_ <-
      checked (midnight (year start_time) (month start_time) (day start_time));
    Ok (date_range start_ end_time D)
  else Raise (invalid_temporal_partitioning temporal_partitioning).

(** A group period [(time_prefix, group_start, group_end)]. *)
Definition Period : Type := string * Timestamp * Timestamp.
Definition period_prefix (p : Period) : string := fst (fst p).
Definition period_start (p : Period) : Timestamp := snd (fst p).
Definition period_end (p : Period) : Timestamp := snd p.

(** The loop of [get_list_group_periods] over [enumerate(boundaries)]: the
    group ends at the next boundary, or at [end_time] for the last one. *)
Fixpoint group_periods_loop (start_time end_time : Timestamp)
  (temporal_partitioning : string) (boundaries : list Timestamp)
  : Res (list Period) :=
  match boundaries with
  | [] => Ok []
  | group_start :: rest =>
      let group_end := match rest with
                       | next :: _ => next
                       | [] => end_time
                       end in
      let group_start := ts_max group_start start_time in
      let group_end := ts_min group_end end_time in
      do time_prefix <- get_time_prefix group_start temporal_partitioning;
      do intervals <- group_periods_loop start_time end_time
                        temporal_partitioning rest;
      Ok (if ts_ltb group_start group_end
          then (time_prefix, group_start, group_end) :: intervals
          else intervals)
  end.

Definition get_list_group_periods
  (start_time end_time : Timestamp) (temporal_partitioning : string)
  : Res (list Period) :=
  do boundaries <- get_partitioning_boundaries start_time end_time
                     temporal_partitioning;
  group_periods_loop start_time end_time temporal_partitioning boundaries.



(* ------------------------------------------------------------------------- *)
(** ** routines.py: merging of the granule buckets *)

Definition define_dict_partitions (E : Collaborators) (src_bucket_dir : string)
  (src_spatial_partitioning : SpatialPartitioning (DataFrame E))
  (dst_spatial_partitioning : option (SpatialPartitioning (DataFrame E)))
  : M (Dict (list string)) :=
  match dst_spatial_partitioning with
  | Some _ =>
      raise (mkExn NotImplementedError "Repartitioning not yet implemented.")
  | None =>
      let dst_spatial_partitioning := src_spatial_partitioning in
      (* Retrieve path to source partitions *)
      let n_levels := n_levels dst_spatial_partitioning in
      let dir_trees := directories dst_spatial_partitioning in
      partitions_paths <-
        reading (get_exisiting_partitions_paths E src_bucket_dir dir_trees) ;;
      (* Define list of destination bucket partitions and source bucket
         directories *)
      ret (fold_left
             (fun dict_partitions path =>
                dict_set dict_partitions
                  (join_with sep (last_n n_levels (split_on sep (strip sep path))))
                  [path])
             partitions_paths [])
  end.

(** The first file found in the directories, in order. *)
Fixpoint first_file_found (E : Collaborators) (paths : list string)
  (f : FileSystem) : Res (option string) :=
  match paths with
  | [] => Ok None
  | path :: rest =>
      do filepath <- get_first_file E path f;
      match filepath with
      | Some filepath => Ok (Some filepath)
      | None => first_file_found E rest f
      end
  end.

Definition get_template_table (E : Collaborators)
  (dict_partitions : Dict (list string)) : M (Table E) :=
  reading (fun f =>
    (* Take the first file in the partitions *)
    do found <- first_file_found E (List.concat (map snd dict_partitions)) f;
    match found with
    | None => Raise NoFileFound
    | Some filepath =>
        (* Read the first parquet file found *)
        read_table E filepath f
    end).

(** [a.min()] and [a.max()] of an array of timestamps. *)
Definition ts_minimum (a : list Timestamp) : Res Timestamp :=
  match a with
  | [] => Raise (mkExn ValueError
                   "zero-size array to reduction operation minimum which has no identity")
  | t :: rest => Ok (fold_left ts_min rest t)
  end.

Definition ts_maximum (a : list Timestamp) : Res Timestamp :=
  match a with
  | [] => Raise (mkExn ValueError
                   "zero-size array to reduction operation maximum which has no identity")
  | t :: rest => Ok (fold_left ts_max rest t)
  end.

(** [a[mask]] for a boolean mask. *)
Definition mask_select {A} (a : list A) (mask : list bool) : Res (list A) :=
  if (List.length a =? List.length mask)%nat
  then Ok (map fst (filter snd (combine a mask)))
  else Raise (mkExn IndexError "boolean index did not match indexed array").

Definition Group : Type := Timestamp * Timestamp * list string.

(** The loop of [group_files_by_time] over the windows. *)
Fixpoint collect_groups (E : Collaborators) (filepaths : list string)
  (l_start_time l_end_time : list Timestamp)
  (list_group_periods : list Period) (groups_dict : Dict Group)
  : Res (Dict Group) :=
  match list_group_periods with
  | [] => Ok groups_dict
  | (group_key, group_start_time, group_end_time) :: rest =>
      let is_within_group :=
        is_within_time_period E l_start_time l_end_time
          group_start_time group_end_time in
      do list_group_filepaths <- mask_select filepaths is_within_group;
      collect_groups E filepaths l_start_time l_end_time rest
        (if (0 <? List.length list_group_filepaths)%nat
         then dict_set groups_dict group_key
                (group_start_time, group_end_time, list_group_filepaths)
         else groups_dict)
  end.

(** The timestamps that numpy and pandas make of the values of the info
    dictionaries. *)
Definition as_timestamps (values : list InfoValue) : Res (list Timestamp) :=
  map_res (fun v => match v with
                    | IDatetime t => Ok t
                    | _ => Raise (mkExn TypeError "Cannot convert input to Timestamp")
                    end) values.

(** [get_start_end_time_from_filepaths] of info.py, as routines.py calls it:
    on an array of file paths, with the pattern of the caller; the arrays
    are those that numpy makes of the two lists. *)
Definition repo_get_start_end_time_from_filepaths (P : Parser)
  (filepaths : list string) (filename_pattern : string)
  : Res (list Timestamp * list Timestamp) :=
  do (list_start_time, list_end_time) <-
    get_start_end_time_from_filepaths P (Many filepaths) (One filename_pattern);
  do l_start_time <- as_timestamps list_start_time;
  do l_end_time <- as_timestamps list_end_time;
  Ok (l_start_time, l_end_time).

Definition group_files_by_time (E : Collaborators) (filepaths : list string)
  (start_time end_time : option Timestamp) (temporal_partitioning : string)
  (filename_pattern : string) : Res (Dict Group) :=
  (* Retrieve start time and end_time of each file *)
  do (l_start_time, l_end_time) <-
    repo_get_start_end_time_from_filepaths (trollsift E) filepaths
      filename_pattern;
  (* Initialize start_time and end_time if None *)
  do start_time <- match start_time with
                   | None => ts_minimum l_start_time
                   | Some t => Ok t
                   end;
  do end_time <- match end_time with
                 | None => ts_maximum l_end_time
                 | Some t => Ok t
                 end;
  (* Define possible group_start_time and group_end_time *)
  do list_group_periods <-
    get_list_group_periods start_time end_time temporal_partitioning;
  (* List all filepaths for each time group *)
  collect_groups E filepaths l_start_time l_end_time list_group_periods [].

(** Update mode: remove the files of the destination partition that start
    with the time prefix of a group to be rewritten. *)
Definition remove_archived_files (time_prefixes existing_filepaths : list string)
  : M unit :=
  for_each time_prefixes (fun time_prefix =>
    for_each existing_filepaths (fun filepath =>
      if startswith (basename filepath) time_prefix
      then os_remove filepath
      else ret tt)).

(** The Parquet, computing and scanner options of [merge_granule_buckets]. *)
Record MergeOptions := mkMergeOptions {
  row_group_size : PyVal;
  max_file_size : PyVal;
  compression : PyVal;
  compression_level : PyVal;
  write_statistics : PyVal;
  max_open_files : PyVal;
  use_threads : PyVal;
  batch_size : PyVal;
  batch_readahead : PyVal;
  fragment_readahead : PyVal
}.

Definition default_options : MergeOptions :=
  mkMergeOptions (VStr "200MB") (VStr "2GB") (VStr "snappy") VNone
    (VBool false) (VInt 0) (VBool true) (VInt 131072) (VInt 10) (VInt 20).

Definition scanner_kwargs (o : MergeOptions) : Dict PyVal :=
  [("batch_size", batch_size o); ("batch_readahead", batch_readahead o);
   ("fragment_readahead", fragment_readahead o); ("use_threads", use_threads o)].

(** The files of a partition that are left to consolidate (the first two
    steps of an iteration over the partitions). *)
Definition partition_filepaths (E : Collaborators) (filename_pattern : string)
  (start_time end_time : option Timestamp)
  (list_src_partition_dir : list string) (f : FileSystem)
  : Res (list string) :=
  (* Retrieve all available filepaths (sorted) *)
  do filepaths <- get_filepaths_within_paths E list_src_partition_dir f;
  (* Filter by time window *)
  match start_time, end_time with
  | Some start_time, Some end_time =>
      filter_filepaths E filepaths start_time end_time filename_pattern
  | _, _ => Ok filepaths
  end.

(** One iteration of the loop over the partitions. *)
Definition merge_partition (E : Collaborators)
  (dst_bucket_dir filename_pattern temporal_partitioning : string)
  (start_time end_time : option Timestamp) (update : bool)
  (o : MergeOptions) (writer_kwargs : Dict PyVal)
  (partition : string * list string) : M unit :=
  let '(partition_label, list_src_partition_dir) := partition in
  filepaths <-
    reading (partition_filepaths E filename_pattern start_time end_time
               list_src_partition_dir) ;;
  (* Check file left *)
  if (List.length filepaths =? 0)%nat then
    print (NoDataToConsolidate partition_label)
  else
    (* Define destination partition directory *)
    let dst_partition_dir := path_join dst_bucket_dir partition_label in
    (* If the directory already exists and update=False, raise an error ! *)
    already_there <-
      (if negb update then path_exists dst_partition_dir else ret false) ;;
    if already_there then raise (PartitionAlreadyExists partition_label)
    else
      (* Define groups to create *)
      groups_dict <-
        lift (group_files_by_time E filepaths start_time end_time
                temporal_partitioning filename_pattern) ;;
      (* If update=True, remove archived destination files of groups to be
         updated *)
      (if update then
         (* Ensure partition directory exists *)
         os_makedirs dst_partition_dir ;;
         (* Retrieve path of existing files in the destination archive *)
         existing_filepaths <-
           reading (list_and_filter_files E dst_partition_dir) ;;
         (* Remove files that starts with the same time_prefix (old file) *)
         remove_archived_files (dict_keys groups_dict) existing_filepaths
       else ret tt) ;;
      (* Save a consolidated parquet by the specified time group *)
      for_each groups_dict
        (fun '(time_prefix, (group_start_time, group_end_time, src_filepaths)) =>
           (* Define filename pattern *)
           let basename_template := (time_prefix ++ "_" ++ "{i}.parquet")%string in
           (* Read Dataset, define scanner, rewrite dataset *)
           on_fs (scan_and_write_dataset E src_filepaths
                    group_start_time group_end_time
                    dst_partition_dir basename_template
                    (scanner_kwargs o) writer_kwargs)).

(** The checks of the arguments when [update=True] (the first block of
    [merge_granule_buckets]). *)
Definition check_update_arguments (E : Collaborators) (dst_bucket_dir : string)
  (start_time end_time : option Timestamp) (update write_metadata : bool)
  : M (option Timestamp * option Timestamp) :=
  if update then
    (* Check destination bucket dir exists if update=True *)
    dst_exists <- path_exists dst_bucket_dir ;;
    if negb dst_exists then raise (DestinationMissing dst_bucket_dir)
    (* Check write_metadata argument *)
    else if write_metadata then
      raise (mkExn NotImplementedError
               "If update=True, it is currently not possible to update the metadata.")
    else
      (* Check start_time and end_time *)
      match start_time, end_time with
      | Some start_time, Some end_time =>
          '(start_time, end_time) <-
            lift (check_start_end_time E start_time end_time) ;;
          ret (Some start_time, Some end_time)
      | _, _ => raise MissingTimeBounds
      end
  else ret (start_time, end_time).

(** What [merge_granule_buckets] has settled when it enters the loop over
    the partitions. *)
Record MergeContext (E : Collaborators) := mkMergeContext {
  ctx_start_time : option Timestamp;
  ctx_end_time : option Timestamp;
  ctx_temporal_partitioning : string;
  ctx_dict_partitions : Dict (list string);
  ctx_writer_kwargs : Dict PyVal;
  ctx_metadata_collector : option (MetadataCollector E)
}.
Arguments ctx_start_time {E} _.
Arguments ctx_end_time {E} _.
Arguments ctx_temporal_partitioning {E} _.
Arguments ctx_dict_partitions {E} _.
Arguments ctx_writer_kwargs {E} _.
Arguments ctx_metadata_collector {E} _.

(** The template table without the columns of the levels of the
    partitioning, when it has them all. *)
Definition without_levels (E : Collaborators)
  (dst_spatial_partitioning : SpatialPartitioning (DataFrame E))
  (template_table : Table E) : Table E :=
  if forallb (fun level => existsb (String.eqb level)
                             (column_names E template_table))
       (levels dst_spatial_partitioning)
  then drop_columns E template_table (levels dst_spatial_partitioning)
  else template_table.

(** The keywords of the writer that [merge_granule_buckets] puts together. *)
Definition merge_writer_kwargs (o : MergeOptions) (write_metadata : bool)
  : Dict PyVal :=
  [("row_group_size", row_group_size o);
   ("max_file_size", max_file_size o);
   ("compression", compression o);
   ("compression_level", compression_level o);
   ("max_open_files", max_open_files o);
   ("use_threads", use_threads o);
   ("write_metadata", VBool write_metadata);
   ("write_statistics", write_statistics o)].

(** [merge_granule_buckets] up to the loop over the partitions. *)
Definition merge_setup (E : Collaborators)
  (src_bucket_dir dst_bucket_dir : string)
  (dst_spatial_partitioning : option (SpatialPartitioning (DataFrame E)))
  (temporal_partitioning : string)
  (start_time end_time : option Timestamp)
  (update : bool) (write_metadata : bool) (o : MergeOptions)
  : M (MergeContext E) :=
  (* Check arguments for update=True *)
  '(start_time, end_time) <-
    check_update_arguments E dst_bucket_dir start_time end_time
      update write_metadata ;;
  (* Retrieve source spatial partitioning *)
  src_spatial_partitioning <-
    reading (get_bucket_spatial_partitioning E src_bucket_dir) ;;
  (* Retrieve destination spatial partitioning *)
  '(dst_spatial_partitioning, temporal_partitioning) <-
    (if update then
       dst_spatial_partitioning <-
         reading (get_bucket_spatial_partitioning E dst_bucket_dir) ;;
       temporal_partitioning <-
         reading (get_bucket_temporal_partitioning E dst_bucket_dir) ;;
       ret (dst_spatial_partitioning, temporal_partitioning)
     else
       match dst_spatial_partitioning with
       | None => ret (src_spatial_partitioning, temporal_partitioning)
       | Some _ =>
           raise (mkExn NotImplementedError "Repartitioning not implemented yet.")
       end) ;;
  (* Check temporal partitioning *)
  lift (check_temporal_partitioning temporal_partitioning) ;;
  (* Identify destination partitions *)
  dict_partitions <-
    define_dict_partitions E src_bucket_dir src_spatial_partitioning None ;;
  let n_partitions := Z.of_nat (List.length dict_partitions) in
  print (PartitionsToProcess n_partitions) ;;
  (* Write bucket info *)
  (if negb update
   then on_fs (write_bucket_info E dst_bucket_dir dst_spatial_partitioning
                 (Some temporal_partitioning))
   else ret tt) ;;
  (* Retrieve table schema *)
  template_table <- get_template_table E dict_partitions ;;
  let template_table :=
    without_levels E dst_spatial_partitioning template_table in
  (* Define writer_kwargs *)
  let writer_kwargs := merge_writer_kwargs o write_metadata in
  '(writer_kwargs, metadata_collector) <-
    lift (preprocess_writer_kwargs E writer_kwargs template_table) ;;
  (* Concatenate data within bins *)
  print StartConcatenating ;;
  ret (mkMergeContext E start_time end_time temporal_partitioning
         dict_partitions writer_kwargs metadata_collector).

(** The loop over the partitions. *)
Definition merge_partitions (E : Collaborators)
  (dst_bucket_dir filename_pattern : string) (update : bool)
  (o : MergeOptions) (ctx : MergeContext E)
  (partitions : Dict (list string)) : M unit :=
  for_each partitions
    (merge_partition E dst_bucket_dir filename_pattern
       (ctx_temporal_partitioning ctx)
       (ctx_start_time ctx) (ctx_end_time ctx) update o
       (ctx_writer_kwargs ctx)).

(** The elapsed-time line that the decorator prints when the routine
    returns is left out. *)
Definition merge_granule_buckets (E : Collaborators)
  (src_bucket_dir dst_bucket_dir filename_pattern : string)
  (dst_spatial_partitioning : option (SpatialPartitioning (DataFrame E)))
  (temporal_partitioning : string)
  (start_time end_time : option Timestamp)
  (update : bool) (write_metadata : bool) (o : MergeOptions) : M unit :=
  ctx <- merge_setup E src_bucket_dir dst_bucket_dir dst_spatial_partitioning
           temporal_partitioning start_time end_time update write_metadata o ;;
  merge_partitions E dst_bucket_dir filename_pattern update o ctx
    (ctx_dict_partitions ctx) ;;
  (* Write metadata if asked *)
  match ctx_metadata_collector ctx with
  | Some metadata_collector =>
      if write_metadata && collector_filled E metadata_collector
      then on_fs (write_dataset_metadata E dst_bucket_dir metadata_collector)
      else ret tt
  | None => ret tt
  end.

(* ------------------------------------------------------------------------- *)
(** ** routines.py: the row filter of a window *)

(** The pyarrow expressions that [define_dataset_filter] builds. *)
Inductive Expression :=
| FieldGe (name : string) (t : Timestamp)    (* field(name) >= t *)
| FieldLt (name : string) (t : Timestamp)    (* field(name) < t *)
| And (a b : Expression).                    (* a & b *)

Definition define_dataset_filter (start_time end_time : Timestamp)
  : Expression :=
  let time_filter := And (FieldGe "time" start_time) (FieldLt "time" end_time) in
  let dataset_filter := time_filter in
  dataset_filter.

(* ------------------------------------------------------------------------- *)
(** ** A small archive to run the routines on

    Modelled from the spec: the modules satbucket.io, satbucket.checks,
    satbucket.filters, satbucket.writers and satbucket.utils.directories are
    not among the sources, and pyarrow is a library.  The collaborators
    below follow what the specification says of them (the archive metadata
    record, the directory layout [bucket_root/<labels>/file], the file names
    [<prefix>_<sequence>.parquet], the files of a window being those whose
    time range intersects it) and are only used to run the routines on
    examples.  A dataframe is a list of rows already paired with the label
    of their partition; a file holds the rows written to it; the archive
    metadata is a file [bucket_info.yaml] holding the temporal
    granularity. *)

Definition endswith (s suffix : string) : bool :=
  let n := String.length s in
  let k := String.length suffix in
  (k <=? n)%nat && (String.substring (n - k) k s =? suffix)%string.

(** [os.path.dirname(p)] *)
Definition dirname (p : string) : string :=
  let i := rfind sep p in
  if i <? 0 then "" else if i =? 0 then "/" else slice p 0 i.

Definition write_file (p content : string) (f : FileSystem) : FileSystem :=
  mkFS (dirs f ++ filter (fun d => negb (is_dir f d))
                    (path_prefixes "" (dirname p)))
       (filter (fun e => negb (String.eqb p (fst e))) (files f) ++ [(p, content)]).

Definition read_file (p : string) (f : FileSystem) : option string :=
  match filter (fun e => String.eqb p (fst e)) (files f) with
  | (_, content) :: _ => Some content
  | [] => None
  end.

Definition files_in (dir extension : string) (f : FileSystem) : list string :=
  filter (fun p => String.eqb (dirname p) dir && endswith p extension)
    (map fst (files f)).

Definition SampleFrame : Type := list (string * string).

Definition sample_partitioning : SpatialPartitioning SampleFrame :=
  mkSpatialPartitioning SampleFrame
    (fun df _ _ => Ok df)
    ["lon_bin"; "lat_bin"] (VStr "hive") ["lon_bin"; "lat_bin"] 2
    ["lon_bin=0/lat_bin=0"; "lon_bin=0/lat_bin=1"; "lon_bin=1/lat_bin=0"].

Definition sample_info_file (bucket_dir : string) : string :=
  path_join bucket_dir "bucket_info.yaml".

Definition sample_write_bucket_info (bucket_dir : string)
  (sp : SpatialPartitioning SampleFrame) (temporal_partitioning : option string)
  (f : FileSystem) : Res unit * FileSystem :=
  (Ok tt,
   write_file (sample_info_file bucket_dir)
     (match temporal_partitioning with Some tp => tp | None => "" end) f).

Fixpoint sample_write_rows (base_dir filename_prefix : string)
  (df : SampleFrame) (f : FileSystem) : FileSystem :=
  match df with
  | [] => f
  | (label, row) :: rest =>
      let p := path_join (path_join base_dir label)
                 (filename_prefix ++ "_0.parquet")%string in
      let old := match read_file p f with Some c => c | None => "" end in
      sample_write_rows base_dir filename_prefix rest
        (write_file p (old ++ row ++ ";")%string f)
  end.

(** The time range of each granule, by the base name of its bucket file. *)
Definition GranuleTimes : Type := list (string * (Timestamp * Timestamp)).

(** A trollsift parser that recognises the granules of [times]. *)
Definition sample_parser (times : GranuleTimes) : Parser :=
  mkParser (fun filename_pattern filename =>
    match dict_get times filename with
    | Some (s, e) => Ok [("start_time", IDatetime s); ("end_time", IDatetime e)]
    | None => Raise (mkExn ValueError "no match")
    end).

Definition sample_collaborators (P : Parser) : Collaborators :=
  {| DataFrame := SampleFrame;
     Table := list string;
     MetadataCollector := unit;
     check_start_end_time := fun s e =>
       if ts_ltb e s
       then Raise (mkExn ValueError "Provide start_time occurring before of end_time")
       else Ok (s, e);
     filter_filepaths := fun filepaths s e pattern =>
       do times <- repo_get_start_end_time_from_filepaths P filepaths pattern;
       Ok (map fst (filter (fun x => ts_ltb (fst (snd x)) e && ts_ltb s (snd (snd x)))
                      (combine filepaths (combine (fst times) (snd times)))));
     is_within_time_period := fun l_start l_end s e =>
       map (fun x => ts_ltb (fst x) e && ts_ltb s (snd x)) (combine l_start l_end);
     trollsift := P;
     delayed_str := "Delayed('_try_write_granule_bucket-0')";
     get_bucket_spatial_partitioning := fun bucket_dir f =>
       if is_file f (sample_info_file bucket_dir) then Ok sample_partitioning
       else Raise (mkExn OSError "bucket_info.yaml not found");
     get_bucket_temporal_partitioning := fun bucket_dir f =>
       match read_file (sample_info_file bucket_dir) f with
       | Some tp => Ok tp
       | None => Raise (mkExn OSError "bucket_info.yaml not found")
       end;
     get_exisiting_partitions_paths := fun bucket_dir dir_trees f =>
       Ok (filter (is_dir f) (map (path_join bucket_dir) dir_trees));
     get_filepaths_within_paths := fun paths f =>
       Ok (flat_map (fun dir => files_in dir ".parquet" f) paths);
     write_bucket_info := sample_write_bucket_info;
     get_first_file := fun path f =>
       Ok (match files_in path "" f with p :: _ => Some p | [] => None end);
     list_and_filter_files := fun path f => Ok (files_in path ".parquet" f);
     preprocess_writer_kwargs := fun writer_kwargs table => Ok (writer_kwargs, None);
     write_dataset_metadata := fun base_dir collector f => (Ok tt, f);
     write_partitioned_dataset :=
       fun df base_dir filename_prefix partitions partitioning_flavor kwargs f =>
         (Ok tt, sample_write_rows base_dir filename_prefix df f);
     read_table := fun filepath f =>
       if is_file f filepath then Ok ["time"; "value"]
       else Raise (mkExn FileNotFoundError filepath);
     column_names := fun table => table;
     drop_columns := fun table columns =>
       filter (fun c => negb (existsb (String.eqb c) columns)) table;
     collector_filled := fun _ => false;
     scan_and_write_dataset :=
       fun src_filepaths group_start group_end base_dir basename_template
           scanner_options writer_kwargs f =>
         let prefix := slice basename_template 0
                         (str_len basename_template - str_len "{i}.parquet") in
         (Ok tt,
          write_file (path_join base_dir (prefix ++ "0.parquet")%string)
            (String.concat ""
               (map (fun p => match read_file p f with
                              | Some c => c | None => "" end) src_filepaths))
            f) |}.

(** Two granules, January and October 2021. *)
Definition granule_jan : string :=
  "2A.GPM.DPR.V9-20211125.20210105-S013942-E031214.041760.V07A".
Definition granule_oct : string :=
  "2A.GPM.DPR.V9-20211125.20211005-S013942-E031214.041760.V07A".

Definition hms (h m s : Z) : Z := (h * 3600 + m * 60 + s) * 1000000000.

Definition sample_granule_times : GranuleTimes :=
  [((granule_jan ++ "_0.parquet")%string,
    (mkTimestamp 2021 1 5 (hms 1 39 42), mkTimestamp 2021 1 5 (hms 3 12 14)));
   ((granule_oct ++ "_0.parquet")%string,
    (mkTimestamp 2021 10 5 (hms 1 39 42), mkTimestamp 2021 10 5 (hms 3 12 14)))].

(** The package on the sample archive. *)
Definition package_collaborators : Collaborators :=
  sample_collaborators (sample_parser sample_granule_times).

Definition sample_extractor : string -> FileSystem -> Res (option SampleFrame) :=
  fun src_filepath f =>
    match read_file src_filepath f with
    | None => Raise (mkExn OSError ("Unable to open " ++ src_filepath)%string)
    | Some content =>
        if (content =? "")%string then Ok None
        else if (content =? "corrupted")%string
             then Raise (mkExn ValueError ("Corrupted granule " ++ src_filepath)%string)
             else Ok (Some [("lon_bin=0/lat_bin=0", content);
                            ("lon_bin=1/lat_bin=0", content)])
    end.

Definition empty_world : World := mkWorld (mkFS [] []) [].

Definition granules_world : World :=
  mkWorld
    (write_file ("/data/" ++ granule_oct ++ ".HDF5")%string "row_oct"
       (write_file ("/data/" ++ granule_jan ++ ".HDF5")%string "row_jan"
          (mkFS [] [])))
    [].

Definition granule_paths : list string :=
  [("/data/" ++ granule_jan ++ ".HDF5")%string;
   ("/data/" ++ granule_oct ++ ".HDF5")%string].

(** The world after the two granules have been bucketed under [/granules]. *)
Definition bucket_world : World :=
  snd (write_granules_bucket package_collaborators granule_paths
         "/granules" sample_partitioning sample_extractor
         false None 500 false (VStr "500MB") [] granules_world).

Definition merge_sample (E : Collaborators) (temporal_partitioning : string)
  (start_time end_time : option Timestamp) (update write_metadata : bool)
  : M unit :=
  merge_granule_buckets E "/granules" "/bucket" "{pattern}" None
    temporal_partitioning start_time end_time update write_metadata
    default_options.

(** The world after a first merge by month has been attempted: the
    information of the destination bucket is written, no partition is. *)
Definition attempted_world : World :=
  mkWorld (fs (snd (merge_sample package_collaborators "month" None None
                      false false bucket_world)))
          [].

(* ------------------------------------------------------------------------- *)
(** ** What the statements below are about *)

(** The granularities for which the windows are defined. *)
Definition supported (temporal_partitioning : string) : Prop :=
  temporal_partitioning = "year" \/ temporal_partitioning = "month" \/
  temporal_partitioning = "quarter" \/ temporal_partitioning = "day".


Definition within (p : Period) (t : Timestamp) : Prop :=
  ts_le (period_start p) t /\ ts_lt t (period_end p).

Definition disjoint (p q : Period) : Prop :=
  forall t, ~ (within p t /\ within q t).

Definition ordered_by_time (ws : list Period) : Prop :=
  StronglySorted (fun p q => ts_lt (period_start p) (period_start q)) ws.

Definition pairwise_disjoint (ws : list Period) : Prop :=
  ForallOrdPairs disjoint ws.

Fixpoint contiguous (ws : list Period) : Prop :=
  match ws with
  | p :: (q :: _) as rest => period_end p = period_start q /\ contiguous rest
  | _ => True
  end.

Definition union_is (ws : list Period) (a b : Timestamp) : Prop :=
  forall t, (exists p, In p ws /\ within p t) <-> (ts_le a t /\ ts_lt t b).

(** A non-empty run of non-empty windows leading from [a] to [b] without a
    gap. *)
Inductive chain : Timestamp -> Timestamp -> list Period -> Prop :=
| chain_last p :
    ts_lt (period_start p) (period_end p) ->
    chain (period_start p) (period_end p) [p]
| chain_step p b ws :
    ts_lt (period_start p) (period_end p) ->
    chain (period_end p) b ws ->
    chain (period_start p) b (p :: ws).

(** What the windows produced from the boundary [a] on amount to: a chain
    from [a] to [e], or nothing when [a] is not before [e]. *)
Definition covers_from (a e : Timestamp) (ws : list Period) : Prop :=
  (ts_lt a e /\ chain a e ws) \/ (ts_le e a /\ ws = []).


(** What the ingestion of one granule does to the file system, and whether
    it raises. *)
Definition granule_outcome (E : Collaborators) (bucket_dir : string)
  (sp : SpatialPartitioning (DataFrame E)) (extractor : Extractor E)
  (kwargs : Dict PyVal) (src_filepath : string) (f : FileSystem)
  : Res unit * FileSystem :=
  let '(r, w') :=
    write_granule_bucket E src_filepath bucket_dir sp extractor
      (keyword_or kwargs "x" "lon") (keyword_or kwargs "y" "lat")
      (dict_pop (dict_pop kwargs "x") "y") (mkWorld f []) in
  (r, fs w').

(** The granules ingested one after the other: the failure records, and the
    file system at the end. *)
Fixpoint ingest_in_order (outcome : string -> FileSystem -> Res unit * FileSystem)
  (srcs : list string) (f : FileSystem) : list (string * string) * FileSystem :=
  match srcs with
  | [] => ([], f)
  | src :: rest =>
      let '(r, f1) := outcome src f in
      let '(errors, f2) := ingest_in_order outcome rest f1 in
      (match r with
       | Raise e => (src, exn_msg e) :: errors
       | Ok _ => errors
       end, f2)
  end.

(** The failure records among the printed lines. *)
Definition failure_records (out : list Output) : list (string * string) :=
  flat_map (fun o => match o with
                     | IngestionError src_filepath error_str =>
                         [(src_filepath, error_str)]
                     | _ => []
                     end) out.


Definition no_data_world : World :=
  mkWorld (write_file "/data/empty.HDF5" "" (mkFS [] [])) [].






(** Five granules; the extraction of the third one raises. *)
Definition five_granules : list string :=
  ["/data/g1.HDF5"; "/data/g2.HDF5"; "/data/g3.HDF5"; "/data/g4.HDF5";
   "/data/g5.HDF5"].

Definition third_fails : string -> FileSystem -> Res (option SampleFrame) :=
  fun src_filepath f =>
    if (src_filepath =? "/data/g3.HDF5")%string
    then Raise (mkExn ValueError "Corrupted granule")
    else Ok (Some [("lon_bin=0/lat_bin=0", src_filepath)]).

(* ------------------------------------------------------------------------- *)
(** ** The calendar and the boundaries *)

(** A date of the calendar, whatever the time of day. *)
Definition in_calendar (t : Timestamp) : Prop :=
  1 <= month t <= 12 /\ 1 <= day t <= days_in_month (year t) (month t).

(** The boundaries on the calendar alone: what
    [get_partitioning_boundaries] returns when none of the timestamps it
    builds leaves the range (see [boundaries_on_calendar]). *)
Definition calendar_boundaries
  (start_time end_time : Timestamp) (temporal_partitioning : string)
  : Res (list Timestamp) :=
  if (temporal_partitioning =? "year")%string then
    let end_time :=
      if negb (ts_eqb end_time (midnight (year end_time) 1 1))
      then add_years end_time 1 else end_time in
    Ok (date_range (midnight (year start_time) 1 1)
                   (midnight (year end_time) 1 1) YS)
  else if (temporal_partitioning =? "month")%string then
    let end_time :=
      if negb (ts_eqb end_time (midnight (year end_time) (month end_time) 1))
      then add_months end_time 1 else end_time in
    Ok (date_range (midnight (year start_time) (month start_time) 1)
                   (midnight (year end_time) (month end_time) 1) MS)
  else if (temporal_partitioning =? "quarter")%string then
    let start_quarter_idx := (month start_time - 1) / 3 + 1 in
    let start_quarter_start_month := 3 * (start_quarter_idx - 1) + 1 in
    let end_quarter_idx := (month end_time - 1) / 3 + 1 in
    let end_quarter_start_month := 3 * (end_quarter_idx - 1) + 1 in
    let '(end_time, end_quarter_start_month) :=
      if negb (ts_eqb end_time
                 (midnight (year end_time) end_quarter_start_month 1))
      then
        let end_time := add_months end_time 3 in
        let end_quarter_idx := (month end_time - 1) / 3 + 1 in
        (end_time, 3 * (end_quarter_idx - 1) + 1)
      else (end_time, end_quarter_start_month) in
    Ok (date_range (midnight (year start_time) start_quarter_start_month 1)
                   (midnight (year end_time) end_quarter_start_month 1) QS)
  else if (temporal_partitioning =? "day")%string then
    let end_time :=
      if negb (ts_eqb end_time (normalize end_time))
      then add_one_day (normalize end_time) else end_time in
    Ok (date_range (midnight (year start_time) (month start_time) (day start_time))
                   end_time D)
  else Raise (invalid_temporal_partitioning temporal_partitioning).

(** The windows over the boundaries of the calendar. *)
Definition calendar_windows
  (start_time end_time : Timestamp) (temporal_partitioning : string)
  : Res (list Period) :=
  do boundaries <- calendar_boundaries start_time end_time
                     temporal_partitioning;
  group_periods_loop start_time end_time temporal_partitioning boundaries.

(** Years in which no timestamp that the boundaries need leaves the range
    of the timestamps. *)
Definition years_in_range (start_time end_time : Timestamp) : Prop :=
  1678 <= year start_time /\ year end_time <= 2260.

(** The frequency that [get_partitioning_boundaries] passes to [date_range]
    for a granularity. *)
Definition freq_of (temporal_partitioning : string) : Freq :=
  if (temporal_partitioning =? "year")%string then YS
  else if (temporal_partitioning =? "month")%string then MS
  else if (temporal_partitioning =? "quarter")%string then QS
  else D.

(** Each element is followed by its next offset, and the next offset of the
    last one is after [e]. *)
Fixpoint regular (f : Freq) (e : Timestamp) (bs : list Timestamp) : Prop :=
  match bs with
  | [] => True
  | x :: rest =>
      match rest with
      | [] => ts_lt e (offset_next f x)
      | y :: _ => y = offset_next f x
      end /\ regular f e rest
  end.

(** A midnight on the offset of the frequency. *)
Definition boundary (f : Freq) (b : Timestamp) : Prop :=
  in_calendar b /\ nanos b = 0 /\ on_offset f b = true.

(** The calendar unit of a timestamp for a granularity: the year, the year
    and the month, the year and the quarter, or the date. *)
Definition calendar_unit (temporal_partitioning : string) (t : Timestamp)
  : list Z :=
  if (temporal_partitioning =? "year")%string then [year t]
  else if (temporal_partitioning =? "month")%string then [year t; month t]
  else if (temporal_partitioning =? "quarter")%string
       then [year t; (month t - 1) / 3 + 1]
       else [year t; month t; day t].

(** Whether the character occurs in the string. *)
Fixpoint has_char (c : ascii) (s : string) : bool :=
  match s with
  | EmptyString => false
  | String a rest => Ascii.eqb a c || has_char c rest
  end.

(** A window produced for the boundary [b]: it starts at the boundary or at
    [start_time], whichever is later, ends by the next offset, and carries
    the prefix of its start. *)
Definition anchored (f : Freq) (start_time : Timestamp) (tp : string)
  (b : Timestamp) (p : Period) : Prop :=
  period_start p = ts_max b start_time /\
  ts_lt (period_start p) (period_end p) /\
  ts_le (period_end p) (offset_next f b) /\
  get_time_prefix (period_start p) tp = Ok (period_prefix p).

(** The windows are produced for boundaries taken in order, at most one
    window for each. *)
Inductive windows_of (f : Freq) (start_time : Timestamp) (tp : string)
  : list Timestamp -> list Period -> Prop :=
| windows_nil : windows_of f start_time tp [] []
| windows_skip b bs ws :
    windows_of f start_time tp bs ws ->
    windows_of f start_time tp (b :: bs) ws
| windows_take b bs p ws :
    anchored f start_time tp b p ->
    windows_of f start_time tp bs ws ->
    windows_of f start_time tp (b :: bs) (p :: ws).

(* ------------------------------------------------------------------------- *)
(** ** The rows which a filter keeps *)

(** A row gives each column a value or null. The value of an expression on
    a row is a boolean or null (a comparison with null is null; the
    conjunction is Kleene's). *)
Definition Row : Type := string -> option Timestamp.

Fixpoint evaluate (x : Expression) (row : Row) : option bool :=
  match x with
  | FieldGe name t => option_map (fun v => ts_leb t v) (row name)
  | FieldLt name t => option_map (fun v => ts_ltb v t) (row name)
  | And a b =>
      match evaluate a row, evaluate b row with
      | Some false, _ | _, Some false => Some false
      | Some true, Some true => Some true
      | _, _ => None
      end
  end.

(** The scanner keeps the rows on which the filter is true. *)
Definition selects (x : Expression) (row : Row) : bool :=
  match evaluate x row with
  | Some true => true
  | _ => false
  end.

(** The windows whose filter keeps the row. *)
Definition selecting_windows (ws : list Period) (row : Row) : list Period :=
  filter (fun p => selects (define_dataset_filter (period_start p) (period_end p))
                     row) ws.

(* ------------------------------------------------------------------------- *)
(** ** The files of the groups *)

(** [filepath] is removed for [time_prefix]. *)
Definition matches (time_prefix filepath : string) : bool :=
  startswith (basename filepath) time_prefix.

(** [path] is one of the listed files and its name starts with one of the time
    prefixes. *)
Definition rewritten (time_prefixes existing_filepaths : list string)
  (path : string) : bool :=
  existsb (String.eqb path) existing_filepaths
  && existsb (fun time_prefix => matches time_prefix path) time_prefixes.

(** The number of time prefixes which the name of [filepath] starts with. *)
Definition n_matches (time_prefixes : list string) (filepath : string) : nat :=
  List.length (filter (fun time_prefix => matches time_prefix filepath)
                 time_prefixes).

(** The files which the mask of a window selects. *)
Definition selected (E : Collaborators) (filepaths : list string)
  (l_start_time l_end_time : list Timestamp) (p : Period) : list string :=
  map fst (filter snd
             (combine filepaths
                (is_within_time_period E l_start_time l_end_time
                   (period_start p) (period_end p)))).

(** One group for each window that selects a file, in the order of the
    windows. *)
Definition groups_of (E : Collaborators) (filepaths : list string)
  (l_start_time l_end_time : list Timestamp) (ws : list Period) : Dict Group :=
  flat_map (fun p =>
              match selected E filepaths l_start_time l_end_time p with
              | [] => []
              | files =>
                  [(period_prefix p, (period_start p, period_end p, files))]
              end) ws.

(* ------------------------------------------------------------------------- *)
(** ** The keywords of the writer *)

(** None of the keywords of the writer is the name of an argument that the
    loop over the granules passes by name. *)
Definition passes_no_explicit_keyword (writer_kwargs : Dict PyVal) : Prop :=
  forall k, In k (dict_keys writer_kwargs) -> ~ In k explicit_keywords.

(* ------------------------------------------------------------------------- *)
(** ** Sample inputs *)

(** A parser whose result is the given dictionary, whatever the name. *)
Definition parsed (fields : InfoDict) : Parser :=
  mkParser (fun _ _ => Ok fields).

(** The first granule is corrupted, the run is interrupted at the third. *)
Definition third_interrupted : string -> FileSystem -> Res (option SampleFrame) :=
  fun src_filepath f =>
    if (src_filepath =? "/data/g3.HDF5")%string
    then Raise (mkExn KeyboardInterrupt "")
    else if (src_filepath =? "/data/g1.HDF5")%string
    then Raise (mkExn ValueError "Corrupted granule")
    else Ok (Some [("lon_bin=0/lat_bin=0", src_filepath)]).


(* ========================================================================= *)
(** * Properties *)
(* ------------------------------------------------------------------------- *)
(** ** The chronological order *)

Lemma ts_eq_fields a b :
  a = b <->
  year a = year b /\ month a = month b /\ day a = day b /\ nanos a = nanos b.
Proof.
  split.
  - intros ->. repeat split.
  - destruct a, b; simpl. intros (-> & -> & -> & ->). reflexivity.
Qed.

Lemma ts_le_fields a b :
  ts_le a b <->
  year a < year b \/
  (year a = year b /\
   (month a < month b \/
    (month a = month b /\
     (day a < day b \/
      (day a = day b /\ nanos a <= nanos b))))).
Proof.
  unfold ts_le, ts_lt. rewrite ts_eq_fields. lia.
Qed.

(** Reduce a goal about the order to linear arithmetic on the fields. *)
Ltac ts_arith :=
  repeat match goal with
         | t : Timestamp |- _ => destruct t
         end;
  rewrite ?ts_le_fields, ?ts_eq_fields in *;
  unfold ts_lt, midnight, normalize in *; cbn [year month day nanos] in *; lia.

Lemma ts_ltb_lt a b : ts_ltb a b = true <-> ts_lt a b.
Proof.
  unfold ts_ltb, ts_lt.
  rewrite !orb_true_iff, !andb_true_iff, !orb_true_iff, !andb_true_iff,
    !orb_true_iff, !andb_true_iff, !Z.ltb_lt, !Z.eqb_eq.
  tauto.
Qed.

Lemma ts_ltb_nlt a b : ts_ltb a b = false <-> ~ ts_lt a b.
Proof.
  rewrite <- ts_ltb_lt. destruct (ts_ltb a b); intuition congruence.
Qed.

Lemma ts_eqb_eq a b : ts_eqb a b = true <-> a = b.
Proof.
  unfold ts_eqb. rewrite !andb_true_iff, !Z.eqb_eq, ts_eq_fields. tauto.
Qed.

Lemma ts_leb_le a b : ts_leb a b = true <-> ts_le a b.
Proof.
  unfold ts_leb, ts_le. rewrite orb_true_iff, ts_ltb_lt, ts_eqb_eq. tauto.
Qed.

Lemma ts_lt_irrefl a : ~ ts_lt a a.
Proof. ts_arith. Qed.

Lemma ts_lt_trans a b c : ts_lt a b -> ts_lt b c -> ts_lt a c.
Proof. intros; ts_arith. Qed.

Lemma ts_le_refl a : ts_le a a.
Proof. right; reflexivity. Qed.

Lemma ts_le_trans a b c : ts_le a b -> ts_le b c -> ts_le a c.
Proof. intros; ts_arith. Qed.

Lemma ts_lt_le_trans a b c : ts_lt a b -> ts_le b c -> ts_lt a c.
Proof. intros; ts_arith. Qed.

Lemma ts_le_lt_trans a b c : ts_le a b -> ts_lt b c -> ts_lt a c.
Proof. intros; ts_arith. Qed.

Lemma ts_lt_le a b : ts_lt a b -> ts_le a b.
Proof. left; assumption. Qed.

Lemma ts_nlt_le a b : ~ ts_lt a b <-> ts_le b a.
Proof. split; intros; ts_arith. Qed.

Lemma ts_nle_lt a b : ~ ts_le a b <-> ts_lt b a.
Proof. split; intros; ts_arith. Qed.

Lemma ts_lt_dec a b : {ts_lt a b} + {ts_le b a}.
Proof.
  destruct (ts_ltb a b) eqn:E.
  - left. now apply ts_ltb_lt.
  - right. now apply ts_nlt_le, ts_ltb_nlt.
Qed.

Lemma ts_max_spec a b :
  (ts_lt a b /\ ts_max a b = b) \/ (ts_le b a /\ ts_max a b = a).
Proof.
  unfold ts_max. destruct (ts_ltb a b) eqn:E.
  - left. split; [now apply ts_ltb_lt | reflexivity].
  - right. split; [now apply ts_nlt_le, ts_ltb_nlt | reflexivity].
Qed.

Lemma ts_min_spec a b :
  (ts_lt b a /\ ts_min a b = b) \/ (ts_le a b /\ ts_min a b = a).
Proof.
  unfold ts_min. destruct (ts_ltb b a) eqn:E.
  - left. split; [now apply ts_ltb_lt | reflexivity].
  - right. split; [now apply ts_nlt_le, ts_ltb_nlt | reflexivity].
Qed.

Lemma ts_min_same a : ts_min a a = a.
Proof. unfold ts_min. destruct (ts_ltb a a); reflexivity. Qed.

(* ------------------------------------------------------------------------- *)
(** ** Chains of windows *)

Lemma chain_lt a b ws : chain a b ws -> ts_lt a b.
Proof.
  induction 1; [assumption | eapply ts_lt_trans; eassumption].
Qed.

Lemma chain_bounds a b ws :
  chain a b ws ->
  Forall (fun p => ts_le a (period_start p) /\
                   ts_lt (period_start p) (period_end p) /\
                   ts_le (period_end p) b) ws.
Proof.
  induction 1 as [p Hp | p b ws Hp Hc IH].
  - constructor; [|constructor]. repeat split; auto using ts_le_refl.
  - constructor.
    + repeat split; auto using ts_le_refl.
      apply ts_lt_le. eapply chain_lt; eassumption.
    + eapply Forall_impl; [|exact IH]. simpl.
      intros q (H1 & H2 & H3). repeat split; auto.
      eapply ts_le_trans; [apply ts_lt_le; exact Hp | exact H1].
Qed.

Lemma chain_ordered a b ws : chain a b ws -> ordered_by_time ws.
Proof.
  unfold ordered_by_time.
  induction 1 as [p Hp | p b ws Hp Hc IH].
  - repeat constructor.
  - constructor; [exact IH|].
    eapply Forall_impl; [|exact (chain_bounds _ _ _ Hc)]. simpl.
    intros q (H1 & _). eapply ts_lt_le_trans; eassumption.
Qed.

Lemma chain_disjoint a b ws : chain a b ws -> pairwise_disjoint ws.
Proof.
  unfold pairwise_disjoint.
  induction 1 as [p Hp | p b ws Hp Hc IH].
  - repeat constructor.
  - constructor; [|exact IH].
    eapply Forall_impl; [|exact (chain_bounds _ _ _ Hc)]. simpl.
    intros q (H1 & _) t ((_ & Ht1) & (Ht2 & _)).
    apply (ts_lt_irrefl t).
    eapply ts_lt_le_trans; [exact Ht1|].
    eapply ts_le_trans; eassumption.
Qed.

Lemma chain_head a b ws :
  chain a b ws -> exists p rest, ws = p :: rest /\ period_start p = a.
Proof. destruct 1; eauto. Qed.

Lemma chain_contiguous a b ws : chain a b ws -> contiguous ws.
Proof.
  induction 1 as [p Hp | p b ws Hp Hc IH]; simpl; [exact I|].
  destruct (chain_head _ _ _ Hc) as (q & rest & -> & Hq).
  split; [symmetry; exact Hq | exact IH].
Qed.

Lemma chain_union a b ws : chain a b ws -> union_is ws a b.
Proof.
  unfold union_is, within.
  induction 1 as [p Hp | p b ws Hp Hc IH]; intros t.
  - split.
    + intros (q & [<- | []] & Hq). exact Hq.
    + intros Ht. exists p. split; [left; reflexivity | exact Ht].
  - pose proof (chain_lt _ _ _ Hc) as Hlt. split.
    + intros (q & [<- | Hin] & Hq1 & Hq2).
      * split; [exact Hq1 | eapply ts_lt_trans; eassumption].
      * destruct (proj1 (IH t)) as (H1 & H2); [eauto|].
        split; [|exact H2].
        eapply ts_le_trans; [apply ts_lt_le; exact Hp | exact H1].
    + intros (H1 & H2). destruct (ts_lt_dec t (period_end p)) as [Hl | Hg].
      * exists p. split; [left; reflexivity | split; assumption].
      * destruct (proj2 (IH t)) as (q & Hin & Hq); [split; assumption|].
        exists q. split; [right; exact Hin | exact Hq].
Qed.

(* ------------------------------------------------------------------------- *)
(** ** The loop of [get_list_group_periods] *)

Lemma get_time_prefix_supported t tp :
  supported tp -> exists s, get_time_prefix t tp = Ok s.
Proof.
  intros [-> | [-> | [-> | ->]]]; unfold get_time_prefix; simpl; eauto.
Qed.

Lemma group_periods_loop_covers tp s e bs :
  supported tp ->
  LocallySorted ts_lt bs ->
  exists ws,
    group_periods_loop s e tp bs = Ok ws /\
    match bs with
    | [] => ws = []
    | b :: _ => covers_from (ts_max b s) e ws
    end.
Proof.
  intros Htp. induction bs as [|b rest IH]; intros Hs.
  - exists []. split; reflexivity.
  - simpl. destruct (get_time_prefix_supported (ts_max b s) tp Htp) as (pre & ->).
    simpl. destruct rest as [|b' rest'].
    + simpl. rewrite ts_min_same. exists (if ts_ltb (ts_max b s) e
                                          then [(pre, ts_max b s, e)] else []).
      split; [reflexivity|]. destruct (ts_ltb (ts_max b s) e) eqn:E.
      * left. apply ts_ltb_lt in E. split; [exact E|].
        apply (chain_last (pre, ts_max b s, e)). exact E.
      * right. split; [|reflexivity]. now apply ts_nlt_le, ts_ltb_nlt.
    + assert (Hbb : ts_lt b b') by (inversion Hs; assumption).
      destruct IH as (ws' & Hloop & Hcov); [inversion Hs; assumption|].
      rewrite Hloop. simpl. eexists; split; [reflexivity|].
      unfold covers_from in *.
      destruct (ts_ltb (ts_max b s) (ts_min b' e)) eqn:E.
      * apply ts_ltb_lt in E.
        assert (Hb' : ts_max b' s = b').
        { destruct (ts_max_spec b' s) as [[H1 H2]|[H1 H2]]; [|exact H2].
          exfalso. destruct (ts_max_spec b s) as [[G1 G]|[G1 G]];
          destruct (ts_min_spec b' e) as [[M1 G']|[M1 G']];
          rewrite G, G' in E; clear - E H1 Hbb G1 M1; ts_arith. }
        rewrite Hb' in Hcov. left.
        destruct Hcov as [[Hlt Hch] | [Hle ->]].
        -- assert (Hmin : ts_min b' e = b').
           { destruct (ts_min_spec b' e) as [[H1 _]|[_ H2]]; [|exact H2].
             exfalso. clear - H1 Hlt. ts_arith. }
           rewrite Hmin in *. split; [eapply ts_lt_trans; eassumption|].
           apply (chain_step (pre, ts_max b s, b')); assumption.
        -- assert (Hmin : ts_min b' e = e).
           { destruct (ts_min_spec b' e) as [[_ H2]|[H1 H2]]; [exact H2|].
             rewrite H2. clear - H1 Hle. ts_arith. }
           rewrite Hmin in *. split; [exact E|].
           apply (chain_last (pre, ts_max b s, e)). exact E.
      * apply ts_ltb_nlt, ts_nlt_le in E.
        destruct (ts_lt_dec (ts_max b s) e) as [Hlt | Hge].
        -- assert (Heq : ts_max b' s = ts_max b s).
           { destruct (ts_max_spec b s) as [[G1 G]|[G1 G]];
             destruct (ts_max_spec b' s) as [[K1 K]|[K1 K]];
             destruct (ts_min_spec b' e) as [[M1 M]|[M1 M]];
             rewrite G, ?K, M in *; try reflexivity;
             clear - E Hlt Hbb G1 K1 M1; ts_arith. }
           rewrite Heq in Hcov. destruct Hcov as [Hc | [Hle ->]].
           ++ left. exact Hc.
           ++ exfalso. clear - Hle Hlt. ts_arith.
        -- assert (Hge' : ts_le e (ts_max b' s)).
           { destruct (ts_max_spec b s) as [[G1 G]|[G1 G]];
             destruct (ts_max_spec b' s) as [[K1 K]|[K1 K]];
             rewrite G, K in *; clear - Hge Hbb G1 K1; ts_arith. }
           destruct Hcov as [[Hlt _] | [_ ->]].
           ++ exfalso. clear - Hlt Hge'. ts_arith.
           ++ right. split; [exact Hge | reflexivity].
Qed.

(* ------------------------------------------------------------------------- *)
(** ** [date_range] and the boundaries *)

Lemma days_in_month_bounds y m : 28 <= days_in_month y m <= 31.
Proof.
  unfold days_in_month.
  destruct (m =? 2); [destruct (is_leap_year y); lia|].
  destruct ((m =? 4) || (m =? 6) || (m =? 9) || (m =? 11)); lia.
Qed.

Lemma add_one_day_gt t : ts_lt t (add_one_day t).
Proof.
  unfold add_one_day.
  destruct (Z.ltb_spec (day t) (days_in_month (year t) (month t)));
    [|destruct (Z.ltb_spec (month t) 12)];
    unfold ts_lt; cbn [year month day nanos]; lia.
Qed.

Lemma offset_next_gt f t : ts_lt t (offset_next f t).
Proof.
  destruct f; cbn [offset_next].
  - unfold ts_lt; cbn [year month day nanos]; lia.
  - destruct (Z.ltb_spec (month t) 12); unfold ts_lt; cbn [year month day nanos]; lia.
  - cbv zeta. destruct (Z.ltb_spec (3 * ((month t - 1) / 3) + 1) 10);
      unfold ts_lt; cbn [year month day nanos]; [|lia].
    right. split; [reflexivity|]. left. Z.div_mod_to_equations. lia.
  - apply add_one_day_gt.
Qed.

Lemma date_range_from_sorted fuel f : forall cur e,
  LocallySorted ts_lt (date_range_from fuel f cur e).
Proof.
  induction fuel as [|fuel IH]; intros cur e; simpl; [constructor|].
  destruct (ts_leb cur e); [|constructor].
  specialize (IH (offset_next f cur) e).
  destruct fuel as [|fuel']; simpl in *; [constructor|].
  destruct (ts_leb (offset_next f cur) e); constructor.
  - exact IH.
  - apply offset_next_gt.
Qed.

Lemma date_range_sorted s e f : LocallySorted ts_lt (date_range s e f).
Proof. apply date_range_from_sorted. Qed.

Lemma date_range_head s e f :
  on_offset f s = true -> ts_le s e -> day_rank s <= day_rank e ->
  exists rest, date_range s e f = s :: rest.
Proof.
  intros Hon Hle Hrank. unfold date_range, rollforward. rewrite Hon.
  destruct (Z.to_nat (day_rank e - day_rank s + 1)) eqn:E; [lia|].
  simpl. apply ts_leb_le in Hle. rewrite Hle. eauto.
Qed.

Lemma add_months_fields t n :
  1 <= month t <= 12 -> 0 <= n <= 12 ->
  1 <= month (add_months t n) <= 12 /\
  12 * year (add_months t n) + month (add_months t n)
  = 12 * year t + month t + n.
Proof.
  intros Hm Hn. unfold add_months. cbv zeta. cbn [year month].
  Z.div_mod_to_equations. lia.
Qed.

Lemma quarter_start_month m :
  1 <= m <= 12 ->
  let q := 3 * (((m - 1) / 3 + 1) - 1) + 1 in
  (exists k, q = 3 * k + 1 /\ 0 <= k <= 3) /\ q <= m < q + 3 /\
  (q - 1) mod 3 = 0.
Proof.
  intros Hm q. subst q. split; [exists ((m - 1) / 3)|];
    Z.div_mod_to_equations; lia.
Qed.

Lemma valid_month t : valid_timestamp t -> 1 <= month t <= 12.
Proof. intros H; apply H. Qed.

Lemma valid_day t : valid_timestamp t -> 1 <= day t <= 31.
Proof.
  intros (_ & H & _). pose proof (days_in_month_bounds (year t) (month t)). lia.
Qed.

Lemma valid_nanos t : valid_timestamp t -> 0 <= nanos t.
Proof. intros (_ & _ & H). lia. Qed.

Lemma add_one_day_rank t :
  valid_timestamp t -> day_rank t < day_rank (add_one_day t).
Proof.
  intros Hv. pose proof (valid_month t Hv). pose proof (valid_day t Hv).
  unfold add_one_day, day_rank.
  destruct (Z.ltb_spec (day t) (days_in_month (year t) (month t)));
    [|destruct (Z.ltb_spec (month t) 12)]; cbn [year month day]; lia.
Qed.

Lemma next_midnight_gt t : ts_lt t (add_one_day (normalize t)).
Proof.
  unfold add_one_day, normalize, midnight. cbn [year month day nanos].
  destruct (Z.ltb_spec (day t) (days_in_month (year t) (month t)));
    [|destruct (Z.ltb_spec (month t) 12)];
    unfold ts_lt; cbn [year month day nanos]; lia.
Qed.

Lemma valid_normalize t : valid_timestamp t -> valid_timestamp (normalize t).
Proof.
  intros (H1 & H2 & H3). unfold valid_timestamp, normalize, midnight.
  cbn [year month day nanos]. unfold NANOS_PER_DAY. lia.
Qed.

Lemma next_midnight_rank t :
  valid_timestamp t -> day_rank t < day_rank (add_one_day (normalize t)).
Proof.
  intros Hv. apply (add_one_day_rank _ (valid_normalize t Hv)).
Qed.

Lemma day_rank_mono a b :
  valid_timestamp a -> valid_timestamp b -> ts_le a b ->
  day_rank a <= day_rank b.
Proof.
  intros Ha Hb Hle.
  pose proof (valid_month a Ha). pose proof (valid_day a Ha).
  pose proof (valid_month b Hb). pose proof (valid_day b Hb).
  unfold day_rank. clear Ha Hb. ts_arith.
Qed.

Lemma boundaries_spec tp s e :
  supported tp -> valid_timestamp s -> valid_timestamp e -> ts_le s e ->
  exists b rest,
    calendar_boundaries s e tp = Ok (b :: rest) /\
    ts_le b s /\ LocallySorted ts_lt (b :: rest).
Proof.
  intros Htp Hs He Hle.
  pose proof (valid_month s Hs) as Hms. pose proof (valid_day s Hs) as Hds.
  pose proof (valid_nanos s Hs) as Hns.
  pose proof (valid_month e He) as Hme. pose proof (valid_day e He) as Hde.
  assert (Hgen : forall f a z,
             on_offset f a = true -> ts_le a z -> day_rank a <= day_rank z ->
             ts_le a s ->
             exists b rest, Ok (date_range a z f) = Ok (b :: rest) /\
                            ts_le b s /\ LocallySorted ts_lt (b :: rest)).
  { intros f a z Hon Haz Hr Has.
    destruct (date_range_head a z f Hon Haz Hr) as (rest & Heq).
    exists a, rest. rewrite <- Heq.
    repeat split; [exact Has | apply date_range_sorted]. }
  destruct Htp as [-> | [-> | [-> | ->]]]; unfold calendar_boundaries;
    simpl String.eqb; cbv iota zeta.
  - (* year *)
    set (e' := if negb _ then _ else _).
    assert (Hy : year e <= year e') by (subst e'; destruct (negb _); simpl; lia).
    clearbody e'. apply Hgen; [reflexivity | | |].
    + clear - Hle Hy. ts_arith.
    + unfold day_rank. clear - Hle Hy. ts_arith.
    + clear - Hms Hds Hns. ts_arith.
  - (* month *)
    set (e' := if negb _ then _ else _).
    assert (Hy : 1 <= month e' <= 12 /\
                 12 * year e + month e <= 12 * year e' + month e').
    { subst e'. destruct (negb _); [|lia].
      pose proof (add_months_fields e 1 Hme). lia. }
    clearbody e'. apply Hgen; [reflexivity | | |].
    + clear - Hle Hy Hms Hme. ts_arith.
    + unfold day_rank. clear - Hle Hy Hms Hme. ts_arith.
    + clear - Hms Hds Hns. ts_arith.
  - (* quarter *)
    pose proof (quarter_start_month (month s) Hms) as ((ks & Hks) & Hqs).
    pose proof (quarter_start_month (month e) Hme) as ((ke & Hke) & Hqe).
    set (qs := 3 * (((month s - 1) / 3 + 1) - 1) + 1) in *.
    set (qe := 3 * (((month e - 1) / 3 + 1) - 1) + 1) in *.
    set (p := if negb _ then _ else _).
    assert (Hp : 1 <= snd p <= 12 /\
                 12 * year e + qe <= 12 * year (fst p) + snd p).
    { subst p. destruct (negb _); cbn [fst snd]; [|lia].
      assert (H3 : 0 <= 3 <= 12) by lia.
      pose proof (add_months_fields e 3 Hme H3) as (Hm3 & Hsum).
      pose proof (quarter_start_month (month (add_months e 3)) Hm3)
        as ((k3 & Hk3) & Hq3).
      lia. }
    destruct p as [e' qe']. cbn [fst snd] in Hp. clearbody qs qe.
    apply Hgen.
    + cbn [on_offset midnight month day]. destruct Hqs as (_ & ->). reflexivity.
    + clear - Hle Hp Hqs Hqe Hks Hke. destruct Hqs as (Hqs & _).
      destruct Hqe as (Hqe & _). ts_arith.
    + unfold day_rank. clear - Hle Hp Hqs Hqe Hks Hke.
      destruct Hqs as (Hqs & _). destruct Hqe as (Hqe & _). ts_arith.
    + clear - Hqs Hks Hds Hns. destruct Hqs as (Hqs & _). ts_arith.
  - (* day *)
    set (e' := if negb _ then _ else _).
    assert (Hy : ts_le e e' /\ day_rank e <= day_rank e').
    { subst e'. destruct (ts_eqb e (normalize e)); cbn [negb].
      - split; [apply ts_le_refl | lia].
      - split; [left; apply next_midnight_gt|].
        apply Z.lt_le_incl, next_midnight_rank, He. }
    clearbody e'. destruct Hy as (Hee & Hr). apply Hgen; [reflexivity | | |].
    + apply ts_le_trans with s; [clear - Hns; ts_arith|].
      apply ts_le_trans with e; assumption.
    + pose proof (day_rank_mono s e Hs He Hle) as Hmono.
      unfold day_rank in *. cbn [midnight year month day]. lia.
    + clear - Hns. ts_arith.
Qed.

(** *** The range of the timestamps *)

Lemma checked_inv t t' : checked t = Ok t' -> t' = t.
Proof.
  unfold checked. destruct (in_bounds t); [|discriminate].
  intros H. injection H as <-. reflexivity.
Qed.

Lemma checked_years t : 1678 <= year t <= 2261 -> checked t = Ok t.
Proof.
  intros Hy. unfold checked.
  assert (Hin : in_bounds t = true).
  { unfold in_bounds. apply andb_true_iff.
    split; apply ts_leb_le; left; unfold ts_lt, Timestamp_min, Timestamp_max;
      cbn [year month day nanos]; lia. }
  rewrite Hin. reflexivity.
Qed.

Lemma ts_le_year a b : ts_le a b -> year a <= year b.
Proof. intros H. ts_arith. Qed.

(** When [get_partitioning_boundaries] returns, it returns the boundaries of
    the calendar. *)
Lemma boundaries_on_calendar s e tp bs :
  get_partitioning_boundaries s e tp = Ok bs ->
  calendar_boundaries s e tp = Ok bs.
Proof.
  unfold get_partitioning_boundaries, calendar_boundaries, checked.
  destruct (tp =? "year")%string;
    [|destruct (tp =? "month")%string;
      [|destruct (tp =? "quarter")%string;
        [|destruct (tp =? "day")%string; [|exact (fun H => H)]]]];
    cbv zeta;
    repeat match goal with
           | |- context [in_bounds ?t] =>
               destruct (in_bounds t); cbn [bind negb];
               try (intros H; discriminate H)
           | |- context [ts_eqb ?a ?b] =>
               destruct (ts_eqb a b); cbn [bind negb];
               try (intros H; discriminate H)
           end;
    first [exact (fun H => H) | intros H; discriminate H].
Qed.

(** In years away from the ends of the range it does return. *)
Lemma boundaries_in_range s e tp :
  supported tp -> valid_timestamp s -> valid_timestamp e -> ts_le s e ->
  years_in_range s e ->
  get_partitioning_boundaries s e tp = calendar_boundaries s e tp.
Proof.
  intros Htp Hs He Hle (Hlo & Hhi).
  pose proof (ts_le_year s e Hle) as Hyear.
  pose proof (valid_month s Hs) as Hms. pose proof (valid_month e He) as Hme.
  destruct Htp as [-> | [-> | [-> | ->]]];
    unfold get_partitioning_boundaries, calendar_boundaries;
    simpl String.eqb; cbv iota zeta.
  - (* year *)
    rewrite (checked_years (midnight (year e) 1 1)) by (cbn [midnight year]; lia).
    cbn [bind].
    destruct (ts_eqb e (midnight (year e) 1 1)); cbn [negb].
    + cbn [bind].
      rewrite !checked_years by (cbn [midnight year]; lia). reflexivity.
    + rewrite (checked_years (add_years e 1)) by (cbn [add_years year]; lia).
      cbn [bind].
      rewrite !checked_years by (cbn [midnight add_years year]; lia).
      reflexivity.
  - (* month *)
    rewrite (checked_years (midnight (year e) (month e) 1))
      by (cbn [midnight year]; lia).
    cbn [bind].
    destruct (ts_eqb e (midnight (year e) (month e) 1)); cbn [negb].
    + cbn [bind].
      rewrite !checked_years by (cbn [midnight year]; lia). reflexivity.
    + assert (H1 : 0 <= 1 <= 12) by lia.
      pose proof (add_months_fields e 1 Hme H1) as (Hm' & Hsum).
      rewrite (checked_years (add_months e 1)) by lia.
      cbn [bind].
      rewrite !checked_years by (cbn [midnight year]; lia).
      reflexivity.
  - (* quarter *)
    rewrite (checked_years (midnight (year e) _ 1)) by (cbn [midnight year]; lia).
    cbn [bind].
    destruct (ts_eqb e (midnight (year e) _ 1)); cbn [negb].
    + cbn [bind].
      rewrite !checked_years by (cbn [midnight year]; lia). reflexivity.
    + assert (H3 : 0 <= 3 <= 12) by lia.
      pose proof (add_months_fields e 3 Hme H3) as (Hm' & Hsum).
      rewrite (checked_years (add_months e 3)) by lia.
      cbn [bind].
      rewrite !checked_years by (cbn [midnight year]; lia).
      reflexivity.
  - (* day *)
    assert (Hnext : year e <= year (add_one_day (normalize e)) <= year e + 1).
    { unfold add_one_day, normalize, midnight. cbn [year month day].
      destruct (day e <? days_in_month (year e) (month e));
        [|destruct (month e <? 12)]; cbn [year]; lia. }
    rewrite (checked_years (normalize e))
      by (unfold normalize; cbn [midnight year]; lia).
    cbn [bind].
    destruct (ts_eqb e (normalize e)); cbn [negb bind].
    + rewrite !checked_years by (cbn [midnight year]; lia). reflexivity.
    + rewrite (checked_years (add_one_day (normalize e))) by lia.
      cbn [bind].
      rewrite !checked_years by (cbn [midnight year]; lia). reflexivity.
Qed.

Lemma windows_on_calendar s e tp ws :
  get_list_group_periods s e tp = Ok ws -> calendar_windows s e tp = Ok ws.
Proof.
  unfold get_list_group_periods, calendar_windows.
  destruct (get_partitioning_boundaries s e tp) as [bs | ex] eqn:Hbs;
    [|discriminate].
  rewrite (boundaries_on_calendar _ _ _ _ Hbs). exact (fun H => H).
Qed.

Lemma windows_in_range s e tp :
  supported tp -> valid_timestamp s -> valid_timestamp e -> ts_le s e ->
  years_in_range s e ->
  get_list_group_periods s e tp = calendar_windows s e tp.
Proof.
  intros Htp Hs He Hle Hy. unfold get_list_group_periods, calendar_windows.
  rewrite boundaries_in_range by assumption. reflexivity.
Qed.

(** The windows of the calendar lead from the start to the end. *)
Lemma calendar_windows_cover tp s e :
  supported tp -> valid_timestamp s -> valid_timestamp e -> ts_le s e ->
  exists ws, calendar_windows s e tp = Ok ws /\ covers_from s e ws.
Proof.
  intros Htp Hs He Hle.
  destruct (boundaries_spec tp _ _ Htp Hs He Hle) as (b & rest & Hb & Hbs & Hsort).
  destruct (group_periods_loop_covers tp s e (b :: rest) Htp Hsort)
    as (ws & Hloop & Hws).
  exists ws. unfold calendar_windows. rewrite Hb. simpl bind.
  split; [exact Hloop|].
  replace (ts_max b s) with s in Hws; [exact Hws|].
  destruct (ts_max_spec b s) as [[_ ->] | [H1 ->]]; [reflexivity|].
  clear - H1 Hbs. ts_arith.
Qed.

(** C1, as stated, fails at the end of the range of the timestamps: from
    2262-01-01 to [Timestamp.max], by month, the end is rolled to the next
    month, which no timestamp can hold, and the call raises. *)
Lemma end_of_range_raises_out_of_bounds :
  valid_timestamp (midnight 2262 1 1) /\ valid_timestamp Timestamp_max /\
  in_bounds (midnight 2262 1 1) = true /\ in_bounds Timestamp_max = true /\
  ts_lt (midnight 2262 1 1) Timestamp_max /\
  exists msg,
    get_list_group_periods (midnight 2262 1 1) Timestamp_max "month"
    = Raise (mkExn OutOfBoundsDatetime msg).
Proof.
  split; [unfold valid_timestamp; vm_compute; intuition discriminate|].
  split; [unfold valid_timestamp; vm_compute; intuition discriminate|].
  split; [vm_compute; reflexivity|]. split; [vm_compute; reflexivity|].
  split; [unfold ts_lt, Timestamp_max, midnight; cbn [year month day nanos]; lia|].
  eexists. vm_compute. reflexivity.
Qed.

(** C1, amended. For every supported granularity and valid
    [start_time <= end_time]: whenever [get_list_group_periods] returns, its
    windows are, for [start_time < end_time], ordered by time, non-empty
    half-open intervals, pairwise disjoint, contiguous, and their union is
    exactly [[start_time, end_time)], and for [start_time = end_time] there
    is none; and it does return when [start_time] is not before 1678 and
    [end_time] not after 2260, where no timestamp that it builds leaves the
    range of the timestamps. *)
Theorem get_list_group_periods_partition tp start_time end_time :
  supported tp ->
  valid_timestamp start_time -> valid_timestamp end_time ->
  ts_le start_time end_time ->
  (years_in_range start_time end_time ->
   exists ws, get_list_group_periods start_time end_time tp = Ok ws) /\
  (forall ws,
     get_list_group_periods start_time end_time tp = Ok ws ->
     (ts_lt start_time end_time ->
      ordered_by_time ws /\
      Forall (fun p => ts_lt (period_start p) (period_end p)) ws /\
      pairwise_disjoint ws /\
      contiguous ws /\
      union_is ws start_time end_time) /\
     (start_time = end_time -> ws = [])).
Proof.
  intros Htp Hs He Hle.
  destruct (calendar_windows_cover tp _ _ Htp Hs He Hle) as (ws0 & Hcal & Hcov).
  split.
  - intros Hy. exists ws0. rewrite windows_in_range by assumption. exact Hcal.
  - intros ws Hrun. apply windows_on_calendar in Hrun.
    rewrite Hcal in Hrun. injection Hrun as <-.
    split.
    + intros Hlt. destruct Hcov as [[_ Hch] | [Hge _]].
      * split; [eapply chain_ordered; eassumption|].
        split; [eapply Forall_impl; [|exact (chain_bounds _ _ _ Hch)];
                simpl; intros p Hp; apply Hp|].
        split; [eapply chain_disjoint; eassumption|].
        split; [eapply chain_contiguous; eassumption|].
        eapply chain_union; eassumption.
      * exfalso. clear - Hlt Hge. ts_arith.
    + intros Heq. destruct Hcov as [[Hlt _] | [_ ->]]; [|reflexivity].
      exfalso. rewrite Heq in Hlt. exact (ts_lt_irrefl _ Hlt).
Qed.

Lemma get_list_group_periods_partition_witness :
  (exists ws,
     get_list_group_periods (midnight 2021 1 15) (midnight 2021 3 10) "month"
     = Ok ws) /\
  let ws := [("2021_1", midnight 2021 1 15, midnight 2021 2 1);
             ("2021_2", midnight 2021 2 1, midnight 2021 3 1);
             ("2021_3", midnight 2021 3 1, midnight 2021 3 10)] in
  ordered_by_time ws /\
  Forall (fun p => ts_lt (period_start p) (period_end p)) ws /\
  pairwise_disjoint ws /\
  contiguous ws /\
  union_is ws (midnight 2021 1 15) (midnight 2021 3 10).
Proof.
  assert (Hs : valid_timestamp (midnight 2021 1 15))
    by (unfold valid_timestamp; vm_compute; intuition discriminate).
  assert (He : valid_timestamp (midnight 2021 3 10))
    by (unfold valid_timestamp; vm_compute; intuition discriminate).
  assert (Hlt : ts_lt (midnight 2021 1 15) (midnight 2021 3 10))
    by (unfold ts_lt; simpl; lia).
  destruct (get_list_group_periods_partition "month" (midnight 2021 1 15)
              (midnight 2021 3 10) (or_intror (or_introl eq_refl)) Hs He
              (ts_lt_le _ _ Hlt)) as (Hreturns & Hright).
  split.
  - apply Hreturns. unfold years_in_range. cbn. lia.
  - cbv zeta. apply Hright; [vm_compute; reflexivity | exact Hlt].
Defined.

(* ------------------------------------------------------------------------- *)
(** ** [date_range] is not cut short

    The number of steps that [date_range] allows itself is enough: every
    offset between the first one and the end of the range is in the list. *)

Lemma offset_next_in_calendar f t :
  in_calendar t -> in_calendar (offset_next f t).
Proof.
  intros (Hm & Hd). unfold in_calendar.
  pose proof (days_in_month_bounds (year t) (month t)) as Hb.
  destruct f; cbn [offset_next]; cbv zeta.
  - cbn [year month day]. pose proof (days_in_month_bounds (year t + 1) 1). lia.
  - destruct (Z.ltb_spec (month t) 12); cbn [year month day].
    + pose proof (days_in_month_bounds (year t) (month t + 1)). lia.
    + pose proof (days_in_month_bounds (year t + 1) 1). lia.
  - destruct (Z.ltb_spec (3 * ((month t - 1) / 3) + 1) 10); cbn [year month day].
    + pose proof (days_in_month_bounds (year t) (3 * ((month t - 1) / 3) + 1 + 3)).
      split; [|lia]. Z.div_mod_to_equations. lia.
    + pose proof (days_in_month_bounds (year t + 1) 1). lia.
  - unfold add_one_day.
    destruct (Z.ltb_spec (day t) (days_in_month (year t) (month t)));
      [|destruct (Z.ltb_spec (month t) 12)]; cbn [year month day].
    + lia.
    + pose proof (days_in_month_bounds (year t) (month t + 1)). lia.
    + pose proof (days_in_month_bounds (year t + 1) 1). lia.
Qed.

Lemma offset_next_rank f t :
  in_calendar t -> day_rank t < day_rank (offset_next f t).
Proof.
  intros (Hm & Hd).
  pose proof (days_in_month_bounds (year t) (month t)) as Hb.
  unfold day_rank. destruct f; cbn [offset_next]; cbv zeta.
  - cbn [year month day]. lia.
  - destruct (Z.ltb_spec (month t) 12); cbn [year month day]; lia.
  - destruct (Z.ltb_spec (3 * ((month t - 1) / 3) + 1) 10); cbn [year month day];
      [|lia].
    Z.div_mod_to_equations. lia.
  - unfold add_one_day.
    destruct (Z.ltb_spec (day t) (days_in_month (year t) (month t)));
      [|destruct (Z.ltb_spec (month t) 12)]; cbn [year month day]; lia.
Qed.

Lemma in_calendar_rank_mono a b :
  in_calendar a -> in_calendar b -> ts_le a b -> day_rank a <= day_rank b.
Proof.
  intros (Hma & Hda) (Hmb & Hdb) Hle.
  pose proof (days_in_month_bounds (year a) (month a)).
  pose proof (days_in_month_bounds (year b) (month b)).
  unfold day_rank. clear - Hma Hda Hmb Hdb Hle H H0.
  assert (day a <= 31 /\ day b <= 31) as (Ha & Hb) by lia.
  clear H H0. destruct Hda as (Hda & _). destruct Hdb as (Hdb & _). ts_arith.
Qed.

Lemma iter_offset_next_gt f k t :
  ts_le t (Nat.iter k (offset_next f) t).
Proof.
  induction k as [|k IH]; [apply ts_le_refl|].
  cbn [Nat.iter]. eapply ts_le_trans; [exact IH|].
  apply ts_lt_le, offset_next_gt.
Qed.

Lemma date_range_from_complete f e : forall fuel cur,
  in_calendar cur -> in_calendar e ->
  day_rank e - day_rank cur < Z.of_nat fuel ->
  forall k,
    ts_le (Nat.iter k (offset_next f) cur) e ->
    In (Nat.iter k (offset_next f) cur) (date_range_from fuel f cur e).
Proof.
  induction fuel as [|fuel IH]; intros cur Hc He Hfuel k Hk.
  - exfalso.
    pose proof (in_calendar_rank_mono cur e Hc He
                  (ts_le_trans _ _ _ (iter_offset_next_gt f k cur) Hk)).
    lia.
  - assert (Hle : ts_le cur e)
      by (eapply ts_le_trans; [apply iter_offset_next_gt | exact Hk]).
    cbn [date_range_from]. apply ts_leb_le in Hle. rewrite Hle.
    destruct k as [|k]; [left; reflexivity|].
    right. rewrite Nat.iter_succ_r in Hk |- *.
    apply IH; auto using offset_next_in_calendar.
    pose proof (offset_next_rank f cur Hc). lia.
Qed.

Lemma rollforward_in_calendar f t :
  in_calendar t -> in_calendar (rollforward f t).
Proof.
  intros H. unfold rollforward.
  destruct (on_offset f t); auto using offset_next_in_calendar.
Qed.

Lemma date_range_complete start_ end_ f k :
  in_calendar start_ -> in_calendar end_ ->
  ts_le (Nat.iter k (offset_next f) (rollforward f start_)) end_ ->
  In (Nat.iter k (offset_next f) (rollforward f start_))
    (date_range start_ end_ f).
Proof.
  intros Hs He Hk. unfold date_range.
  apply date_range_from_complete; auto using rollforward_in_calendar.
  pose proof (in_calendar_rank_mono _ _ (rollforward_in_calendar f _ Hs) He
                (ts_le_trans _ _ _ (iter_offset_next_gt f k _) Hk)).
  lia.
Qed.

(* ------------------------------------------------------------------------- *)
(** ** Month grouping of a range with partial first and last months *)

(** C9. With granularity "month", the range 2021-01-15 to 2021-03-10 yields
    exactly three windows: the first starts at 2021-01-15 (not at
    2021-01-01), the last ends at 2021-03-10, and the boundaries in between
    are the first of February and the first of March. *)
Theorem month_grouping_clamps_first_and_last :
  get_list_group_periods (midnight 2021 1 15) (midnight 2021 3 10) "month"
  = Ok [("2021_1", midnight 2021 1 15, midnight 2021 2 1);
        ("2021_2", midnight 2021 2 1, midnight 2021 3 1);
        ("2021_3", midnight 2021 3 1, midnight 2021 3 10)].
Proof. vm_compute. reflexivity. Qed.

(* ------------------------------------------------------------------------- *)
(** ** The granularities that the check accepts *)

Lemma check_temporal_partitioning_accepts tp :
  (exists v, check_temporal_partitioning tp = Ok v) <->
  (tp = "year" \/ tp = "month" \/ tp = "season" \/ tp = "quarter").
Proof.
  split.
  - intros (v & Hv). unfold check_temporal_partitioning in Hv.
    cbn [existsb] in Hv.
    destruct (String.eqb_spec tp "year"); [auto|].
    destruct (String.eqb_spec tp "month"); [auto|].
    destruct (String.eqb_spec tp "season"); [auto|].
    destruct (String.eqb_spec tp "quarter"); [auto|].
    discriminate.
  - intros [-> | [-> | [-> | ->]]]; eexists; reflexivity.
Qed.

Lemma check_temporal_partitioning_rejects tp :
  tp <> "year" -> tp <> "month" -> tp <> "season" -> tp <> "quarter" ->
  check_temporal_partitioning tp = Raise (UnsupportedGranularity tp).
Proof.
  intros Hy Hm Hs Hq. unfold check_temporal_partitioning. cbn [existsb].
  destruct (String.eqb_spec tp "year"); [contradiction|].
  destruct (String.eqb_spec tp "month"); [contradiction|].
  destruct (String.eqb_spec tp "season"); [contradiction|].
  destruct (String.eqb_spec tp "quarter"); [contradiction|].
  reflexivity.
Qed.

Lemma windowing_supports tp s e :
  ((exists bs, get_partitioning_boundaries s e tp = Ok bs) -> supported tp) /\
  (supported tp -> valid_timestamp s -> valid_timestamp e -> ts_le s e ->
   years_in_range s e ->
   exists bs, get_partitioning_boundaries s e tp = Ok bs).
Proof.
  unfold supported. split.
  - intros (bs & Hbs). apply boundaries_on_calendar in Hbs.
    unfold calendar_boundaries in Hbs.
    destruct (String.eqb_spec tp "year"); [auto|].
    destruct (String.eqb_spec tp "month"); [auto|].
    destruct (String.eqb_spec tp "quarter"); [auto|].
    destruct (String.eqb_spec tp "day"); [auto|].
    discriminate.
  - intros Htp Hs He Hle Hy.
    destruct (boundaries_spec tp s e Htp Hs He Hle) as (b & rest & Hb & _).
    exists (b :: rest). rewrite boundaries_in_range by assumption. exact Hb.
Qed.

(** The run stops at the check of the granularity, before anything is
    written, whenever the check rejects the value. *)
Lemma merge_rejected_granularity E src dst pattern tp start_time end_time o w sp :
  get_bucket_spatial_partitioning E src (fs w) = Ok sp ->
  check_temporal_partitioning tp = Raise (UnsupportedGranularity tp) ->
  merge_granule_buckets E src dst pattern None tp start_time end_time
    false false o w
  = (Raise (UnsupportedGranularity tp), w).
Proof.
  intros Hsp Hck.
  unfold merge_granule_buckets, merge_setup, check_update_arguments, bindM,
    reading, ret, lift. cbn [negb]. rewrite Hsp, Hck. reflexivity.
Qed.

(** C2. The check of the granularity rejects "day", although the windows and
    the prefixes are defined for it, and accepts "season", for which there
    is no windowing: a merge by day fails with the error of an unsupported
    granularity before anything is written. *)
Theorem day_granularity_is_rejected :
  check_temporal_partitioning "day" = Raise (UnsupportedGranularity "day") /\
  get_list_group_periods (midnight 2021 1 30) (midnight 2021 2 2) "day"
  = Ok [("2021_1_30", midnight 2021 1 30, midnight 2021 1 31);
        ("2021_1_31", midnight 2021 1 31, midnight 2021 2 1);
        ("2021_2_1", midnight 2021 2 1, midnight 2021 2 2)] /\
  merge_sample package_collaborators "day" None None false false bucket_world
  = (Raise (UnsupportedGranularity "day"), bucket_world) /\
  check_temporal_partitioning "season" = Ok "season" /\
  get_list_group_periods (midnight 2021 1 30) (midnight 2021 2 2) "season"
  = Raise (invalid_temporal_partitioning "season").
Proof. repeat split; vm_compute; reflexivity. Qed.

(* ------------------------------------------------------------------------- *)
(** ** The prefixes of the windows *)

(** C3. The prefixes of the windows of one run are not free of prefixes:
    the month windows from 2021-01-15 to 2021-10-20 include "2021_1" and
    "2021_10", and the first is a string prefix of the second, so the name
    of a file of October starts with the prefix of January.  The removal
    loop of the update step, run for the prefix "2021_1" on a partition that
    holds a file of January and a file of October, removes both. *)
Theorem month_prefixes_overlap :
  (exists ws,
     get_list_group_periods (midnight 2021 1 15) (midnight 2021 10 20) "month"
     = Ok ws /\
     In "2021_1" (map period_prefix ws) /\
     In "2021_10" (map period_prefix ws)) /\
  startswith "2021_10" "2021_1" = true /\
  startswith (basename "/bucket/2021_10_0.parquet") "2021_1" = true /\
  remove_archived_files ["2021_1"]
    ["/bucket/2021_1_0.parquet"; "/bucket/2021_10_0.parquet"]
    (mkWorld (mkFS ["/bucket"] [("/bucket/2021_1_0.parquet", "jan");
                                ("/bucket/2021_10_0.parquet", "oct")]) [])
  = (Ok tt, mkWorld (mkFS ["/bucket"] []) []).
Proof.
  split; [|split; [|split]].
  - eexists. split; [vm_compute; reflexivity|].
    split; vm_compute; tauto.
  - vm_compute; reflexivity.
  - vm_compute; reflexivity.
  - vm_compute; reflexivity.
Qed.

(* ------------------------------------------------------------------------- *)
(** ** info.py: the keyword of the call to [parse_filename_pattern] *)

Lemma call_with_keyword_pattern P filename pattern :
  call (parse_filename_pattern_def P) [filename] [("pattern", pattern)]
  = Raise (mkExn TypeError
             "parse_filename_pattern() got an unexpected keyword argument 'pattern'").
Proof. reflexivity. Qed.

Lemma find_valid_pattern_none P filename patterns :
  find_valid_pattern P filename patterns = Ok None.
Proof.
  induction patterns as [|pattern rest IH]; [reflexivity|].
  cbn [find_valid_pattern]. rewrite call_with_keyword_pattern.
  cbn [exn_cls is_Exception]. exact IH.
Qed.

Lemma get_info_from_filename_value_error P filename patterns :
  _get_info_from_filename P filename patterns
  = Ok (OException (mkExn ValueError "Invalid pattern specified.")).
Proof.
  unfold _get_info_from_filename. rewrite find_valid_pattern_none. reflexivity.
Qed.

Lemma get_key_from_filepath_type_error P filepath key pattern :
  get_key_from_filepath P filepath key pattern
  = Raise (mkExn TypeError "'ValueError' object is not subscriptable").
Proof.
  unfold get_key_from_filepath, get_info_from_filepath.
  rewrite get_info_from_filename_value_error. reflexivity.
Qed.

Lemma get_key_from_filepaths_raises P filepaths key pattern :
  get_key_from_filepaths P filepaths key pattern
  = match as_list filepaths with
    | [] => Ok []
    | _ :: _ => Raise (mkExn TypeError "'ValueError' object is not subscriptable")
    end.
Proof.
  unfold get_key_from_filepaths. destruct (as_list filepaths) as [|p rest];
    [reflexivity|].
  cbn [map_res]. rewrite get_key_from_filepath_type_error. reflexivity.
Qed.

Lemma get_start_end_time_raises P filepaths filename_pattern :
  get_start_end_time_from_filepaths P filepaths filename_pattern
  = match as_list filepaths with
    | [] => Raise (mkExn NameError "name 'np' is not defined")
    | _ :: _ =>
        Raise (mkExn TypeError "'ValueError' object is not subscriptable")
    end.
Proof.
  unfold get_start_end_time_from_filepaths.
  rewrite !get_key_from_filepaths_raises.
  destruct (as_list filepaths); reflexivity.
Qed.

(** C4. Whatever the trollsift parser does, for every file name and every
    pattern list [_get_info_from_filename] returns a [ValueError] object and
    no dictionary, because each call to [parse_filename_pattern] with the
    keyword [pattern] raises a [TypeError] that is swallowed.  Hence
    [get_start_end_time_from_filepaths] always raises: [TypeError] for a
    non-empty list of file paths, [NameError] for an empty one. *)
Theorem get_info_from_filename_never_parses P :
  (forall filename pattern,
     call (parse_filename_pattern_def P) [filename] [("pattern", pattern)]
     = Raise (mkExn TypeError
                "parse_filename_pattern() got an unexpected keyword argument 'pattern'")) /\
  (forall filename filename_patterns,
     _get_info_from_filename P filename filename_patterns
     = Ok (OException (mkExn ValueError "Invalid pattern specified."))) /\
  (forall filepaths filename_pattern,
     get_start_end_time_from_filepaths P filepaths filename_pattern
     = match as_list filepaths with
       | [] => Raise (mkExn NameError "name 'np' is not defined")
       | _ :: _ =>
           Raise (mkExn TypeError "'ValueError' object is not subscriptable")
       end).
Proof.
  split; [|split].
  - intros. apply call_with_keyword_pattern.
  - intros. apply get_info_from_filename_value_error.
  - intros. apply get_start_end_time_raises.
Qed.

(* ------------------------------------------------------------------------- *)
(** ** A granule without data *)

(** C8. When the extraction function returns [None] for a source file,
    [write_granule_bucket] returns without raising and leaves the world as
    it was: no file is created, removed or changed, and the guarded call
    reports no failure. *)
Theorem no_data_writes_nothing E src_filepath bucket_dir sp
  (granule_to_df_func : Extractor E) x y writer_kwargs w :
  granule_to_df_func src_filepath (fs w) = Ok None ->
  write_granule_bucket E src_filepath bucket_dir sp granule_to_df_func
    x y writer_kwargs w = (Ok tt, w) /\
  _try_write_granule_bucket E src_filepath bucket_dir sp granule_to_df_func
    writer_kwargs w = (Ok None, w).
Proof.
  intros Hnone.
  assert (H : forall x y kw,
             write_granule_bucket E src_filepath bucket_dir sp
               granule_to_df_func x y kw w = (Ok tt, w)).
  { intros. unfold write_granule_bucket, bindM, reading, ret.
    rewrite Hnone. reflexivity. }
  split; [apply H|].
  unfold _try_write_granule_bucket. rewrite H. reflexivity.
Qed.

Lemma no_data_writes_nothing_witness :
  write_granule_bucket package_collaborators "/data/empty.HDF5" "/granules"
    sample_partitioning sample_extractor (VStr "lon") (VStr "lat") []
    no_data_world
  = (Ok tt, no_data_world) /\
  _try_write_granule_bucket package_collaborators "/data/empty.HDF5" "/granules"
    sample_partitioning sample_extractor [] no_data_world
  = (Ok None, no_data_world).
Proof.
  apply (no_data_writes_nothing package_collaborators "/data/empty.HDF5"
           "/granules" sample_partitioning sample_extractor (VStr "lon")
           (VStr "lat") []
           no_data_world).
  reflexivity.
Defined.

(* ------------------------------------------------------------------------- *)
(** ** The loop over the partitions *)

Lemma for_each_app {A} (xs ys : list A) (body : A -> M unit) w :
  for_each (xs ++ ys) body w
  = match for_each xs body w with
    | (Ok _, w1) => for_each ys body w1
    | (Raise e, w1) => (Raise e, w1)
    end.
Proof.
  revert w. induction xs as [|x xs IH]; intros w; [reflexivity|].
  cbn [app for_each]. unfold bindM.
  destruct (body x w) as [[[] | e] w1]; [apply IH | reflexivity].
Qed.

(** The guard of the loop: with [update=False], a partition that has files
    to consolidate and whose destination directory exists stops the run,
    and the iteration changes nothing. *)
Lemma partition_guard E dst pattern tp start_time end_time o kwargs
  label srcs w filepaths :
  partition_filepaths E pattern start_time end_time srcs (fs w) = Ok filepaths ->
  filepaths <> [] ->
  fst (path_exists (path_join dst label) w) = Ok true ->
  merge_partition E dst pattern tp start_time end_time false o kwargs
    (label, srcs) w
  = (Raise (PartitionAlreadyExists label), w).
Proof.
  intros Hfiles Hne Hex.
  unfold merge_partition, bindM, reading. rewrite Hfiles.
  destruct filepaths as [|p rest]; [contradiction|].
  cbn [List.length Nat.eqb negb].
  unfold path_exists in *. cbn [fst] in Hex. injection Hex as Hex.
  rewrite Hex. reflexivity.
Qed.

(** With info.py as it is, the grouping of a non-empty list of files by time
    always raises. *)
Lemma group_files_by_time_info_py E filepaths start_time end_time tp pattern :
  filepaths <> [] ->
  group_files_by_time E filepaths start_time end_time tp pattern
  = Raise (mkExn TypeError "'ValueError' object is not subscriptable").
Proof.
  intros Hne. unfold group_files_by_time.
  unfold repo_get_start_end_time_from_filepaths.
  rewrite get_start_end_time_raises. cbn [as_list].
  destruct filepaths; [contradiction | reflexivity].
Qed.

(** Hence no partition is ever consolidated: an iteration whose partition
    has files raises, and leaves the world as it found it. *)
Lemma merge_partition_info_py E dst pattern tp start_time end_time update o
  kwargs label srcs w filepaths :
  partition_filepaths E pattern start_time end_time srcs (fs w) = Ok filepaths ->
  filepaths <> [] ->
  exists e,
    merge_partition E dst pattern tp start_time end_time update o kwargs
      (label, srcs) w = (Raise e, w).
Proof.
  intros Hfiles Hne.
  unfold merge_partition, bindM, reading. rewrite Hfiles.
  destruct filepaths as [|p rest] eqn:Ep; [contradiction|].
  cbn [List.length Nat.eqb]. rewrite <- Ep in *.
  rewrite (group_files_by_time_info_py E) by assumption.
  unfold path_exists, ret, lift.
  destruct update; cbn [negb].
  - eexists; reflexivity.
  - destruct (is_dir (fs w) (path_join dst label)
              || is_file (fs w) (path_join dst label));
      eexists; reflexivity.
Qed.



(** C6. On a fresh destination, with info.py as it is, a merge with
    [update=False] of a source archive that has files raises [TypeError]
    while grouping the files of the first partition, before any partition
    directory is created; a second run does the same and does not raise the
    error of an existing partition. *)
Theorem second_merge_raises_type_error_again :
  let run := merge_sample package_collaborators "year" None None false false in
  let subscript_error :=
    mkExn TypeError "'ValueError' object is not subscriptable" in
  fst (path_exists "/bucket" bucket_world) = Ok false /\
  fst (run bucket_world) = Raise subscript_error /\
  fst (path_exists "/bucket/lon_bin=0/lat_bin=0" (snd (run bucket_world)))
  = Ok false /\
  fst (run (snd (run bucket_world))) = Raise subscript_error /\
  (forall label,
     fst (run (snd (run bucket_world))) <> Raise (PartitionAlreadyExists label)).
Proof.
  cbv zeta.
  assert (H2 : fst (merge_sample package_collaborators "year" None None false false
                      (snd (merge_sample package_collaborators "year" None None
                              false false bucket_world)))
               = Raise (mkExn TypeError "'ValueError' object is not subscriptable"))
    by (vm_compute; reflexivity).
  repeat split; try (vm_compute; reflexivity).
  intros label Heq. rewrite H2 in Heq. discriminate.
Qed.

(* ------------------------------------------------------------------------- *)
(** ** The checks of the update mode *)

(** C7, as stated, fails when [write_metadata=True]: the destination exists
    and [start_time] is missing, but the run stops with
    [NotImplementedError], not with the error of the missing time bounds. *)
Lemma missing_bounds_hidden_by_write_metadata :
  let r := merge_sample package_collaborators "month" None None true true
             attempted_world in
  fst (path_exists "/bucket" attempted_world) = Ok true /\
  r = (Raise (mkExn NotImplementedError
                "If update=True, it is currently not possible to update the metadata."),
       attempted_world) /\
  fst r <> Raise MissingTimeBounds.
Proof.
  cbv zeta. repeat split; try (vm_compute; reflexivity).
  vm_compute. discriminate.
Qed.

(** C7, amended. For every call with [update=True]: a missing destination
    directory stops the run with the error of the missing destination; an
    existing one with [write_metadata=False] and a missing [start_time] or
    [end_time] stops it with the error of the missing time bounds (with
    [write_metadata=True] the run stops with [NotImplementedError] first);
    in all these cases the world is unchanged.  Otherwise, when the run
    enters the loop over the partitions, its granularity is the one read
    from the information of the destination bucket, the spatial
    partitioning whose levels are taken off the template table, for the
    keywords of the writer, is the one read from the information of the
    destination bucket, and nothing has been written or removed; and the
    run does not depend on the partitioning and the granularity given by
    the caller. *)
Theorem update_mode_checks E src dst pattern dst_sp tp start_time end_time
  write_metadata o w :
  (fst (path_exists dst w) = Ok false ->
   merge_granule_buckets E src dst pattern dst_sp tp start_time end_time
     true write_metadata o w
   = (Raise (DestinationMissing dst), w)) /\
  (fst (path_exists dst w) = Ok true ->
   write_metadata = false ->
   start_time = None \/ end_time = None ->
   merge_granule_buckets E src dst pattern dst_sp tp start_time end_time
     true write_metadata o w
   = (Raise MissingTimeBounds, w)) /\
  (fst (path_exists dst w) = Ok true ->
   write_metadata = true ->
   merge_granule_buckets E src dst pattern dst_sp tp start_time end_time
     true write_metadata o w
   = (Raise (mkExn NotImplementedError
               "If update=True, it is currently not possible to update the metadata."),
      w)) /\
  (forall ctx w',
     merge_setup E src dst dst_sp tp start_time end_time true write_metadata o w
     = (Ok ctx, w') ->
     exists stored_partitioning template_table,
       get_bucket_spatial_partitioning E dst (fs w) = Ok stored_partitioning /\
       get_bucket_temporal_partitioning E dst (fs w)
       = Ok (ctx_temporal_partitioning ctx) /\
       fst (get_template_table E (ctx_dict_partitions ctx) w)
       = Ok template_table /\
       preprocess_writer_kwargs E (merge_writer_kwargs o write_metadata)
         (without_levels E stored_partitioning template_table)
       = Ok (ctx_writer_kwargs ctx, ctx_metadata_collector ctx) /\
       fs w' = fs w) /\
  (forall dst_sp' tp',
     merge_granule_buckets E src dst pattern dst_sp tp start_time end_time
       true write_metadata o w
     = merge_granule_buckets E src dst pattern dst_sp' tp' start_time end_time
         true write_metadata o w).
Proof.
  split; [|split; [|split; [|split]]].
  - unfold path_exists. cbn [fst]. intros Hex. injection Hex as Hex.
    unfold merge_granule_buckets, merge_setup, check_update_arguments, bindM,
      path_exists. rewrite Hex. reflexivity.
  - unfold path_exists. cbn [fst]. intros Hex -> Hnone. injection Hex as Hex.
    unfold merge_granule_buckets, merge_setup, check_update_arguments, bindM,
      path_exists. rewrite Hex. cbn [negb].
    destruct Hnone as [-> | ->]; [reflexivity|].
    destruct start_time; reflexivity.
  - unfold path_exists. cbn [fst]. intros Hex ->. injection Hex as Hex.
    unfold merge_granule_buckets, merge_setup, check_update_arguments, bindM,
      path_exists. rewrite Hex. reflexivity.
  - intros ctx w'.
    unfold merge_setup, check_update_arguments, bindM, path_exists, reading,
      raise, ret, lift, print, on_fs.
    destruct (is_dir (fs w) dst || is_file (fs w) dst); cbn [negb];
      [|discriminate].
    destruct write_metadata; [discriminate|].
    destruct start_time as [s|]; [|discriminate].
    destruct end_time as [e|]; [|discriminate].
    destruct (check_start_end_time E s e) as [[s' e'] | ex]; [|discriminate].
    destruct (get_bucket_spatial_partitioning E src (fs w)) as [src_sp | ex];
      [|discriminate].
    destruct (get_bucket_spatial_partitioning E dst (fs w)) as [stored_sp | ex];
      [|discriminate].
    destruct (get_bucket_temporal_partitioning E dst (fs w)) as [stored | ex];
      [|discriminate].
    destruct (check_temporal_partitioning stored); [|discriminate].
    unfold define_dict_partitions, bindM, reading, ret.
    destruct (get_exisiting_partitions_paths E src _ (fs w)) as [paths | ex];
      [|discriminate].
    cbn [fs stdout]. unfold get_template_table, reading. cbn [fs].
    match goal with
    | |- context [first_file_found E ?l (fs w)] =>
        destruct (first_file_found E l (fs w)) as [[fp|] | ex] eqn:Hfound;
          cbn [bind]; [|discriminate|discriminate]
    end.
    destruct (read_table E fp (fs w)) as [table | ex] eqn:Htable;
      [|discriminate].
    destruct (preprocess_writer_kwargs E _ _) as [[kw mc] | ex] eqn:Hkw;
      [|discriminate].
    intros H. injection H as <- <-.
    exists stored_sp, table. cbn [ctx_temporal_partitioning ctx_dict_partitions
                                  ctx_writer_kwargs ctx_metadata_collector fst fs].
    rewrite Hfound. cbn [bind]. rewrite Htable.
    repeat split; try reflexivity. exact Hkw.
  - intros. reflexivity.
Qed.

Lemma update_mode_checks_witness :
  merge_sample package_collaborators "year" None None true false bucket_world
  = (Raise (DestinationMissing "/bucket"), bucket_world) /\
  merge_sample package_collaborators "year" (Some (midnight 2021 1 1)) None
    true false attempted_world
  = (Raise MissingTimeBounds, attempted_world) /\
  merge_sample package_collaborators "year" (Some (midnight 2021 1 1)) None
    true true attempted_world
  = (Raise (mkExn NotImplementedError
              "If update=True, it is currently not possible to update the metadata."),
     attempted_world) /\
  (exists stored_partitioning template_table,
     get_bucket_spatial_partitioning package_collaborators "/bucket"
       (fs attempted_world) = Ok stored_partitioning /\
     get_bucket_temporal_partitioning package_collaborators "/bucket"
       (fs attempted_world) = Ok "month" /\
     fst (get_template_table package_collaborators
            [("lon_bin=0/lat_bin=0", ["/granules/lon_bin=0/lat_bin=0"]);
             ("lon_bin=1/lat_bin=0", ["/granules/lon_bin=1/lat_bin=0"])]
            attempted_world) = Ok template_table /\
     preprocess_writer_kwargs package_collaborators
       (merge_writer_kwargs default_options false)
       (without_levels package_collaborators stored_partitioning template_table)
     = Ok (merge_writer_kwargs default_options false, None) /\
     fs (snd (merge_setup package_collaborators "/granules" "/bucket" None
                "year" (Some (midnight 2021 1 1)) (Some (midnight 2021 2 1))
                true false default_options attempted_world))
     = fs attempted_world).
Proof.
  pose proof (update_mode_checks package_collaborators "/granules" "/bucket"
                "{pattern}" None "year" None None false default_options
                bucket_world) as (H1 & _).
  pose proof (update_mode_checks package_collaborators "/granules" "/bucket"
                "{pattern}" None "year" (Some (midnight 2021 1 1)) None false
                default_options attempted_world) as (_ & H2 & _).
  pose proof (update_mode_checks package_collaborators "/granules" "/bucket"
                "{pattern}" None "year" (Some (midnight 2021 1 1)) None true
                default_options attempted_world) as (_ & _ & H3 & _).
  pose proof (update_mode_checks package_collaborators "/granules" "/bucket"
                "{pattern}" None "year" (Some (midnight 2021 1 1))
                (Some (midnight 2021 2 1)) false default_options attempted_world)
    as (_ & _ & _ & H4 & _).
  split; [apply H1; reflexivity|].
  split; [apply H2; [reflexivity | reflexivity | right; reflexivity]|].
  split; [apply H3; reflexivity|].
  apply (H4 (mkMergeContext package_collaborators
               (Some (midnight 2021 1 1)) (Some (midnight 2021 2 1)) "month"
               [("lon_bin=0/lat_bin=0", ["/granules/lon_bin=0/lat_bin=0"]);
                ("lon_bin=1/lat_bin=0", ["/granules/lon_bin=1/lat_bin=0"])]
               (merge_writer_kwargs default_options false) None)
            (snd (merge_setup package_collaborators "/granules" "/bucket" None
                    "year" (Some (midnight 2021 1 1)) (Some (midnight 2021 2 1))
                    true false default_options attempted_world))).
  vm_compute. reflexivity.
Defined.

(* ------------------------------------------------------------------------- *)
(** ** A merge that stops in the loop over the partitions *)



(* ------------------------------------------------------------------------- *)
(** ** Isolation of the failures of the ingestion *)

(** The blocks cover the list, in order. *)
Lemma range_from_slices {A} (values : list A) (block_size : Z) :
  0 < block_size ->
  forall fuel i,
    0 <= i -> Z.of_nat (List.length values) <= Z.of_nat fuel + i ->
    List.concat
      (map (fun i => list_slice values i (i + block_size))
         (range_from fuel i (Z.of_nat (List.length values)) block_size))
    = skipn (Z.to_nat i) values.
Proof.
  intros Hbs. induction fuel as [|fuel IH]; intros i Hi Hfuel.
  - cbn [range_from map List.concat]. symmetry. apply skipn_all2. lia.
  - cbn [range_from]. destruct (Z.ltb_spec i (Z.of_nat (List.length values))).
    + cbn [map List.concat]. rewrite IH by lia.
      unfold list_slice.
      replace (Z.to_nat (i + block_size - i)) with (Z.to_nat block_size) by lia.
      replace (Z.to_nat (i + block_size))
        with (Z.to_nat block_size + Z.to_nat i)%nat by lia.
      rewrite <- skipn_skipn. apply firstn_skipn.
    + cbn [map List.concat]. symmetry. apply skipn_all2. lia.
Qed.

Lemma split_list_in_blocks_concat {A} (values : list A) (block_size : Z) :
  0 < block_size ->
  exists blocks,
    split_list_in_blocks values block_size = Ok blocks /\
    List.concat blocks = values.
Proof.
  intros Hbs. unfold split_list_in_blocks, py_range.
  destruct (Z.eqb_spec block_size 0); [lia|].
  destruct (Z.ltb_spec block_size 0); [lia|].
  cbn [bind]. eexists. split; [reflexivity|].
  rewrite range_from_slices by lia. reflexivity.
Qed.

Lemma failure_records_app a b :
  failure_records (a ++ b) = (failure_records a ++ failure_records b)%list.
Proof. apply flat_map_app. Qed.

Lemma ingest_in_order_app outcome xs ys f :
  ingest_in_order outcome (xs ++ ys) f
  = let '(e1, f1) := ingest_in_order outcome xs f in
    let '(e2, f2) := ingest_in_order outcome ys f1 in
    ((e1 ++ e2)%list, f2).
Proof.
  revert f. induction xs as [|x xs IH]; intros f; cbn [app ingest_in_order].
  - destruct (ingest_in_order outcome ys f); reflexivity.
  - destruct (outcome x f) as [r f1]. rewrite IH.
    destruct (ingest_in_order outcome xs f1) as [e1 f2].
    destruct (ingest_in_order outcome ys f2) as [e2 f3].
    destruct r; reflexivity.
Qed.

(** The call of the guarded function goes through when no keyword is given
    twice. *)
Lemma explicit_keywords_free_ok callee writer_kwargs :
  passes_no_explicit_keyword writer_kwargs ->
  explicit_keywords_free callee writer_kwargs = Ok tt.
Proof.
  unfold passes_no_explicit_keyword, explicit_keywords_free.
  induction (dict_keys writer_kwargs) as [|k ks IH]; intros Hfree;
    [reflexivity|].
  cbn [find].
  destruct (existsb (String.eqb k) explicit_keywords) eqn:Hk.
  - exfalso. apply (Hfree k (or_introl eq_refl)).
    apply existsb_exists in Hk as (x & Hx & Heq).
    apply String.eqb_eq in Heq. subst x. exact Hx.
  - apply IH. intros k' Hk'. apply Hfree. right. exact Hk'.
Qed.

Lemma dict_set_keys_in {V} k (v : V) k' : forall d,
  In k' (dict_keys (dict_set d k v)) -> k' = k \/ In k' (dict_keys d).
Proof.
  unfold dict_keys.
  induction d as [|[k0 v0] d IH]; cbn [dict_set map fst In].
  - intros [<- | []]. left. reflexivity.
  - destruct (String.eqb_spec k0 k) as [-> | Hne]; cbn [map fst In].
    + intros [<- | H]; [left; reflexivity | right; right; exact H].
    + intros [<- | H]; [right; left; reflexivity|].
      destruct (IH H) as [-> | H']; [left; reflexivity | right; right; exact H'].
Qed.

(** The keywords that [write_granules_bucket] adds are not among them. *)
Lemma passes_no_explicit_keyword_set writer_kwargs row_group_size use_threads :
  passes_no_explicit_keyword writer_kwargs ->
  passes_no_explicit_keyword
    (dict_set (dict_set writer_kwargs "row_group_size" row_group_size)
       "use_threads" use_threads).
Proof.
  intros Hfree k Hk.
  apply dict_set_keys_in in Hk as [-> | Hk];
    [cbn; intuition discriminate|].
  apply dict_set_keys_in in Hk as [-> | Hk];
    [cbn; intuition discriminate|].
  apply Hfree. exact Hk.
Qed.

Section Isolation.
Variable E : Collaborators.
Variables (bucket_dir : string) (sp : SpatialPartitioning (DataFrame E)).
Variable extractor : Extractor E.
Variable kwargs : Dict PyVal.

Let outcome := granule_outcome E bucket_dir sp extractor kwargs.
Let guarded src :=
  _try_write_granule_bucket E src bucket_dir sp extractor kwargs.

(** Every exception raised by the ingestion of a granule derives from
    [Exception]. *)
Hypothesis only_exceptions :
  forall src f e, fst (outcome src f) = Raise e ->
                  is_Exception (exn_cls e) = true.

(** No keyword of the writer is passed twice to the guarded call. *)
Hypothesis kwargs_free : passes_no_explicit_keyword kwargs.

Lemma write_granule_bucket_world src x y kw w :
  write_granule_bucket E src bucket_dir sp extractor x y kw w
  = (fst (write_granule_bucket E src bucket_dir sp extractor x y kw
            (mkWorld (fs w) [])),
     mkWorld (fs (snd (write_granule_bucket E src bucket_dir sp extractor
                         x y kw (mkWorld (fs w) []))))
             (stdout w)).
Proof.
  unfold write_granule_bucket, bindM, reading, lift, on_fs, ret. cbn [fs stdout].
  destruct w as [f out]. cbn [fs stdout].
  destruct (extractor src f) as [[df|] | e]; try reflexivity.
  destruct (add_labels sp df x y) as [df' | e]; try reflexivity.
  cbn [fs stdout].
  match goal with
  | |- context [write_partitioned_dataset E ?a ?b ?c ?d ?g ?h f] =>
      destruct (write_partitioned_dataset E a b c d g h f) as [r f']
  end.
  reflexivity.
Qed.

Lemma guarded_spec src w :
  guarded src w
  = (Ok (match fst (outcome src (fs w)) with
         | Raise e => Some (src, exn_msg e)
         | Ok _ => None
         end),
     mkWorld (snd (outcome src (fs w))) (stdout w)).
Proof.
  subst guarded. cbv beta. unfold _try_write_granule_bucket.
  rewrite write_granule_bucket_world.
  pose proof (only_exceptions src (fs w)) as Hexn.
  subst outcome. unfold granule_outcome in *.
  destruct (write_granule_bucket E src bucket_dir sp extractor _ _ _
              (mkWorld (fs w) [])) as [[[] | e] w'] eqn:Hrun;
    cbn [fst snd] in *; [reflexivity|].
  rewrite (Hexn e eq_refl). reflexivity.
Qed.

Lemma guarded_block block : forall w,
  exists results,
    map_M (fun c => c) (map guarded block) w
    = (Ok results,
       mkWorld (snd (ingest_in_order outcome block (fs w))) (stdout w)) /\
    not_none results = fst (ingest_in_order outcome block (fs w)).
Proof.
  induction block as [|src rest IH]; intros w.
  - exists []. destruct w; split; reflexivity.
  - cbn [map map_M ingest_in_order]. unfold bindM at 1.
    rewrite guarded_spec.
    destruct (outcome src (fs w)) as [r f1] eqn:Hout. cbn [fst snd].
    destruct (IH (mkWorld f1 (stdout w))) as (results & Hrun & Hnone).
    cbn [fs stdout] in *. unfold bindM, ret. rewrite Hrun.
    destruct (ingest_in_order outcome rest f1) as [errors f2].
    cbn [fst snd] in *. eexists. split; [reflexivity|].
    unfold not_none in *. cbn [flat_map]. rewrite Hnone.
    destruct r; reflexivity.
Qed.

Lemma print_failures errors : forall w,
  for_each errors
    (fun '(src_filepath, error_str) =>
       print (IngestionError src_filepath error_str)) w
  = (Ok tt,
     mkWorld (fs w)
       (stdout w ++ map (fun x => IngestionError (fst x) (snd x)) errors)).
Proof.
  induction errors as [|[s m] rest IH]; intros w.
  - cbn [for_each map]. rewrite app_nil_r. destruct w; reflexivity.
  - cbn [for_each map]. unfold bindM, print at 1. rewrite IH.
    cbn [fs stdout fst snd]. rewrite <- app_assoc. reflexivity.
Qed.

Lemma failure_records_of_errors errors :
  failure_records (map (fun x => IngestionError (fst x) (snd x)) errors)
  = errors.
Proof.
  induction errors as [|[s m] rest IH]; [reflexivity|].
  cbn [map failure_records flat_map fst snd app] in *.
  unfold failure_records in IH. rewrite IH. reflexivity.
Qed.

Lemma write_granules_block_spec parallel max_concurrent_tasks n_blocks i
  block w :
  write_granules_block E bucket_dir sp extractor parallel
    max_concurrent_tasks kwargs n_blocks (i, block) w
  = (Ok tt,
     mkWorld (snd (ingest_in_order outcome block (fs w)))
       ((stdout w ++ [ExecutingBlock (i + 1) n_blocks])
        ++ map (fun x => IngestionError (fst x) (snd x))
             (fst (ingest_in_order outcome block (fs w))))).
Proof.
  destruct (guarded_block block
              (mkWorld (fs w) (stdout w ++ [ExecutingBlock (i + 1) n_blocks])))
    as (results & Hrun & Hnone).
  cbn [fs stdout] in Hrun, Hnone.
  unfold write_granules_block, compute_list_delayed.
  fold guarded.
  replace (if parallel
           then map_M (fun task => task) (map guarded block)
           else map_M (fun c => c) (map guarded block))
    with (map_M (fun c : M (option (string * string)) => c)
            (map guarded block))
    by (destruct parallel; reflexivity).
  assert (Hcall : match block with
                  | [] => Ok tt
                  | _ :: _ =>
                      explicit_keywords_free (callee_name E parallel) kwargs
                  end = Ok tt)
    by (destruct block; [reflexivity|];
        apply explicit_keywords_free_ok, kwargs_free).
  unfold bindM, print, lift. rewrite Hcall. rewrite Hrun.
  rewrite print_failures. cbn [fs stdout]. rewrite Hnone.
  destruct parallel; reflexivity.
Qed.

Lemma blocks_run parallel max_concurrent_tasks n_blocks blocks : forall i w,
  exists w',
    for_each (enumerate_from i blocks)
      (write_granules_block E bucket_dir sp extractor parallel
         max_concurrent_tasks kwargs n_blocks) w
    = (Ok tt, w') /\
    fs w' = snd (ingest_in_order outcome (List.concat blocks) (fs w)) /\
    failure_records (stdout w')
    = (failure_records (stdout w)
       ++ fst (ingest_in_order outcome (List.concat blocks) (fs w)))%list.
Proof.
  induction blocks as [|block rest IH]; intros i w.
  - exists w. cbn. rewrite app_nil_r. auto.
  - cbn [enumerate_from for_each List.concat].
    rewrite ingest_in_order_app. unfold bindM.
    rewrite write_granules_block_spec.
    destruct (ingest_in_order outcome block (fs w)) as [e1 f1] eqn:Hblock.
    cbn [fst snd].
    match goal with
    | |- context [for_each _ _ ?w1] =>
        destruct (IH (i + 1) w1) as (w' & Hrest & Hfs & Hout)
    end.
    exists w'. split; [exact Hrest|]. cbn [fs stdout] in Hfs, Hout.
    destruct (ingest_in_order outcome (List.concat rest) f1) as [e2 f2].
    cbn [fst snd] in *. split; [exact Hfs|].
    rewrite Hout, !failure_records_app, failure_records_of_errors.
    cbn [failure_records flat_map app].
    rewrite app_nil_r, app_assoc. reflexivity.
Qed.

(** One granule that raises among granules that do not. *)
Lemma ingest_one_failure before bad after e f :
  (forall f', fst (outcome bad f') = Raise e /\ snd (outcome bad f') = f') ->
  (forall src f', In src (before ++ after) -> fst (outcome src f') = Ok tt) ->
  ingest_in_order outcome (before ++ bad :: after) f
  = ([(bad, exn_msg e)], snd (ingest_in_order outcome (before ++ after) f)).
Proof.
  intros Hbad Hgood.
  assert (Hok : forall srcs f',
             (forall src f'', In src srcs -> fst (outcome src f'') = Ok tt) ->
             fst (ingest_in_order outcome srcs f') = []).
  { induction srcs as [|s srcs IH]; intros f' Hall; [reflexivity|].
    cbn [ingest_in_order].
    pose proof (Hall s f' (or_introl eq_refl)) as Hs.
    destruct (outcome s f') as [r f1]. cbn [fst] in Hs. subst r.
    specialize (IH f1 (fun src f'' H => Hall src f'' (or_intror H))).
    destruct (ingest_in_order outcome srcs f1). exact IH. }
  rewrite !ingest_in_order_app.
  pose proof (Hok before f (fun src f'' H =>
                              Hgood src f'' (in_or_app _ _ _ (or_introl H))))
    as Hb.
  destruct (ingest_in_order outcome before f) as [e1 f1]. cbn [fst] in Hb.
  subst e1. cbn [ingest_in_order].
  destruct (Hbad f1) as (Hr & Hf).
  destruct (outcome bad f1) as [r f1']. cbn [fst snd] in Hr, Hf. subst r f1'.
  pose proof (Hok after f1 (fun src f'' H =>
                              Hgood src f'' (in_or_app _ _ _ (or_intror H))))
    as Ha.
  destruct (ingest_in_order outcome after f1) as [e2 f2]. cbn [fst] in Ha.
  subst e2. reflexivity.
Qed.
End Isolation.

Lemma extractor_failure_outcome E bucket_dir sp (extractor : Extractor E)
  kwargs bad e :
  (forall f, extractor bad f = Raise e) ->
  forall f,
    fst (granule_outcome E bucket_dir sp extractor kwargs bad f) = Raise e /\
    snd (granule_outcome E bucket_dir sp extractor kwargs bad f) = f.
Proof.
  intros Hbad f. unfold granule_outcome, write_granule_bucket, bindM, reading.
  cbn [fs]. rewrite Hbad. split; reflexivity.
Qed.

(** C5. When no keyword of the writer bears the name of an argument that
    the loop passes by name to the guarded call, an exception raised while a
    granule is ingested (by the extraction function, the labeling or the
    writer) becomes one failure record [(src_filepath, str(e))] and the run
    goes on: [write_granules_bucket] returns normally, every granule of the
    list has been ingested in order, and the records printed are those of
    the granules that raised.  In
    particular, when exactly one granule of the list (of five, or of any
    number) raises in the extraction function and the others are ingested
    without error, exactly one failure record is reported, for that granule,
    and the file system is the one that the writes of the others produce. *)
Theorem ingestion_failures_are_isolated E filepaths bucket_dir sp
  (extractor : Extractor E) parallel max_concurrent_tasks block_size
  use_threads row_group_size writer_kwargs w :
  let kwargs :=
    dict_set (dict_set writer_kwargs "row_group_size" row_group_size)
      "use_threads" (VBool use_threads) in
  let outcome := granule_outcome E bucket_dir sp extractor kwargs in
  let f1 := snd (write_bucket_info E bucket_dir sp None (fs w)) in
  0 < block_size ->
  passes_no_explicit_keyword writer_kwargs ->
  fst (write_bucket_info E bucket_dir sp None (fs w)) = Ok tt ->
  (forall src f e, fst (outcome src f) = Raise e ->
                   is_Exception (exn_cls e) = true) ->
  exists w',
    write_granules_bucket E filepaths bucket_dir sp extractor parallel
      max_concurrent_tasks block_size use_threads row_group_size
      writer_kwargs w = (Ok tt, w') /\
    fs w' = snd (ingest_in_order outcome filepaths f1) /\
    failure_records (stdout w')
    = (failure_records (stdout w)
       ++ fst (ingest_in_order outcome filepaths f1))%list /\
    (forall before bad after e,
       filepaths = (before ++ bad :: after)%list ->
       (forall f, extractor bad f = Raise e) ->
       (forall src f, In src (before ++ after) -> fst (outcome src f) = Ok tt) ->
       failure_records (stdout w')
       = (failure_records (stdout w) ++ [(bad, exn_msg e)])%list /\
       fs w' = snd (ingest_in_order outcome (before ++ after) f1)).
Proof.
  intros kwargs outcome f1 Hbs Hfree Hinfo Hexn.
  destruct (split_list_in_blocks_concat filepaths block_size Hbs)
    as (blocks & Hsplit & Hconcat).
  destruct (blocks_run E bucket_dir sp extractor kwargs Hexn
              (passes_no_explicit_keyword_set writer_kwargs row_group_size
                 (VBool use_threads) Hfree) parallel
              max_concurrent_tasks (Z.of_nat (List.length blocks)) blocks 0
              (mkWorld f1 (stdout w)))
    as (w' & Hrun & Hfs & Hout).
  cbn [fs stdout] in Hfs, Hout. rewrite Hconcat in Hfs, Hout.
  assert (Hgo : write_granules_bucket E filepaths bucket_dir sp extractor
                  parallel max_concurrent_tasks block_size use_threads
                  row_group_size writer_kwargs w = (Ok tt, w')).
  { unfold write_granules_bucket. unfold bindM at 1. unfold on_fs.
    destruct (write_bucket_info E bucket_dir sp None (fs w)) as [r f1'] eqn:Hw.
    cbn [fst snd] in Hinfo. subst r. subst f1. cbn [snd] in *.
    unfold bindM at 1. unfold lift. rewrite Hsplit. exact Hrun. }
  exists w'. split; [exact Hgo|]. split; [exact Hfs|]. split; [exact Hout|].
  intros before bad after e -> Hbad Hgood.
  pose proof (ingest_one_failure E bucket_dir sp extractor kwargs before bad
                after e f1
                (extractor_failure_outcome E bucket_dir sp extractor kwargs
                   bad e Hbad) Hgood) as Hone.
  subst outcome. rewrite Hone in Hfs, Hout. cbn [fst snd] in Hfs, Hout.
  split; assumption.
Qed.

Lemma ingestion_failures_are_isolated_witness :
  exists w',
    write_granules_bucket package_collaborators five_granules "/granules"
      sample_partitioning third_fails true None 500 false (VStr "500MB") []
      empty_world = (Ok tt, w') /\
    failure_records (stdout w') = [("/data/g3.HDF5", "Corrupted granule")] /\
    map (fun g => is_file (fs w')
                    ("/granules/lon_bin=0/lat_bin=0/" ++ g ++ "_0.parquet"))
      ["g1"; "g2"; "g3"; "g4"; "g5"]
    = [true; true; false; true; true].
Proof.
  destruct (ingestion_failures_are_isolated package_collaborators five_granules
              "/granules" sample_partitioning third_fails true None 500 false
              (VStr "500MB") [] empty_world)
    as (w' & Hrun & Hfs & Hout & Hone).
  - lia.
  - intros k [].
  - reflexivity.
  - intros src f e. unfold granule_outcome, write_granule_bucket, bindM,
      reading, lift, on_fs, third_fails. cbn [fs].
    destruct (src =? "/data/g3.HDF5")%string; cbn [fst].
    + intros [= <-]. reflexivity.
    + discriminate.
  - exists w'. split; [exact Hrun|].
    destruct (Hone ["/data/g1.HDF5"; "/data/g2.HDF5"] "/data/g3.HDF5"
                ["/data/g4.HDF5"; "/data/g5.HDF5"]
                (mkExn ValueError "Corrupted granule")) as (Hrec & Hfs').
    + reflexivity.
    + reflexivity.
    + intros src f Hin. unfold granule_outcome, write_granule_bucket, bindM,
        reading, lift, on_fs, third_fails. cbn [fs].
      cbn [app In] in Hin.
      destruct Hin as [<- | [<- | [<- | [<- | []]]]]; reflexivity.
    + split; [exact Hrec|]. rewrite Hfs'. vm_compute. reflexivity.
Defined.

(* ------------------------------------------------------------------------- *)
(** ** The boundaries are the consecutive offsets up to the end *)

Lemma offset_next_boundary f b : boundary f b -> boundary f (offset_next f b).
Proof.
  intros (Hc & Hn & Ho). split; [apply offset_next_in_calendar, Hc|].
  destruct Hc as (Hm & Hd).
  destruct f; cbn [offset_next on_offset] in *; cbv zeta.
  - split; [exact Hn | reflexivity].
  - destruct (month b <? 12); split; (exact Hn || reflexivity).
  - destruct (3 * ((month b - 1) / 3) + 1 <? 10); cbn [nanos month day];
      (split; [exact Hn|]); [|reflexivity].
    apply andb_true_iff. split; [|reflexivity].
    apply Z.eqb_eq. Z.div_mod_to_equations. lia.
  - unfold add_one_day.
    destruct (day b <? days_in_month (year b) (month b));
      [|destruct (month b <? 12)]; split; (exact Hn || reflexivity).
Qed.

Lemma regular_weaken f e e' bs :
  ts_le e e' -> regular f e' bs -> regular f e bs.
Proof.
  intros Hle. induction bs as [|x rest IH]; [trivial|].
  cbn [regular]. intros (Hx & Hrest). split; [|apply IH, Hrest].
  destruct rest; [eapply ts_le_lt_trans; eassumption | exact Hx].
Qed.

Lemma date_range_from_regular f e : forall fuel cur,
  in_calendar cur -> in_calendar e ->
  day_rank e - day_rank cur < Z.of_nat fuel ->
  regular f e (date_range_from fuel f cur e).
Proof.
  induction fuel as [|fuel IH]; intros cur Hc He Hfuel; [exact I|].
  cbn [date_range_from]. destruct (ts_leb cur e) eqn:Hle; [|exact I].
  pose proof (offset_next_rank f cur Hc) as Hrank.
  pose proof (offset_next_in_calendar f cur Hc) as Hnext.
  cbn [regular]. split.
  - destruct fuel as [|fuel'].
    + cbn [date_range_from]. apply ts_nle_lt. intros Hn.
      pose proof (in_calendar_rank_mono _ _ Hnext He Hn). lia.
    + cbn [date_range_from].
      destruct (ts_leb (offset_next f cur) e) eqn:Hle'; [reflexivity|].
      apply ts_nle_lt. intros Hn. apply ts_leb_le in Hn. congruence.
  - apply IH; [exact Hnext | exact He | lia].
Qed.

Lemma date_range_from_boundaries f e : forall fuel cur,
  boundary f cur -> Forall (boundary f) (date_range_from fuel f cur e).
Proof.
  induction fuel as [|fuel IH]; intros cur Hb; [constructor|].
  cbn [date_range_from]. destruct (ts_leb cur e); [|constructor].
  constructor; [exact Hb | apply IH, offset_next_boundary, Hb].
Qed.

Lemma date_range_regular f a z e :
  boundary f a -> in_calendar z -> ts_le e z ->
  regular f e (date_range a z f) /\ Forall (boundary f) (date_range a z f).
Proof.
  intros Ha Hz Hle. unfold date_range, rollforward.
  destruct Ha as (Hc & Hn & Ho). rewrite Ho. split.
  - apply regular_weaken with z; [exact Hle|].
    apply date_range_from_regular; [exact Hc | exact Hz | lia].
  - apply date_range_from_boundaries. split; [exact Hc | split; assumption].
Qed.

Lemma midnight_first_in_calendar y m :
  1 <= m <= 12 -> in_calendar (midnight y m 1).
Proof.
  intros Hm. unfold in_calendar, midnight. cbn [year month day].
  pose proof (days_in_month_bounds y m). lia.
Qed.

Lemma boundaries_regular tp s e :
  supported tp -> valid_timestamp s -> valid_timestamp e -> ts_le s e ->
  exists bs,
    calendar_boundaries s e tp = Ok bs /\
    regular (freq_of tp) e bs /\ Forall (boundary (freq_of tp)) bs.
Proof.
  intros Htp Hs He Hle.
  pose proof (valid_month s Hs) as Hms. pose proof (valid_month e He) as Hme.
  pose proof (valid_day e He) as Hde. pose proof (valid_nanos e He) as Hne.
  assert (Hgen : forall f a z,
             boundary f a -> in_calendar z -> ts_le e z ->
             exists bs, Ok (date_range a z f) = Ok bs /\
                        regular f e bs /\ Forall (boundary f) bs).
  { intros f a z Ha Hz Hez. eexists. split; [reflexivity|].
    apply date_range_regular; assumption. }
  destruct Htp as [-> | [-> | [-> | ->]]]; unfold calendar_boundaries;
    simpl String.eqb; cbv iota zeta; unfold freq_of; simpl String.eqb;
    cbv iota.
  - (* year *)
    apply Hgen.
    + split; [apply midnight_first_in_calendar; lia|]. split; reflexivity.
    + apply midnight_first_in_calendar; lia.
    + destruct (ts_eqb e (midnight (year e) 1 1)) eqn:E; cbn [negb].
      * apply ts_eqb_eq in E. rewrite <- E. apply ts_le_refl.
      * cbn [add_years year]. clear - Hme Hde Hne. ts_arith.
  - (* month *)
    assert (Hy : 1 <= month (if negb (ts_eqb e (midnight (year e) (month e) 1))
                             then add_months e 1 else e) <= 12).
    { destruct (negb _); [|exact Hme].
      apply (add_months_fields e 1 Hme). lia. }
    apply Hgen.
    + split; [apply midnight_first_in_calendar; exact Hms|]. split; reflexivity.
    + apply midnight_first_in_calendar. exact Hy.
    + destruct (ts_eqb e (midnight (year e) (month e) 1)) eqn:E; cbn [negb] in *.
      * apply ts_eqb_eq in E. rewrite <- E. apply ts_le_refl.
      * assert (H1 : 0 <= 1 <= 12) by lia.
        pose proof (add_months_fields e 1 Hme H1) as (_ & Hsum).
        set (e' := add_months e 1) in *. clearbody e'.
        clear - Hme Hde Hne Hy Hsum. ts_arith.
  - (* quarter *)
    pose proof (quarter_start_month (month s) Hms) as ((ks & Hks) & Hqs).
    pose proof (quarter_start_month (month e) Hme) as ((ke & Hke) & Hqe).
    set (qs := 3 * (((month s - 1) / 3 + 1) - 1) + 1) in *.
    set (qe := 3 * (((month e - 1) / 3 + 1) - 1) + 1) in *.
    destruct (ts_eqb e (midnight (year e) qe 1)) eqn:E; cbn [negb].
    + apply Hgen.
      * split; [apply midnight_first_in_calendar; lia|].
        split; [reflexivity|]. cbn [on_offset midnight month day].
        destruct Hqs as (_ & ->). reflexivity.
      * apply midnight_first_in_calendar; lia.
      * apply ts_eqb_eq in E. rewrite <- E. apply ts_le_refl.
    + assert (H3 : 0 <= 3 <= 12) by lia.
      pose proof (add_months_fields e 3 Hme H3) as (Hm3 & Hsum).
      pose proof (quarter_start_month (month (add_months e 3)) Hm3)
        as ((k3 & Hk3) & Hq3).
      set (e' := add_months e 3) in *.
      set (q3 := 3 * (((month e' - 1) / 3 + 1) - 1) + 1) in *.
      apply Hgen.
      * split; [apply midnight_first_in_calendar; lia|].
        split; [reflexivity|]. cbn [on_offset midnight month day].
        destruct Hqs as (_ & ->). reflexivity.
      * apply midnight_first_in_calendar; lia.
      * clearbody e' q3. destruct Hq3 as (Hq3 & _).
        clear - Hme Hde Hne Hm3 Hsum Hk3 Hq3. ts_arith.
  - (* day *)
    apply Hgen.
    + split; [|split; reflexivity].
      destruct Hs as (H1 & H2 & _). split; assumption.
    + destruct (ts_eqb e (normalize e)); cbn [negb].
      * destruct He as (H1 & H2 & _). split; assumption.
      * apply (offset_next_in_calendar D (normalize e)).
        destruct He as (H1 & H2 & _). split; assumption.
    + destruct (ts_eqb e (normalize e)); cbn [negb].
      * apply ts_le_refl.
      * left. apply next_midnight_gt.
Qed.

(* ------------------------------------------------------------------------- *)
(** ** The time prefix names the calendar unit *)

Lemma digits_without_underscore d :
  has_char "_" (NilEmpty.string_of_uint d) = false.
Proof. induction d; cbn; auto. Qed.

Lemma str_int_without_underscore n : has_char "_" (str_int n) = false.
Proof.
  unfold str_int, NilZero.string_of_int, NilZero.string_of_uint.
  destruct (Z.to_int n) as [d | d]; destruct d; cbn;
    auto using digits_without_underscore.
Qed.

Lemma str_int_inj a b : str_int a = str_int b -> a = b.
Proof.
  unfold str_int. intros H. apply DecimalZ.to_int_inj.
  assert (Hnil : forall z, Z.to_int z <> Decimal.Pos Decimal.Nil /\
                           Z.to_int z <> Decimal.Neg Decimal.Nil).
  { intros [|p|p]; cbn; split; try discriminate;
      intros [= Hp]; exact (DecimalPos.Unsigned.to_uint_nonnil p Hp). }
  assert (Hsome : Some (Z.to_int a) = Some (Z.to_int b)).
  { rewrite <- (NilZero.isi (Z.to_int a)) by apply Hnil.
    rewrite <- (NilZero.isi (Z.to_int b)) by apply Hnil.
    rewrite H. reflexivity. }
  injection Hsome. trivial.
Qed.

(** Two strings without [c], each followed by [c] and a rest, are equal
    only if their parts are. *)
Lemma append_sep_inj c a : forall a' b b',
  has_char c a = false -> has_char c a' = false ->
  (a ++ String c b)%string = (a' ++ String c b')%string ->
  a = a' /\ b = b'.
Proof.
  induction a as [|x a IH]; intros [|x' a'] b b' Ha Ha' H; cbn in *.
  - injection H as H. auto.
  - injection H as Hc H. subst x'. rewrite Ascii.eqb_refl in Ha'. discriminate.
  - injection H as Hc H. subst x. rewrite Ascii.eqb_refl in Ha. discriminate.
  - injection H as Hx H. subst x'.
    apply orb_false_iff in Ha as (_ & Ha). apply orb_false_iff in Ha' as (_ & Ha').
    destruct (IH a' b b' Ha Ha' H) as (-> & ->). auto.
Qed.

Lemma get_time_prefix_of_unit tp t1 t2 :
  calendar_unit tp t1 = calendar_unit tp t2 ->
  get_time_prefix t1 tp = get_time_prefix t2 tp.
Proof.
  unfold calendar_unit, get_time_prefix.
  destruct (tp =? "year")%string; [intros [= ->]; reflexivity|].
  destruct (tp =? "month")%string; [intros [= -> ->]; reflexivity|].
  destruct (tp =? "quarter")%string; [intros [= -> H]|].
  { replace ((month t1 - 1) / 3 + 1) with ((month t2 - 1) / 3 + 1) by lia.
    reflexivity. }
  destruct (tp =? "day")%string; [intros [= -> -> ->]; reflexivity|].
  reflexivity.
Qed.

Lemma get_time_prefix_unit_inj tp t1 t2 :
  supported tp ->
  get_time_prefix t1 tp = get_time_prefix t2 tp ->
  calendar_unit tp t1 = calendar_unit tp t2.
Proof.
  intros [-> | [-> | [-> | ->]]]; unfold calendar_unit, get_time_prefix;
    simpl String.eqb; cbv iota zeta; intros [= H].
  - apply str_int_inj in H. congruence.
  - apply append_sep_inj in H as (Hy & Hm);
      try apply str_int_without_underscore.
    apply str_int_inj in Hy, Hm. congruence.
  - apply append_sep_inj in H as (Hy & Hq);
      try apply str_int_without_underscore.
    apply str_int_inj in Hy, Hq. congruence.
  - apply append_sep_inj in H as (Hy & H);
      try apply str_int_without_underscore.
    apply append_sep_inj in H as (Hm & Hd);
      try apply str_int_without_underscore.
    apply str_int_inj in Hy, Hm, Hd. congruence.
Qed.

(** X1. For a supported granularity, two timestamps get the same prefix
    exactly when they lie in the same calendar unit (same year; same year
    and month; same year and quarter; same date). *)
Theorem time_prefix_names_the_calendar_unit tp t1 t2 :
  supported tp ->
  (get_time_prefix t1 tp = get_time_prefix t2 tp <->
   calendar_unit tp t1 = calendar_unit tp t2).
Proof.
  intros Htp. split.
  - apply get_time_prefix_unit_inj, Htp.
  - apply get_time_prefix_of_unit.
Qed.

Lemma time_prefix_names_the_calendar_unit_witness :
  get_time_prefix (mkTimestamp 2021 5 17 (hms 3 0 0)) "quarter"
  = get_time_prefix (midnight 2021 4 1) "quarter" <->
  calendar_unit "quarter" (mkTimestamp 2021 5 17 (hms 3 0 0))
  = calendar_unit "quarter" (midnight 2021 4 1).
Proof.
  apply (time_prefix_names_the_calendar_unit "quarter").
  right; right; left; reflexivity.
Defined.

(* ------------------------------------------------------------------------- *)
(** ** Every window lies in one calendar unit *)

Lemma boundary_valid f b : boundary f b -> valid_timestamp b.
Proof.
  intros ((Hm & Hd) & Hn & _). unfold valid_timestamp, NANOS_PER_DAY. lia.
Qed.

(** From a boundary up to its next offset, the calendar unit is that of the
    boundary. *)
Lemma unit_of_boundary tp b t :
  supported tp -> boundary (freq_of tp) b -> valid_timestamp t ->
  ts_le b t -> ts_lt t (offset_next (freq_of tp) b) ->
  calendar_unit tp t = calendar_unit tp b.
Proof.
  intros Htp ((Hmb & Hdb) & Hnb & Hon) (Hmt & Hdt & Hnt) Hle Hlt.
  pose proof (days_in_month_bounds (year b) (month b)) as Hbb.
  destruct Htp as [-> | [-> | [-> | ->]]]; unfold freq_of, calendar_unit in *;
    simpl String.eqb in *; cbv iota in *; cbn [offset_next on_offset] in *;
    cbv zeta in *.
  - apply andb_true_iff in Hon as (H1 & H2).
    apply Z.eqb_eq in H1, H2. f_equal.
    clear - Hle Hlt Hmt Hdt Hnt H1 H2 Hnb. ts_arith.
  - apply Z.eqb_eq in Hon.
    destruct (Z.ltb_spec (month b) 12);
      assert (year t = year b /\ month t = month b) as (-> & ->)
        by (clear - Hle Hlt Hmt Hdt Hnt Hon Hnb Hmb H; ts_arith);
      reflexivity.
  - apply andb_true_iff in Hon as (H1 & H2).
    apply Z.eqb_eq in H1, H2.
    assert (Hq : 3 * ((month b - 1) / 3) + 1 = month b)
      by (Z.div_mod_to_equations; lia).
    rewrite Hq in Hlt.
    destruct (Z.ltb_spec (month b) 10).
    + assert (year t = year b /\ month b <= month t < month b + 3) as (-> & Hm)
        by (clear - Hle Hlt Hmt Hdt Hnt H2 Hnb Hmb; ts_arith).
      f_equal. f_equal. Z.div_mod_to_equations. lia.
    + assert (year t = year b /\ month b <= month t) as (-> & Hm)
        by (clear - Hle Hlt Hmt Hdt Hnt H2 Hnb Hmb; ts_arith).
      f_equal. f_equal. Z.div_mod_to_equations. lia.
  - unfold add_one_day in Hlt.
    destruct (Z.ltb_spec (day b) (days_in_month (year b) (month b)));
      [|destruct (Z.ltb_spec (month b) 12)];
      assert (year t = year b /\ month t = month b /\ day t = day b)
        as (Hy & Hm & Hd);
      try (rewrite Hy, Hm, Hd; reflexivity).
    + clear - Hle Hlt Hmt Hdt Hnt Hnb Hmb Hdb. ts_arith.
    + assert (Hsame : year t = year b /\ month t = month b ->
                      day t <= days_in_month (year b) (month b))
        by (intros (E1 & E2); rewrite <- E1, <- E2; lia).
      clear - Hle Hlt Hmt Hdt Hnt Hnb Hmb Hdb H H0 Hsame.
      destruct Hdt as (Hdt & _).
      set (dim := days_in_month (year b) (month b)) in *. clearbody dim.
      ts_arith.
    + assert (Hsame : year t = year b /\ month t = month b ->
                      day t <= days_in_month (year b) (month b))
        by (intros (E1 & E2); rewrite <- E1, <- E2; lia).
      clear - Hle Hlt Hmt Hdt Hnt Hnb Hmb Hdb H H0 Hsame.
      destruct Hdt as (Hdt & _).
      set (dim := days_in_month (year b) (month b)) in *. clearbody dim.
      ts_arith.
Qed.

Lemma group_periods_loop_anchored f tp s e : forall bs ws,
  regular f e bs ->
  group_periods_loop s e tp bs = Ok ws ->
  windows_of f s tp bs ws.
Proof.
  induction bs as [|b rest IH]; intros ws Hreg Hloop.
  - injection Hloop as <-. constructor.
  - cbn [group_periods_loop] in Hloop. cbn [regular] in Hreg.
    destruct Hreg as (Hb & Hrest).
    destruct (get_time_prefix (ts_max b s) tp) as [pre|] eqn:Hpre;
      [|discriminate].
    cbn [bind] in Hloop.
    destruct (group_periods_loop s e tp rest) as [ws'|]; [|discriminate].
    cbn [bind] in Hloop. specialize (IH ws' Hrest eq_refl).
    set (group_end := match rest with next :: _ => next | [] => e end) in *.
    assert (Hend : ts_le (ts_min group_end e) (offset_next f b)).
    { destruct (ts_min_spec group_end e) as [[H1 ->] | [H1 ->]].
      - subst group_end. destruct rest as [|y rest'].
        + exfalso. exact (ts_lt_irrefl _ H1).
        + subst y. apply ts_lt_le, H1.
      - subst group_end. destruct rest as [|y rest'].
        + apply ts_lt_le, Hb.
        + subst y. apply ts_le_refl. }
    destruct (ts_ltb (ts_max b s) (ts_min group_end e)) eqn:Hlt;
      injection Hloop as <-.
    + apply windows_take; [|exact IH].
      apply ts_ltb_lt in Hlt. repeat split; assumption.
    + apply windows_skip, IH.
Qed.

Lemma windows_of_anchor f s tp bs ws :
  windows_of f s tp bs ws ->
  forall p, In p ws -> exists b, In b bs /\ anchored f s tp b p.
Proof.
  induction 1 as [| b bs ws Hw IH | b bs p ws Ha Hw IH]; intros q Hq.
  - destruct Hq.
  - destruct (IH q Hq) as (b' & Hin & Hb'). exists b'. split; [right|]; assumption.
  - destruct Hq as [<- | Hq].
    + exists b. split; [left; reflexivity | exact Ha].
    + destruct (IH q Hq) as (b' & Hin & Hb'). exists b'.
      split; [right|]; assumption.
Qed.

(** What [get_list_group_periods] returns, traced back to the boundaries. *)
Lemma group_periods_traced tp s e ws :
  supported tp -> valid_timestamp s -> valid_timestamp e -> ts_le s e ->
  calendar_windows s e tp = Ok ws ->
  exists bs,
    Forall (boundary (freq_of tp)) bs /\ LocallySorted ts_lt bs /\
    windows_of (freq_of tp) s tp bs ws.
Proof.
  intros Htp Hs He Hle Hrun.
  destruct (boundaries_regular tp s e Htp Hs He Hle) as (bs & Hbs & Hreg & Hall).
  destruct (boundaries_spec tp s e Htp Hs He Hle) as (b & rest & Hbs' & _ & Hsort).
  rewrite Hbs in Hbs'. injection Hbs' as Heq.
  unfold calendar_windows in Hrun. rewrite Hbs in Hrun. cbn [bind] in Hrun.
  exists bs. split; [exact Hall|]. split; [rewrite Heq; exact Hsort|].
  eapply group_periods_loop_anchored; eassumption.
Qed.

Lemma anchored_prefix tp s b p :
  supported tp -> valid_timestamp s -> boundary (freq_of tp) b ->
  anchored (freq_of tp) s tp b p ->
  get_time_prefix b tp = Ok (period_prefix p) /\
  forall t, valid_timestamp t -> within p t ->
            get_time_prefix t tp = Ok (period_prefix p).
Proof.
  intros Htp Hs Hb (Hstart & Hlt & Hend & Hpre).
  assert (Hbs : ts_le b (period_start p)).
  { rewrite Hstart. destruct (ts_max_spec b s) as [[H1 ->] | [H1 ->]];
      [apply ts_lt_le, H1 | apply ts_le_refl]. }
  assert (Hvs : valid_timestamp (period_start p)).
  { rewrite Hstart. destruct (ts_max_spec b s) as [[_ ->] | [_ ->]];
      [exact Hs | eapply boundary_valid, Hb]. }
  assert (Hunit : forall t, valid_timestamp t -> ts_le (period_start p) t ->
                            ts_lt t (period_end p) ->
                            get_time_prefix t tp = get_time_prefix b tp).
  { intros t Ht H1 H2. apply get_time_prefix_of_unit.
    apply unit_of_boundary; try assumption.
    - eapply ts_le_trans; eassumption.
    - eapply ts_lt_le_trans; eassumption. }
  assert (Hb' : get_time_prefix b tp = Ok (period_prefix p)).
  { rewrite <- Hpre. symmetry. apply Hunit; [exact Hvs | apply ts_le_refl | exact Hlt]. }
  split; [exact Hb'|].
  intros t Ht (H1 & H2). rewrite <- Hb'. apply Hunit; assumption.
Qed.

(** X2. Every window of [get_list_group_periods] lies in one calendar unit:
    each valid instant of the window gets the prefix of the window. *)
Theorem window_holds_one_calendar_unit tp start_time end_time ws p t :
  supported tp ->
  valid_timestamp start_time -> valid_timestamp end_time ->
  ts_le start_time end_time ->
  get_list_group_periods start_time end_time tp = Ok ws ->
  In p ws -> valid_timestamp t -> within p t ->
  get_time_prefix t tp = Ok (period_prefix p).
Proof.
  intros Htp Hs He Hle Hrun Hin Ht Hw.
  apply windows_on_calendar in Hrun.
  destruct (group_periods_traced tp _ _ ws Htp Hs He Hle Hrun)
    as (bs & Hall & _ & Hwin).
  destruct (windows_of_anchor _ _ _ _ _ Hwin p Hin) as (b & Hb & Ha).
  rewrite Forall_forall in Hall.
  exact (proj2 (anchored_prefix tp start_time b p Htp Hs (Hall b Hb) Ha) t Ht Hw).
Qed.

Lemma window_holds_one_calendar_unit_witness :
  get_time_prefix (mkTimestamp 2021 2 28 (hms 23 59 59)) "month" = Ok "2021_2".
Proof.
  apply (window_holds_one_calendar_unit "month" (midnight 2021 1 15)
           (midnight 2021 3 10)
           [("2021_1", midnight 2021 1 15, midnight 2021 2 1);
            ("2021_2", midnight 2021 2 1, midnight 2021 3 1);
            ("2021_3", midnight 2021 3 1, midnight 2021 3 10)]
           ("2021_2", midnight 2021 2 1, midnight 2021 3 1)).
  - right; left; reflexivity.
  - unfold valid_timestamp; vm_compute; intuition discriminate.
  - unfold valid_timestamp; vm_compute; intuition discriminate.
  - left. unfold ts_lt; simpl; lia.
  - vm_compute. reflexivity.
  - right; left; reflexivity.
  - unfold valid_timestamp; vm_compute; intuition discriminate.
  - split; [left|]; unfold ts_lt; simpl; lia.
Defined.

(* ------------------------------------------------------------------------- *)
(** ** The prefixes of the windows of one run are distinct *)

Lemma boundary_unit_inj tp b1 b2 :
  supported tp ->
  boundary (freq_of tp) b1 -> boundary (freq_of tp) b2 ->
  calendar_unit tp b1 = calendar_unit tp b2 -> b1 = b2.
Proof.
  intros Htp ((Hm1 & Hd1) & Hn1 & Ho1) ((Hm2 & Hd2) & Hn2 & Ho2).
  destruct Htp as [-> | [-> | [-> | ->]]]; unfold freq_of, calendar_unit in *;
    simpl String.eqb in *; cbv iota in *; cbn [on_offset] in *; intros [= H];
    apply ts_eq_fields.
  - apply andb_true_iff in Ho1 as (A1 & B1). apply andb_true_iff in Ho2 as (A2 & B2).
    apply Z.eqb_eq in A1, B1, A2, B2. lia.
  - apply Z.eqb_eq in Ho1, Ho2. lia.
  - apply andb_true_iff in Ho1 as (A1 & B1). apply andb_true_iff in Ho2 as (A2 & B2).
    apply Z.eqb_eq in A1, B1, A2, B2.
    assert (month b1 = month b2) by (Z.div_mod_to_equations; lia). lia.
  - lia.
Qed.

Lemma locally_sorted_head bs : forall b,
  LocallySorted ts_lt (b :: bs) -> Forall (ts_lt b) bs.
Proof.
  induction bs as [|x bs IH]; intros b Hs; [constructor|].
  inversion Hs as [| | ? ? ? Htail Hlt]; subst.
  constructor; [exact Hlt|].
  eapply Forall_impl; [|apply IH, Htail].
  intros y Hy. eapply ts_lt_trans; eassumption.
Qed.

Lemma locally_sorted_tail b bs :
  LocallySorted ts_lt (b :: bs) -> LocallySorted ts_lt bs.
Proof. inversion 1; [constructor | assumption]. Qed.

Lemma windows_prefixes_nodup tp s bs ws :
  supported tp -> valid_timestamp s ->
  Forall (boundary (freq_of tp)) bs -> LocallySorted ts_lt bs ->
  windows_of (freq_of tp) s tp bs ws ->
  NoDup (map period_prefix ws).
Proof.
  intros Htp Hs Hall Hsort Hw.
  induction Hw as [| b bs ws Hw IH | b bs p ws Ha Hw IH].
  - constructor.
  - apply IH; [inversion Hall; assumption | eapply locally_sorted_tail; eassumption].
  - inversion Hall as [| ? ? Hb Hall']; subst.
    cbn [map]. constructor.
    + intros Hin. apply in_map_iff in Hin as (q & Hq & Hinq).
      destruct (windows_of_anchor _ _ _ _ _ Hw q Hinq) as (b' & Hb' & Ha').
      rewrite Forall_forall in Hall'.
      pose proof (proj1 (anchored_prefix tp s b p Htp Hs Hb Ha)) as Hp.
      pose proof (proj1 (anchored_prefix tp s b' q Htp Hs (Hall' b' Hb') Ha'))
        as Hq'.
      assert (Heq : b = b').
      { apply (boundary_unit_inj tp); auto.
        apply get_time_prefix_unit_inj; [exact Htp | congruence]. }
      pose proof (locally_sorted_head bs b Hsort) as Hlt.
      rewrite Forall_forall in Hlt. specialize (Hlt b' Hb').
      subst b'. exact (ts_lt_irrefl _ Hlt).
    + apply IH; [assumption | eapply locally_sorted_tail; eassumption].
Qed.

(** X3. The windows that [get_list_group_periods] returns for one range have
    pairwise distinct prefixes: no two windows of a run share a key of the
    dictionary of groups or a file name. *)
Theorem window_prefixes_are_distinct tp start_time end_time ws :
  supported tp ->
  valid_timestamp start_time -> valid_timestamp end_time ->
  ts_le start_time end_time ->
  get_list_group_periods start_time end_time tp = Ok ws ->
  NoDup (map period_prefix ws).
Proof.
  intros Htp Hs He Hle Hrun.
  apply windows_on_calendar in Hrun.
  destruct (group_periods_traced tp _ _ ws Htp Hs He Hle Hrun)
    as (bs & Hall & Hsort & Hwin).
  apply (windows_prefixes_nodup tp start_time bs ws); assumption.
Qed.

Lemma window_prefixes_are_distinct_witness :
  NoDup ["2021_1"; "2021_2"; "2021_3"].
Proof.
  apply (window_prefixes_are_distinct "month" (midnight 2021 1 15)
           (midnight 2021 3 10)
           [("2021_1", midnight 2021 1 15, midnight 2021 2 1);
            ("2021_2", midnight 2021 2 1, midnight 2021 3 1);
            ("2021_3", midnight 2021 3 1, midnight 2021 3 10)]).
  - right; left; reflexivity.
  - unfold valid_timestamp; vm_compute; intuition discriminate.
  - unfold valid_timestamp; vm_compute; intuition discriminate.
  - left. unfold ts_lt; simpl; lia.
  - vm_compute. reflexivity.
Defined.

(* ------------------------------------------------------------------------- *)
(** ** Only the first start and the last end are clamped *)

Lemma chain_ends_at a b ws :
  chain a b ws -> forall d, period_end (last ws d) = b.
Proof.
  induction 1 as [p Hp | p b ws Hp Hc IH]; intros d; [reflexivity|].
  destruct (chain_head _ _ _ Hc) as (q & rest & -> & _).
  change (last (p :: q :: rest) d) with (last (q :: rest) d). apply IH.
Qed.

Lemma chain_tail_after a b p ws :
  chain a b (p :: ws) ->
  a = period_start p /\ Forall (fun q => ts_lt a (period_start q)) ws.
Proof.
  intros Hc. inversion Hc as [? Hp | ? ? ? Hp Hrest]; subst.
  - split; [reflexivity | constructor].
  - split; [reflexivity|].
    eapply Forall_impl; [|exact (chain_bounds _ _ _ Hrest)].
    cbn beta. intros q (H1 & _). eapply ts_lt_le_trans; eassumption.
Qed.

(** X4. For valid [start_time < end_time], the first window starts at
    [start_time] and the last one ends at [end_time]; every other window
    starts at a midnight on the offset of the granularity (1 January, the
    first of a month, the first of a quarter, or any midnight). *)
Theorem windows_clamp_only_the_ends tp start_time end_time ws :
  supported tp ->
  valid_timestamp start_time -> valid_timestamp end_time ->
  ts_lt start_time end_time ->
  get_list_group_periods start_time end_time tp = Ok ws ->
  exists first rest,
    ws = first :: rest /\
    period_start first = start_time /\
    period_end (last rest first) = end_time /\
    Forall (fun p => boundary (freq_of tp) (period_start p)) rest.
Proof.
  intros Htp Hs He Hlt Hrun.
  apply windows_on_calendar in Hrun.
  pose proof (ts_lt_le _ _ Hlt) as Hle.
  destruct (group_periods_traced tp _ _ ws Htp Hs He Hle Hrun)
    as (bs & Hall & _ & Hwin).
  assert (Hchain : chain start_time end_time ws).
  { destruct (boundaries_spec tp _ _ Htp Hs He Hle)
      as (b & rest & Hb & Hbs & Hsort).
    destruct (group_periods_loop_covers tp start_time end_time (b :: rest)
                Htp Hsort) as (ws' & Hloop & Hcov).
    unfold calendar_windows in Hrun. rewrite Hb in Hrun.
    cbn [bind] in Hrun. rewrite Hloop in Hrun. injection Hrun as ->.
    replace (ts_max b start_time) with start_time in Hcov.
    - destruct Hcov as [[_ Hc] | [Hge _]]; [exact Hc|].
      exfalso. clear - Hlt Hge. ts_arith.
    - destruct (ts_max_spec b start_time) as [[_ ->] | [H1 ->]]; [reflexivity|].
      clear - H1 Hbs. ts_arith. }
  destruct (chain_head _ _ _ Hchain) as (first & rest & -> & Hfirst).
  exists first, rest. split; [reflexivity|]. split; [exact Hfirst|].
  split.
  - pose proof (chain_ends_at _ _ _ Hchain first) as Hl.
    destruct rest; exact Hl.
  - destruct (chain_tail_after _ _ _ _ Hchain) as (_ & Hafter).
    rewrite Forall_forall in Hafter |- *. intros p Hp.
    destruct (windows_of_anchor _ _ _ _ _ Hwin p (or_intror Hp))
      as (b & Hb & (Hstart & _)).
    rewrite Forall_forall in Hall.
    destruct (ts_max_spec b start_time) as [[_ Hmax] | [_ Hmax]];
      rewrite Hmax in Hstart.
    + exfalso. specialize (Hafter p Hp). rewrite Hstart in Hafter.
      exact (ts_lt_irrefl _ Hafter).
    + rewrite Hstart. apply Hall, Hb.
Qed.

Lemma windows_clamp_only_the_ends_witness :
  exists first rest,
    [("2021_1", midnight 2021 1 15, midnight 2021 2 1);
     ("2021_2", midnight 2021 2 1, midnight 2021 3 1);
     ("2021_3", midnight 2021 3 1, midnight 2021 3 10)] = first :: rest /\
    period_start first = midnight 2021 1 15 /\
    period_end (last rest first) = midnight 2021 3 10 /\
    Forall (fun p => boundary (freq_of "month") (period_start p)) rest.
Proof.
  apply (windows_clamp_only_the_ends "month" (midnight 2021 1 15)
           (midnight 2021 3 10)).
  - right; left; reflexivity.
  - unfold valid_timestamp; vm_compute; intuition discriminate.
  - unfold valid_timestamp; vm_compute; intuition discriminate.
  - unfold ts_lt; simpl; lia.
  - vm_compute. reflexivity.
Defined.

(* ------------------------------------------------------------------------- *)
(** ** routines.py: the row filter of a window *)

Lemma selects_within p row :
  selects (define_dataset_filter (period_start p) (period_end p)) row = true <->
  exists t, row "time" = Some t /\ within p t.
Proof.
  unfold selects, define_dataset_filter, within. cbn [evaluate].
  destruct (row "time") as [t|]; cbn [option_map].
  - destruct (ts_leb (period_start p) t) eqn:H1;
      destruct (ts_ltb t (period_end p)) eqn:H2; split;
      try discriminate; try (intros (t' & [= <-] & A & B)).
    + intros _. exists t. split; [reflexivity|].
      split; [apply ts_leb_le, H1 | apply ts_ltb_lt, H2].
    + reflexivity.
    + apply ts_ltb_lt in B. congruence.
    + apply ts_leb_le in A. congruence.
    + apply ts_leb_le in A. congruence.
  - split; [discriminate | intros (t & [=] & _)].
Qed.

Lemma chain_selects_once a b ws :
  chain a b ws ->
  forall row t, row "time" = Some t ->
    List.length (selecting_windows ws row)
    = if ts_leb a t && ts_ltb t b then 1%nat else 0%nat.
Proof.
  unfold selecting_windows.
  induction 1 as [p Hp | p b ws Hp Hc IH]; intros row t Ht.
  - cbn [filter].
    destruct (selects _ row) eqn:Hsel.
    + apply selects_within in Hsel as (t' & Ht' & A & B).
      rewrite Ht in Ht'. injection Ht' as <-.
      apply ts_leb_le in A. apply ts_ltb_lt in B. rewrite A, B. reflexivity.
    + destruct (ts_leb (period_start p) t) eqn:A;
        destruct (ts_ltb t (period_end p)) eqn:B; try reflexivity.
      exfalso. assert (Hs : selects (define_dataset_filter (period_start p)
                                       (period_end p)) row = true).
      { apply selects_within. exists t. split; [exact Ht|].
        split; [apply ts_leb_le, A | apply ts_ltb_lt, B]. }
      congruence.
  - cbn [filter]. specialize (IH row t Ht).
    pose proof (chain_lt _ _ _ Hc) as Hlt.
    destruct (selects _ row) eqn:Hsel.
    + apply selects_within in Hsel as (t' & Ht' & A & B).
      rewrite Ht in Ht'. injection Ht' as <-.
      cbn [List.length]. rewrite IH.
      assert (Hn : ts_leb (period_end p) t = false).
      { destruct (ts_leb (period_end p) t) eqn:E; [|reflexivity].
        apply ts_leb_le in E. exfalso.
        exact (ts_lt_irrefl _ (ts_lt_le_trans _ _ _ B E)). }
      rewrite Hn. cbn [andb].
      apply ts_leb_le in A. rewrite A.
      assert (Hb : ts_ltb t b = true)
        by (apply ts_ltb_lt; eapply ts_lt_trans; eassumption).
      rewrite Hb. reflexivity.
    + rewrite IH.
      destruct (ts_leb (period_end p) t) eqn:E.
      * apply ts_leb_le in E.
        assert (A : ts_leb (period_start p) t = true).
        { apply ts_leb_le. eapply ts_le_trans; [apply ts_lt_le, Hp | exact E]. }
        rewrite A. reflexivity.
      * cbn [andb].
        destruct (ts_leb (period_start p) t) eqn:A; [|reflexivity].
        exfalso.
        assert (B : ts_lt t (period_end p)).
        { apply ts_nle_lt. intros C. apply ts_leb_le in C. congruence. }
        assert (Hs : selects (define_dataset_filter (period_start p)
                                (period_end p)) row = true).
        { apply selects_within. exists t. split; [exact Ht|].
          split; [apply ts_leb_le, A | exact B]. }
        congruence.
Qed.

(** X5. The row filters of the windows of one range select every row whose
    time lies in [[start_time, end_time)] exactly once, and no other row: a
    row whose time is outside the range, or null, passes the filter of no
    window. *)
Theorem each_row_is_selected_by_one_window tp start_time end_time ws row :
  supported tp ->
  valid_timestamp start_time -> valid_timestamp end_time ->
  ts_le start_time end_time ->
  get_list_group_periods start_time end_time tp = Ok ws ->
  List.length (selecting_windows ws row)
  = match row "time" with
    | Some t => if ts_leb start_time t && ts_ltb t end_time then 1%nat else 0%nat
    | None => 0%nat
    end.
Proof.
  intros Htp Hs He Hle Hrun.
  apply windows_on_calendar in Hrun.
  destruct (row "time") as [t|] eqn:Ht.
  - destruct (boundaries_spec tp _ _ Htp Hs He Hle)
      as (b & rest & Hb & Hbs & Hsort).
    destruct (group_periods_loop_covers tp start_time end_time (b :: rest)
                Htp Hsort) as (ws' & Hloop & Hcov).
    unfold calendar_windows in Hrun. rewrite Hb in Hrun.
    cbn [bind] in Hrun. rewrite Hloop in Hrun. injection Hrun as ->.
    replace (ts_max b start_time) with start_time in Hcov.
    + destruct Hcov as [[_ Hc] | [Hge ->]].
      * apply (chain_selects_once _ _ _ Hc row t Ht).
      * cbn. destruct (ts_leb start_time t) eqn:A;
          destruct (ts_ltb t end_time) eqn:B; try reflexivity.
        exfalso. apply ts_leb_le in A. apply ts_ltb_lt in B.
        clear - A B Hge. ts_arith.
    + destruct (ts_max_spec b start_time) as [[_ ->] | [H1 ->]]; [reflexivity|].
      clear - H1 Hbs. ts_arith.
  - unfold selecting_windows. clear Hrun.
    induction ws as [|p ws IH]; [reflexivity|].
    cbn [filter].
    destruct (selects _ row) eqn:Hsel; [|exact IH].
    apply selects_within in Hsel as (t & Ht' & _). congruence.
Qed.

Lemma each_row_is_selected_by_one_window_witness :
  List.length
    (selecting_windows
       [("2021_1", midnight 2021 1 15, midnight 2021 2 1);
        ("2021_2", midnight 2021 2 1, midnight 2021 3 1);
        ("2021_3", midnight 2021 3 1, midnight 2021 3 10)]
       (fun name => if (name =? "time")%string
                    then Some (midnight 2021 2 1) else None))
  = 1%nat.
Proof.
  apply (each_row_is_selected_by_one_window "month" (midnight 2021 1 15)
           (midnight 2021 3 10) _
           (fun name => if (name =? "time")%string
                        then Some (midnight 2021 2 1) else None)).
  - right; left; reflexivity.
  - unfold valid_timestamp; vm_compute; intuition discriminate.
  - unfold valid_timestamp; vm_compute; intuition discriminate.
  - left. unfold ts_lt; simpl; lia.
  - vm_compute. reflexivity.
Defined.

(* ------------------------------------------------------------------------- *)
(** ** The blocks of [split_list_in_blocks] *)

Lemma list_slice_length {A} (values : list A) i block_size :
  0 <= i -> 0 < block_size ->
  Z.of_nat (List.length (list_slice values i (i + block_size)))
  = Z.min block_size (Z.max 0 (Z.of_nat (List.length values) - i)).
Proof.
  intros Hi Hbs. unfold list_slice.
  rewrite length_firstn, length_skipn. lia.
Qed.

Lemma range_from_blocks {A} (values : list A) (block_size : Z) :
  0 < block_size ->
  forall fuel i,
    0 <= i ->
    let blocks :=
      map (fun i => list_slice values i (i + block_size))
        (range_from fuel i (Z.of_nat (List.length values)) block_size) in
    Forall (fun b => b <> [] /\ Z.of_nat (List.length b) <= block_size) blocks /\
    Forall (fun b => Z.of_nat (List.length b) = block_size) (removelast blocks).
Proof.
  intros Hbs. induction fuel as [|fuel IH]; intros i Hi; cbv zeta.
  - cbn. split; constructor.
  - cbn [range_from].
    destruct (Z.ltb_spec i (Z.of_nat (List.length values))) as [Hlt | Hge].
    + cbn [map]. destruct (IH (i + block_size)) as (H1 & H2); [lia|].
      cbv zeta in H1, H2.
      pose proof (list_slice_length values i block_size Hi Hbs) as Hlen.
      split.
      * constructor; [|exact H1]. split; [|lia].
        intros Hnil. rewrite Hnil in Hlen. cbn in Hlen. lia.
      * destruct fuel as [|fuel'].
        -- cbn. constructor.
        -- cbn [range_from] in *.
           destruct (Z.ltb_spec (i + block_size) (Z.of_nat (List.length values))).
           ++ cbn [map removelast] in *. constructor; [lia | exact H2].
           ++ cbn. constructor.
    + cbn. split; constructor.
Qed.

(** X6. For a positive block size, [split_list_in_blocks] cuts the list into
    consecutive blocks: their concatenation is the list, no block is empty
    or longer than the block size, and every block but the last has exactly
    the block size. *)
Theorem split_list_in_blocks_partition {A} (values : list A) (block_size : Z) :
  0 < block_size ->
  exists blocks,
    split_list_in_blocks values block_size = Ok blocks /\
    List.concat blocks = values /\
    Forall (fun b => b <> [] /\ Z.of_nat (List.length b) <= block_size) blocks /\
    Forall (fun b => Z.of_nat (List.length b) = block_size) (removelast blocks).
Proof.
  intros Hbs.
  destruct (split_list_in_blocks_concat values block_size Hbs)
    as (blocks & Hsplit & Hconcat).
  exists blocks. split; [exact Hsplit|]. split; [exact Hconcat|].
  unfold split_list_in_blocks, py_range in Hsplit.
  destruct (Z.eqb_spec block_size 0); [lia|].
  destruct (Z.ltb_spec block_size 0); [lia|].
  cbn [bind] in Hsplit. injection Hsplit as <-.
  apply range_from_blocks; lia.
Qed.

Lemma split_list_in_blocks_partition_witness :
  exists blocks,
    split_list_in_blocks [1; 2; 3; 4; 5] 2 = Ok blocks /\
    List.concat blocks = [1; 2; 3; 4; 5] /\
    Forall (fun b => b <> [] /\ Z.of_nat (List.length b) <= 2) blocks /\
    Forall (fun b => Z.of_nat (List.length b) = 2) (removelast blocks).
Proof. apply (split_list_in_blocks_partition [1; 2; 3; 4; 5] 2). lia. Defined.

(** X7. A block size that is not positive: with zero, [range] raises
    [ValueError]; with a negative one there is no block at all.  In
    [write_granules_bucket] the information of the bucket is written first,
    so with a negative [max_dask_total_tasks] the routine returns normally
    having ingested no granule, and with zero it raises after having written
    the information of the bucket. *)
Theorem block_size_not_positive E filepaths bucket_dir sp
  (extractor : Extractor E) parallel max_concurrent_tasks block_size
  use_threads row_group_size writer_kwargs w :
  fst (write_bucket_info E bucket_dir sp None (fs w)) = Ok tt ->
  block_size <= 0 ->
  let w1 := mkWorld (snd (write_bucket_info E bucket_dir sp None (fs w)))
              (stdout w) in
  split_list_in_blocks filepaths block_size
  = (if block_size =? 0
     then Raise (mkExn ValueError "range() arg 3 must not be zero")
     else Ok []) /\
  write_granules_bucket E filepaths bucket_dir sp extractor parallel
    max_concurrent_tasks block_size use_threads row_group_size writer_kwargs w
  = (if block_size =? 0
     then (Raise (mkExn ValueError "range() arg 3 must not be zero"), w1)
     else (Ok tt, w1)).
Proof.
  intros Hinfo Hbs w1.
  assert (Hsplit : split_list_in_blocks filepaths block_size
                   = (if block_size =? 0
                      then Raise (mkExn ValueError "range() arg 3 must not be zero")
                      else Ok [])).
  { unfold split_list_in_blocks, py_range.
    destruct (Z.eqb_spec block_size 0); [reflexivity|].
    destruct (Z.ltb_spec block_size 0); [reflexivity | lia]. }
  split; [exact Hsplit|].
  unfold write_granules_bucket, bindM, on_fs, lift. subst w1.
  destruct (write_bucket_info E bucket_dir sp None (fs w)) as [r f1].
  cbn [fst snd] in *. subst r. rewrite Hsplit.
  destruct (block_size =? 0); reflexivity.
Qed.

Lemma block_size_not_positive_witness :
  write_granules_bucket package_collaborators five_granules "/granules"
    sample_partitioning third_fails false None (-1) false (VStr "500MB") []
    empty_world
  = (Ok tt,
     mkWorld (mkFS ["/granules"] [("/granules/bucket_info.yaml", "")]) []).
Proof.
  apply (proj2 (block_size_not_positive package_collaborators five_granules
                  "/granules" sample_partitioning third_fails false None (-1)
                  false (VStr "500MB") [] empty_world eq_refl ltac:(lia))).
Defined.

(* ------------------------------------------------------------------------- *)
(** ** Exceptions that do not derive from [Exception] *)

Lemma try_write_outcome E bucket_dir sp (extractor : Extractor E) kwargs src w :
  let outcome := granule_outcome E bucket_dir sp extractor kwargs in
  let w' := mkWorld (snd (outcome src (fs w))) (stdout w) in
  _try_write_granule_bucket E src bucket_dir sp extractor kwargs w
  = match fst (outcome src (fs w)) with
    | Ok _ => (Ok None, w')
    | Raise e =>
        if is_Exception (exn_cls e)
        then (Ok (Some (src, exn_msg e)), w')
        else (Raise e, w')
    end.
Proof.
  cbv zeta. unfold _try_write_granule_bucket, granule_outcome.
  rewrite write_granule_bucket_world.
  destruct (write_granule_bucket E src bucket_dir sp extractor _ _ _
              (mkWorld (fs w) [])) as [[[] | e] w1]; reflexivity.
Qed.

Lemma single_block {A} (values : list A) (block_size : Z) :
  values <> [] -> Z.of_nat (List.length values) <= block_size ->
  split_list_in_blocks values block_size = Ok [values].
Proof.
  intros Hne Hlen. destruct values as [|v rest]; [contradiction|].
  unfold split_list_in_blocks, py_range.
  cbn [List.length] in *.
  destruct (Z.eqb_spec block_size 0); [lia|].
  destruct (Z.ltb_spec block_size 0); [lia|]. cbn [bind].
  rewrite Nat2Z.id. cbn [range_from].
  destruct (Z.ltb_spec 0 (Z.of_nat (S (List.length rest)))); [|lia].
  assert (Hrest : range_from (List.length rest) (0 + block_size)
                    (Z.of_nat (S (List.length rest))) block_size = []).
  { destruct (List.length rest); [reflexivity|]. cbn [range_from].
    destruct (Z.ltb_spec (0 + block_size) (Z.of_nat (S (S n0)))); [lia|].
    reflexivity. }
  rewrite Hrest. cbn [map]. unfold list_slice. cbn [Z.to_nat skipn].
  rewrite firstn_all2 by (cbn [List.length]; lia). reflexivity.
Qed.

Lemma ingest_in_order_cons_fs outcome src rest f :
  snd (ingest_in_order outcome (src :: rest) f)
  = snd (ingest_in_order outcome rest (snd (outcome src f))).
Proof.
  cbn [ingest_in_order]. destruct (outcome src f) as [r f1]. cbn [snd].
  destruct (ingest_in_order outcome rest f1). reflexivity.
Qed.

Lemma guarded_calls_abort E bucket_dir sp (extractor : Extractor E) kwargs
  bad after e : forall before w,
  let outcome := granule_outcome E bucket_dir sp extractor kwargs in
  let f_before := snd (ingest_in_order outcome before (fs w)) in
  (forall src f e', In src before -> fst (outcome src f) = Raise e' ->
                    is_Exception (exn_cls e') = true) ->
  fst (outcome bad f_before) = Raise e ->
  is_Exception (exn_cls e) = false ->
  map_M (fun c => c)
    (map (fun src => _try_write_granule_bucket E src bucket_dir sp extractor
                       kwargs)
       (before ++ bad :: after)) w
  = (Raise e, mkWorld (snd (outcome bad f_before)) (stdout w)).
Proof.
  induction before as [|src before IH]; intros w; cbv zeta;
    intros Hbefore Hbad Hexn.
  - cbn [app map map_M ingest_in_order snd] in *. unfold bindM.
    rewrite try_write_outcome. cbv zeta. rewrite Hbad, Hexn. reflexivity.
  - cbn [app map map_M]. unfold bindM at 1.
    rewrite try_write_outcome. cbv zeta.
    rewrite ingest_in_order_cons_fs in Hbad |- *.
    pose proof (Hbefore src (fs w)) as Hsrc.
    destruct (granule_outcome E bucket_dir sp extractor kwargs src (fs w))
      as [r f1] eqn:Hout.
    cbn [fst snd] in *.
    assert (Hnext : map_M (fun c => c)
                      (map (fun src => _try_write_granule_bucket E src bucket_dir
                                         sp extractor kwargs)
                         (before ++ bad :: after)) (mkWorld f1 (stdout w))
                    = (Raise e,
                       mkWorld (snd (granule_outcome E bucket_dir sp extractor
                                       kwargs bad
                                       (snd (ingest_in_order
                                               (granule_outcome E bucket_dir sp
                                                  extractor kwargs) before f1))))
                         (stdout w))).
    { apply (IH (mkWorld f1 (stdout w))).
      - intros s f e' Hin. apply Hbefore. right. exact Hin.
      - exact Hbad.
      - exact Hexn. }
    destruct r as [[] | e0].
    + unfold bindM. rewrite Hnext. reflexivity.
    + rewrite (Hsrc e0 (or_introl eq_refl) eq_refl).
      unfold bindM. rewrite Hnext. reflexivity.
Qed.

(** X8. The guard of [_try_write_granule_bucket] is [except Exception]: an
    exception that does not derive from [Exception] (a [KeyboardInterrupt])
    raised while a granule is ingested goes through it and ends
    [write_granules_bucket].  With [parallel=False], keywords of the writer
    that do not clash with the arguments of the guarded call, and a list
    that fits in one block, the granules before it have been ingested, those
    after it are not, and no failure record is printed, not even for the
    granules that failed before it. *)
Theorem interrupt_ends_the_run E before bad after bucket_dir sp
  (extractor : Extractor E) max_concurrent_tasks block_size
  use_threads row_group_size writer_kwargs e w :
  let kwargs :=
    dict_set (dict_set writer_kwargs "row_group_size" row_group_size)
      "use_threads" (VBool use_threads) in
  let outcome := granule_outcome E bucket_dir sp extractor kwargs in
  let f1 := snd (write_bucket_info E bucket_dir sp None (fs w)) in
  let f_before := snd (ingest_in_order outcome before f1) in
  Z.of_nat (List.length (before ++ bad :: after)) <= block_size ->
  passes_no_explicit_keyword writer_kwargs ->
  fst (write_bucket_info E bucket_dir sp None (fs w)) = Ok tt ->
  (forall src f e', In src before -> fst (outcome src f) = Raise e' ->
                    is_Exception (exn_cls e') = true) ->
  fst (outcome bad f_before) = Raise e ->
  is_Exception (exn_cls e) = false ->
  write_granules_bucket E (before ++ bad :: after) bucket_dir sp extractor
    false max_concurrent_tasks block_size use_threads row_group_size
    writer_kwargs w
  = (Raise e,
     mkWorld (snd (outcome bad f_before)) (stdout w ++ [ExecutingBlock 1 1])).
Proof.
  intros kwargs outcome f1 f_before Hlen Hfree Hinfo Hbefore Hbad Hexn.
  unfold write_granules_bucket. unfold bindM at 1. unfold on_fs.
  destruct (write_bucket_info E bucket_dir sp None (fs w)) as [r f1'] eqn:Hw.
  cbn [fst snd] in Hinfo. subst r. subst f1. cbn [snd] in *.
  unfold bindM at 1. unfold lift.
  rewrite single_block by (try assumption; destruct before; discriminate).
  cbn [List.length enumerate_from for_each]. change (Z.of_nat 1) with 1.
  unfold bindM at 1.
  unfold write_granules_block. unfold bindM at 1. unfold print at 1.
  cbn [fs stdout]. unfold bindM at 1. unfold lift at 1. fold kwargs.
  assert (Hcall : match (before ++ bad :: after)%list with
                  | [] => Ok tt
                  | _ :: _ =>
                      explicit_keywords_free (callee_name E false) kwargs
                  end = Ok tt).
  { destruct (before ++ bad :: after)%list; [reflexivity|].
    apply explicit_keywords_free_ok.
    apply passes_no_explicit_keyword_set. exact Hfree. }
  rewrite Hcall. unfold bindM at 1. unfold compute_list_delayed.
  pose proof (guarded_calls_abort E bucket_dir sp extractor kwargs bad after e
                before (mkWorld f1' (stdout w ++ [ExecutingBlock (0 + 1) 1])))
    as Habort.
  cbv zeta in Habort. cbn [fs stdout] in Habort.
  specialize (Habort Hbefore Hbad Hexn).
  rewrite Habort. reflexivity.
Qed.

Lemma interrupt_ends_the_run_witness :
  write_granules_bucket package_collaborators five_granules "/granules"
    sample_partitioning third_interrupted false None 500 false (VStr "500MB") []
    empty_world
  = (Raise (mkExn KeyboardInterrupt ""),
     mkWorld
       (mkFS ["/granules"; "/granules/lon_bin=0"; "/granules/lon_bin=0/lat_bin=0"]
          [("/granules/bucket_info.yaml", "");
           ("/granules/lon_bin=0/lat_bin=0/g2_0.parquet", "/data/g2.HDF5;")])
       [ExecutingBlock 1 1]).
Proof.
  apply (interrupt_ends_the_run package_collaborators
           ["/data/g1.HDF5"; "/data/g2.HDF5"] "/data/g3.HDF5"
           ["/data/g4.HDF5"; "/data/g5.HDF5"] "/granules" sample_partitioning
           third_interrupted None 500 false (VStr "500MB") []
           (mkExn KeyboardInterrupt "") empty_world).
  - cbn. lia.
  - intros k [].
  - reflexivity.
  - intros src f e' [<- | [<- | []]]; vm_compute; intros [= <-]; reflexivity.
  - reflexivity.
  - reflexivity.
Defined.

(* ------------------------------------------------------------------------- *)
(** ** The removal of the archived files in update mode *)

Lemma filter_filter {A} (f g : A -> bool) (l : list A) :
  filter g (filter f l) = filter (fun a => f a && g a) l.
Proof.
  induction l as [|a l IH]; [reflexivity|]. cbn [filter].
  destruct (f a); cbn [filter andb]; [destruct (g a)|]; rewrite IH; reflexivity.
Qed.

Lemma filter_all {A} (f : A -> bool) (l : list A) :
  (forall a, In a l -> f a = true) -> filter f l = l.
Proof.
  induction l as [|a l IH]; intros Hall; [reflexivity|]. cbn [filter].
  rewrite (Hall a (or_introl eq_refl)). f_equal. apply IH.
  intros b Hb. apply Hall. right. exact Hb.
Qed.

Lemma existsb_filter {A} (f g : A -> bool) (l : list A) :
  existsb g (filter f l) = existsb (fun a => f a && g a) l.
Proof.
  induction l as [|a l IH]; [reflexivity|]. cbn [filter existsb].
  destruct (f a); cbn [existsb andb orb]; rewrite IH; reflexivity.
Qed.

Lemma is_file_after_remove f p q :
  is_file (mkFS (dirs f)
             (filter (fun e => negb (String.eqb p (fst e))) (files f))) q
  = negb (String.eqb p q) && is_file f q.
Proof.
  unfold is_file. cbn [files]. rewrite existsb_filter.
  destruct (String.eqb_spec p q) as [-> | Hne]; cbn [negb andb].
  - induction (files f) as [|e l IH]; [reflexivity|]. cbn [existsb].
    rewrite IH. destruct (String.eqb q (fst e)); reflexivity.
  - induction (files f) as [|e l IH]; [reflexivity|]. cbn [existsb].
    rewrite IH. f_equal.
    destruct (String.eqb_spec q (fst e)) as [<- | Hq].
    + destruct (String.eqb_spec p q); [contradiction | reflexivity].
    + apply andb_false_r.
Qed.

Lemma existsb_eqb_In (q : string) (l : list string) :
  existsb (String.eqb q) l = true <-> In q l.
Proof.
  rewrite existsb_exists. split.
  - intros [x [Hin Heq]]. apply String.eqb_eq in Heq. subst x. exact Hin.
  - intros Hin. exists q. split; [exact Hin | apply String.eqb_refl].
Qed.

Lemma world_eta w : mkWorld (mkFS (dirs (fs w)) (files (fs w))) (stdout w) = w.
Proof. destruct w as [[d f] o]. reflexivity. Qed.

(** One turn of the outer loop, when the files to remove are there. *)
Lemma remove_for_prefix time_prefix : forall existing_filepaths w,
  NoDup existing_filepaths ->
  (forall p, In p existing_filepaths -> matches time_prefix p = true ->
             is_file (fs w) p = true) ->
  for_each existing_filepaths (fun filepath =>
    if startswith (basename filepath) time_prefix
    then os_remove filepath
    else ret tt) w
  = (Ok tt,
     mkWorld (mkFS (dirs (fs w))
                (filter (fun e => negb (rewritten [time_prefix]
                                          existing_filepaths (fst e)))
                   (files (fs w))))
       (stdout w)).
Proof.
  induction existing_filepaths as [|x xs IH]; intros w Hnd Hfiles.
  - cbn [for_each]. unfold ret. f_equal.
    rewrite filter_all by reflexivity. symmetry. apply world_eta.
  - cbn [for_each]. unfold bindM.
    inversion Hnd as [|? ? Hx Hnd']; subst.
    fold (matches time_prefix x).
    destruct (matches time_prefix x) eqn:Hm.
    + unfold os_remove, on_fs.
      rewrite (Hfiles x (or_introl eq_refl) Hm).
      rewrite IH; [|exact Hnd'|].
      * cbn [fs stdout dirs files]. rewrite filter_filter. do 3 f_equal.
        apply filter_ext. intros e. unfold rewritten. cbn [existsb].
        rewrite (String.eqb_sym (fst e) x).
        destruct (String.eqb_spec x (fst e)) as [<- | Hne];
          cbn [negb andb orb]; [rewrite Hm|]; reflexivity.
      * intros p Hp Hmp. cbn [fs]. rewrite is_file_after_remove.
        destruct (String.eqb_spec x p) as [-> | Hne]; [contradiction|].
        cbn [negb andb]. apply Hfiles; [right|]; assumption.
    + unfold ret at 1. rewrite IH; [|exact Hnd'|].
      * do 3 f_equal. apply filter_ext. intros e. unfold rewritten.
        cbn [existsb]. destruct (String.eqb_spec (fst e) x) as [-> | Hne];
          cbn [orb]; [|reflexivity].
        unfold matches in Hm |- *. rewrite Hm. cbn [orb].
        rewrite !andb_false_r. reflexivity.
      * intros p Hp Hmp. apply Hfiles; [right|]; assumption.
Qed.

Lemma remove_archived_files_spec : forall time_prefixes existing_filepaths w,
  NoDup existing_filepaths ->
  (forall p, In p existing_filepaths ->
             (1 <= n_matches time_prefixes p)%nat -> is_file (fs w) p = true) ->
  (forall p, In p existing_filepaths -> (n_matches time_prefixes p <= 1)%nat) ->
  remove_archived_files time_prefixes existing_filepaths w
  = (Ok tt,
     mkWorld (mkFS (dirs (fs w))
                (filter (fun e => negb (rewritten time_prefixes
                                          existing_filepaths (fst e)))
                   (files (fs w))))
       (stdout w)).
Proof.
  unfold remove_archived_files.
  induction time_prefixes as [|tp tps IH]; intros xs w Hnd Hfiles Hone.
  - cbn [for_each]. unfold ret. f_equal.
    rewrite filter_all; [symmetry; apply world_eta|].
    intros e _. unfold rewritten. cbn [existsb]. rewrite andb_false_r.
    reflexivity.
  - cbn [for_each]. unfold bindM.
    rewrite remove_for_prefix; [|exact Hnd|].
    + rewrite IH; [|exact Hnd| |].
      * cbn [fs stdout dirs files]. rewrite filter_filter. do 3 f_equal.
        apply filter_ext. intros e. unfold rewritten. cbn [existsb].
        destruct (existsb (String.eqb (fst e)) xs); cbn [andb];
          [|reflexivity].
        rewrite orb_false_r. symmetry. apply negb_orb.
      * intros p Hp Hn. cbn [fs]. unfold is_file. cbn [files].
        rewrite existsb_filter.
        specialize (Hone p Hp). unfold n_matches in Hone, Hn, Hfiles.
        cbn [filter] in Hone.
        assert (Hfile : is_file (fs w) p = true).
        { apply Hfiles; [exact Hp|]. cbn [filter].
          destruct (matches tp p); cbn [List.length]; lia. }
        assert (Hmp : matches tp p = false).
        { destruct (matches tp p); [cbn [List.length] in Hone; lia|].
          reflexivity. }
        unfold is_file in Hfile. apply existsb_exists in Hfile.
        destruct Hfile as [e [He Heq]]. apply existsb_exists.
        exists e. split; [exact He|]. rewrite Heq, andb_true_r.
        apply String.eqb_eq in Heq. subst p. unfold rewritten.
        cbn [existsb]. rewrite Hmp. cbn [orb]. rewrite andb_false_r.
        reflexivity.
      * intros p Hp. specialize (Hone p Hp). unfold n_matches in *.
        cbn [filter] in Hone. destruct (matches tp p);
          cbn [List.length] in Hone; lia.
    + intros p Hp Hmp. apply Hfiles; [exact Hp|].
      unfold n_matches. cbn [filter]. rewrite Hmp. cbn [List.length]. lia.
Qed.

(** X9. In update mode the files of the destination partition which a group
    will rewrite are removed first.  When the listed paths are distinct files
    and none of their names starts with two of the time prefixes,
    [remove_archived_files] returns, the files it removed are exactly the
    listed files whose name starts with one of the time prefixes, and the
    other files, their content, their order and the directories are as
    before. *)
Theorem update_removes_the_files_of_the_groups time_prefixes
  existing_filepaths w :
  NoDup existing_filepaths ->
  (forall p, In p existing_filepaths -> is_file (fs w) p = true) ->
  (forall p, In p existing_filepaths -> (n_matches time_prefixes p <= 1)%nat) ->
  remove_archived_files time_prefixes existing_filepaths w
  = (Ok tt,
     mkWorld (mkFS (dirs (fs w))
                (filter (fun e => negb (rewritten time_prefixes
                                          existing_filepaths (fst e)))
                   (files (fs w))))
       (stdout w)).
Proof.
  intros Hnd Hfiles Hone. apply remove_archived_files_spec; auto.
Qed.

Lemma update_removes_the_files_of_the_groups_witness :
  remove_archived_files ["2021_2"; "2021_3"]
    ["/dst/lon_bin=0/2021_2_0.parquet"; "/dst/lon_bin=0/2021_3_0.parquet";
     "/dst/lon_bin=0/2021_4_0.parquet"]
    (mkWorld (mkFS ["/dst"; "/dst/lon_bin=0"]
                [("/dst/lon_bin=0/2021_2_0.parquet", "a");
                 ("/dst/lon_bin=0/2021_3_0.parquet", "b");
                 ("/dst/lon_bin=0/2021_4_0.parquet", "c");
                 ("/dst/lon_bin=1/2021_2_0.parquet", "d")]) [])
  = (Ok tt,
     mkWorld (mkFS ["/dst"; "/dst/lon_bin=0"]
                [("/dst/lon_bin=0/2021_4_0.parquet", "c");
                 ("/dst/lon_bin=1/2021_2_0.parquet", "d")]) []).
Proof.
  apply (update_removes_the_files_of_the_groups ["2021_2"; "2021_3"]
           ["/dst/lon_bin=0/2021_2_0.parquet"; "/dst/lon_bin=0/2021_3_0.parquet";
            "/dst/lon_bin=0/2021_4_0.parquet"]
           (mkWorld (mkFS ["/dst"; "/dst/lon_bin=0"]
                       [("/dst/lon_bin=0/2021_2_0.parquet", "a");
                        ("/dst/lon_bin=0/2021_3_0.parquet", "b");
                        ("/dst/lon_bin=0/2021_4_0.parquet", "c");
                        ("/dst/lon_bin=1/2021_2_0.parquet", "d")]) [])).
  - repeat constructor; cbn; intuition discriminate.
  - intros p [<- | [<- | [<- | []]]]; reflexivity.
  - intros p [<- | [<- | [<- | []]]]; vm_compute; lia.
Defined.

(** The loops raise nothing but the error of [os.remove]. *)
Lemma remove_for_prefix_raises time_prefix : forall existing_filepaths w e w',
  for_each existing_filepaths (fun filepath =>
    if startswith (basename filepath) time_prefix
    then os_remove filepath
    else ret tt) w = (Raise e, w') ->
  exn_cls e = FileNotFoundError.
Proof.
  induction existing_filepaths as [|x xs IH]; intros w e w' Hrun.
  - discriminate.
  - cbn [for_each] in Hrun. unfold bindM in Hrun.
    destruct (startswith (basename x) time_prefix).
    + unfold os_remove, on_fs in Hrun. destruct (is_file (fs w) x).
      * eapply IH. exact Hrun.
      * injection Hrun as <- _. reflexivity.
    + unfold ret at 1 in Hrun. eapply IH. exact Hrun.
Qed.

(** They never bring a file back. *)
Lemma remove_for_prefix_decreasing time_prefix q :
  forall existing_filepaths w r w',
  for_each existing_filepaths (fun filepath =>
    if startswith (basename filepath) time_prefix
    then os_remove filepath
    else ret tt) w = (r, w') ->
  is_file (fs w) q = false -> is_file (fs w') q = false.
Proof.
  induction existing_filepaths as [|x xs IH]; intros w r w' Hrun Hq.
  - injection Hrun as _ <-. exact Hq.
  - cbn [for_each] in Hrun. unfold bindM in Hrun.
    destruct (startswith (basename x) time_prefix).
    + unfold os_remove, on_fs in Hrun. destruct (is_file (fs w) x).
      * eapply IH; [exact Hrun|]. cbn [fs]. rewrite is_file_after_remove.
        rewrite Hq. apply andb_false_r.
      * injection Hrun as _ <-. cbn [fs]. exact Hq.
    + unfold ret at 1 in Hrun. eapply IH; eassumption.
Qed.

(** A listed file whose name starts with the prefix is gone when the inner
    loop returns. *)
Lemma remove_for_prefix_removes time_prefix p :
  forall existing_filepaths w w',
  In p existing_filepaths -> matches time_prefix p = true ->
  for_each existing_filepaths (fun filepath =>
    if startswith (basename filepath) time_prefix
    then os_remove filepath
    else ret tt) w = (Ok tt, w') ->
  is_file (fs w') p = false.
Proof.
  induction existing_filepaths as [|x xs IH]; intros w w' Hin Hm Hrun.
  - contradiction.
  - cbn [for_each] in Hrun. unfold bindM in Hrun.
    destruct Hin as [-> | Hin].
    + unfold matches in Hm. rewrite Hm in Hrun.
      unfold os_remove, on_fs in Hrun.
      destruct (is_file (fs w) p); [|discriminate].
      eapply remove_for_prefix_decreasing; [exact Hrun|].
      cbn [fs]. rewrite is_file_after_remove, String.eqb_refl. reflexivity.
    + destruct (startswith (basename x) time_prefix).
      * unfold os_remove, on_fs in Hrun.
        destruct (is_file (fs w) x); [|discriminate].
        eapply IH; eassumption.
      * unfold ret at 1 in Hrun. eapply IH; eassumption.
Qed.

(** A listed path that is no file makes the inner loop raise. *)
Lemma remove_for_prefix_missing time_prefix p :
  forall existing_filepaths w,
  In p existing_filepaths -> matches time_prefix p = true ->
  is_file (fs w) p = false ->
  exists e w',
    for_each existing_filepaths (fun filepath =>
      if startswith (basename filepath) time_prefix
      then os_remove filepath
      else ret tt) w = (Raise e, w').
Proof.
  induction existing_filepaths as [|x xs IH]; intros w Hin Hm Hgone.
  - contradiction.
  - cbn [for_each]. unfold bindM.
    destruct Hin as [-> | Hin].
    + unfold matches in Hm. rewrite Hm. unfold os_remove, on_fs.
      rewrite Hgone. eauto.
    + destruct (startswith (basename x) time_prefix).
      * unfold os_remove, on_fs. destruct (is_file (fs w) x); [|eauto].
        apply IH; [exact Hin | exact Hm|]. cbn [fs].
        rewrite is_file_after_remove, Hgone. apply andb_false_r.
      * unfold ret at 1. apply IH; assumption.
Qed.

Lemma remove_archived_files_missing p existing_filepaths :
  forall time_prefixes w,
  In p existing_filepaths -> (1 <= n_matches time_prefixes p)%nat ->
  is_file (fs w) p = false ->
  exists e w',
    remove_archived_files time_prefixes existing_filepaths w = (Raise e, w')
    /\ exn_cls e = FileNotFoundError.
Proof.
  unfold remove_archived_files.
  induction time_prefixes as [|tp tps IH]; intros w Hin Hn Hgone.
  - cbn in Hn. lia.
  - cbn [for_each]. unfold bindM.
    destruct (matches tp p) eqn:Hm.
    + destruct (remove_for_prefix_missing tp p existing_filepaths w Hin Hm Hgone)
        as [e [w' Hrun]].
      rewrite Hrun. exists e, w'. split; [reflexivity|].
      eapply remove_for_prefix_raises. exact Hrun.
    + destruct (for_each existing_filepaths _ w) as [[[] | e] w1] eqn:Hrun.
      * apply IH; [exact Hin | |].
        -- unfold n_matches in *. cbn [filter] in Hn. rewrite Hm in Hn.
           exact Hn.
        -- eapply remove_for_prefix_decreasing; eassumption.
      * exists e, w1. split; [reflexivity|].
        eapply remove_for_prefix_raises. exact Hrun.
Qed.

(** X10. The files of the destination partition are listed once, before the
    loop over the time prefixes.  A listed file whose name starts with two of
    the time prefixes is deleted for the first and is looked for again for the
    second: [remove_archived_files] then ends with the [FileNotFoundError] of
    [os.remove], whatever the other files are. *)
Theorem file_of_two_prefixes_breaks_the_update time_prefixes
  existing_filepaths p w :
  (forall q, In q existing_filepaths -> is_file (fs w) q = true) ->
  In p existing_filepaths ->
  (2 <= n_matches time_prefixes p)%nat ->
  exists e w',
    remove_archived_files time_prefixes existing_filepaths w = (Raise e, w')
    /\ exn_cls e = FileNotFoundError.
Proof.
  intros _ Hin. revert w. unfold remove_archived_files.
  induction time_prefixes as [|tp tps IH]; intros w Hn.
  - cbn in Hn. lia.
  - cbn [for_each]. unfold bindM.
    destruct (for_each existing_filepaths _ w) as [[[] | e] w1] eqn:Hrun.
    + destruct (matches tp p) eqn:Hm.
      * apply (remove_archived_files_missing p existing_filepaths tps w1 Hin).
        -- unfold n_matches in *. cbn [filter] in Hn. rewrite Hm in Hn.
           cbn [List.length] in Hn. lia.
        -- eapply remove_for_prefix_removes; eassumption.
      * apply IH. unfold n_matches in *. cbn [filter] in Hn.
        rewrite Hm in Hn. exact Hn.
    + exists e, w1. split; [reflexivity|].
      eapply remove_for_prefix_raises. exact Hrun.
Qed.

(** The prefix of January is a prefix of the one of October. *)
Lemma file_of_two_prefixes_breaks_the_update_witness :
  exists e w',
    remove_archived_files ["2021_1"; "2021_10"]
      ["/dst/lon_bin=0/2021_1_0.parquet"; "/dst/lon_bin=0/2021_10_0.parquet"]
      (mkWorld (mkFS ["/dst"; "/dst/lon_bin=0"]
                  [("/dst/lon_bin=0/2021_1_0.parquet", "a");
                   ("/dst/lon_bin=0/2021_10_0.parquet", "b")]) [])
    = (Raise e, w')
    /\ exn_cls e = FileNotFoundError.
Proof.
  apply (file_of_two_prefixes_breaks_the_update ["2021_1"; "2021_10"]
           ["/dst/lon_bin=0/2021_1_0.parquet"; "/dst/lon_bin=0/2021_10_0.parquet"]
           "/dst/lon_bin=0/2021_10_0.parquet").
  - intros q [<- | [<- | []]]; reflexivity.
  - right. left. reflexivity.
  - vm_compute. lia.
Defined.

(* ------------------------------------------------------------------------- *)
(** ** The loop over the windows of [group_files_by_time] *)

Lemma dict_set_fresh {V} k (v : V) : forall d,
  ~ In k (dict_keys d) -> dict_set d k v = (d ++ [(k, v)])%list.
Proof.
  induction d as [|[k' v'] d IH]; intros Hk; [reflexivity|].
  cbn [dict_set app]. cbn in Hk.
  destruct (String.eqb_spec k' k) as [-> | Hne]; [tauto|].
  rewrite IH by tauto. reflexivity.
Qed.

Lemma groups_of_keys E filepaths ls le ws k :
  In k (dict_keys (groups_of E filepaths ls le ws)) ->
  In k (map period_prefix ws).
Proof.
  unfold dict_keys, groups_of. induction ws as [|p ws IH]; [tauto|].
  cbn [flat_map map]. rewrite map_app, in_app_iff. intros [Hk | Hk].
  - destruct (selected E filepaths ls le p); [contradiction|].
    destruct Hk as [<- | []]. left. reflexivity.
  - right. apply IH. exact Hk.
Qed.

Lemma groups_of_keys_nodup E filepaths ls le ws :
  NoDup (map period_prefix ws) ->
  NoDup (dict_keys (groups_of E filepaths ls le ws)).
Proof.
  induction ws as [|p ws IH]; intros Hnd; [constructor|].
  inversion Hnd as [|? ? Hp Hnd']; subst.
  unfold dict_keys, groups_of in *. cbn [flat_map]. rewrite map_app.
  destruct (selected E filepaths ls le p) as [|x xs]; cbn [map app];
    [apply IH; exact Hnd'|].
  constructor; [|apply IH; exact Hnd'].
  intros Hin. apply Hp. eapply groups_of_keys. exact Hin.
Qed.

Lemma collect_groups_spec E filepaths ls le :
  (forall a b, List.length (is_within_time_period E ls le a b)
               = List.length filepaths) ->
  forall ws acc,
  NoDup (dict_keys acc ++ map period_prefix ws) ->
  collect_groups E filepaths ls le ws acc
  = Ok (acc ++ groups_of E filepaths ls le ws)%list.
Proof.
  intros Hmask. induction ws as [|[[k a] b] ws IH]; intros acc Hnd.
  - cbn [collect_groups groups_of flat_map]. rewrite app_nil_r. reflexivity.
  - cbn [collect_groups]. unfold mask_select. rewrite Hmask, Nat.eqb_refl.
    cbn [bind]. unfold groups_of. cbn [flat_map]. unfold selected at 1.
    cbn [period_start period_end period_prefix fst snd].
    cbn [map] in Hnd.
    pose proof (NoDup_remove_1 _ _ _ Hnd) as Hrest.
    pose proof (NoDup_remove_2 _ _ _ Hnd) as Hk.
    destruct (map fst (filter snd (combine filepaths
                                     (is_within_time_period E ls le a b))))
      as [|x xs].
    + change (0 <? List.length (@nil string))%nat with false. cbv iota.
      rewrite IH by exact Hrest. reflexivity.
    + change (0 <? List.length (x :: xs))%nat with true. cbv iota.
      rewrite dict_set_fresh
        by (intros Hin; apply Hk; apply in_or_app; left; exact Hin).
      rewrite IH.
      * rewrite <- app_assoc. reflexivity.
      * unfold dict_keys in *. rewrite map_app. cbn [map fst].
        rewrite <- app_assoc. exact Hnd.
Qed.

(** X11. The loop of [group_files_by_time] over the windows that
    [get_list_group_periods] returned, run on the file paths, their times
    and masks of their length, returns one group for each window whose mask
    selects a file, in the order of the windows, with the bounds of the
    window and the selected files: no group is empty, the keys are pairwise
    distinct, and no group has been overwritten by the group of another
    window. *)
Theorem one_group_for_each_window_with_files E filepaths l_start_time
  l_end_time temporal_partitioning start_time end_time ws :
  supported temporal_partitioning ->
  valid_timestamp start_time -> valid_timestamp end_time ->
  ts_le start_time end_time ->
  get_list_group_periods start_time end_time temporal_partitioning = Ok ws ->
  (forall a b,
     List.length (is_within_time_period E l_start_time l_end_time a b)
     = List.length filepaths) ->
  collect_groups E filepaths l_start_time l_end_time ws []
  = Ok (groups_of E filepaths l_start_time l_end_time ws) /\
  NoDup (dict_keys (groups_of E filepaths l_start_time l_end_time ws)) /\
  Forall (fun g => snd (snd g) <> [])
    (groups_of E filepaths l_start_time l_end_time ws).
Proof.
  intros Htp Hs He Hle Hrun Hmask.
  apply windows_on_calendar in Hrun.
  destruct (group_periods_traced _ _ _ ws Htp Hs He Hle Hrun)
    as (bs & Hall & Hsort & Hwin).
  pose proof (windows_prefixes_nodup _ start_time bs ws Htp Hs Hall Hsort Hwin)
    as Hnd.
  split; [|split].
  - rewrite collect_groups_spec; [reflexivity | exact Hmask | exact Hnd].
  - apply groups_of_keys_nodup. exact Hnd.
  - unfold groups_of. clear. induction ws as [|p ws IH]; [constructor|].
    cbn [flat_map]. apply Forall_app. split; [|exact IH].
    destruct (selected E filepaths l_start_time l_end_time p) as [|x xs];
      constructor; [cbn [snd]; discriminate | constructor].
Qed.

Lemma one_group_for_each_window_with_files_witness :
  collect_groups package_collaborators
    ["/granules/lon_bin=0/lat_bin=0/jan_0.parquet";
     "/granules/lon_bin=0/lat_bin=0/oct_0.parquet"]
    [mkTimestamp 2021 1 5 (hms 1 39 42); mkTimestamp 2021 10 5 (hms 1 39 42)]
    [mkTimestamp 2021 1 5 (hms 3 12 14); mkTimestamp 2021 10 5 (hms 3 12 14)]
    [("2021_1", midnight 2021 1 1, midnight 2021 2 1);
     ("2021_2", midnight 2021 2 1, midnight 2021 3 1)] []
  = Ok [("2021_1",
         (midnight 2021 1 1, midnight 2021 2 1,
          ["/granules/lon_bin=0/lat_bin=0/jan_0.parquet"]))] /\
  NoDup ["2021_1"] /\
  Forall (fun g : string * Group => snd (snd g) <> [])
    [("2021_1",
      (midnight 2021 1 1, midnight 2021 2 1,
       ["/granules/lon_bin=0/lat_bin=0/jan_0.parquet"]))].
Proof.
  apply (one_group_for_each_window_with_files package_collaborators
           ["/granules/lon_bin=0/lat_bin=0/jan_0.parquet";
            "/granules/lon_bin=0/lat_bin=0/oct_0.parquet"]
           [mkTimestamp 2021 1 5 (hms 1 39 42);
            mkTimestamp 2021 10 5 (hms 1 39 42)]
           [mkTimestamp 2021 1 5 (hms 3 12 14);
            mkTimestamp 2021 10 5 (hms 3 12 14)]
           "month" (midnight 2021 1 1) (midnight 2021 3 1)).
  - right; left; reflexivity.
  - unfold valid_timestamp; vm_compute; intuition discriminate.
  - unfold valid_timestamp; vm_compute; intuition discriminate.
  - left. unfold ts_lt; simpl; lia.
  - vm_compute. reflexivity.
  - intros a b. cbn. reflexivity.
Defined.

(* ------------------------------------------------------------------------- *)
(** ** The boundaries from the unit of the start to the end *)

Lemma date_range_from_bounded f z : forall fuel cur,
  Forall (fun x => ts_le x z) (date_range_from fuel f cur z).
Proof.
  induction fuel as [|fuel IH]; intros cur; cbn [date_range_from];
    [constructor|].
  destruct (ts_leb cur z) eqn:Hle; [|constructor].
  constructor; [apply ts_leb_le, Hle | apply IH].
Qed.

Lemma regular_last f e : forall bs b d,
  regular f e (b :: bs) -> ts_lt e (offset_next f (last (b :: bs) d)).
Proof.
  induction bs as [|x bs IH]; intros b d (Hb & Hrest).
  - exact Hb.
  - change (last (b :: x :: bs) d) with (last (x :: bs) d).
    apply IH. exact Hrest.
Qed.

Lemma last_indep_cons {A} (x d : A) l : In (last (x :: l) d) (x :: l).
Proof.
  revert x. induction l as [|y l IH]; intros x; [left; reflexivity|].
  right. apply IH.
Qed.

(** [date_range] from a boundary to a later boundary starts at the first
    and ends at the second. *)
Lemma date_range_ends tp a z :
  supported tp ->
  boundary (freq_of tp) a -> boundary (freq_of tp) z -> ts_le a z ->
  exists rest,
    date_range a z (freq_of tp) = a :: rest /\ last (a :: rest) a = z.
Proof.
  intros Htp Ha Hz Hle.
  pose proof Ha as (Hca & Hna & Hoa). pose proof Hz as (Hcz & Hnz & Hoz).
  destruct (date_range_head a z (freq_of tp) Hoa Hle
              (in_calendar_rank_mono a z Hca Hcz Hle)) as (rest & Hrange).
  exists rest. split; [exact Hrange|].
  destruct (date_range_regular (freq_of tp) a z z Ha Hcz (ts_le_refl z))
    as (Hreg & Hall).
  rewrite Hrange in Hreg, Hall.
  pose proof (regular_last _ _ _ _ a Hreg) as Hnext.
  pose proof (last_indep_cons a a rest) as Hin.
  assert (Hbound : Forall (fun x => ts_le x z) (a :: rest)).
  { rewrite <- Hrange. unfold date_range. apply date_range_from_bounded. }
  rewrite Forall_forall in Hall, Hbound.
  set (l := last (a :: rest) a) in *.
  apply (boundary_unit_inj tp); [exact Htp | apply Hall, Hin | exact Hz|].
  symmetry. apply unit_of_boundary;
    [exact Htp | apply Hall, Hin | eapply boundary_valid, Hz
    | apply Hbound, Hin | exact Hnext].
Qed.

(** The two ends which [get_partitioning_boundaries] passes to
    [date_range]: the start of the unit of [start_time], and [end_time] if
    it is the start of a unit, the start of the following unit if not. *)
Lemma boundaries_endpoints tp s e :
  supported tp -> valid_timestamp s -> valid_timestamp e ->
  exists a z,
    calendar_boundaries s e tp = Ok (date_range a z (freq_of tp)) /\
    boundary (freq_of tp) a /\ boundary (freq_of tp) z /\
    ts_le a s /\ ts_lt s (offset_next (freq_of tp) a) /\
    ts_le e z /\
    (e = z \/
     exists p, boundary (freq_of tp) p /\ ts_lt p e /\
               z = offset_next (freq_of tp) p).
Proof.
  intros Htp Hs He.
  pose proof (valid_month s Hs) as Hms. pose proof (valid_day s Hs) as Hds.
  pose proof (valid_nanos s Hs) as Hns.
  pose proof (valid_month e He) as Hme. pose proof (valid_day e He) as Hde.
  pose proof (valid_nanos e He) as Hne.
  destruct Htp as [-> | [-> | [-> | ->]]]; unfold calendar_boundaries;
    simpl String.eqb; cbv iota zeta; unfold freq_of; simpl String.eqb;
    cbv iota.
  - (* year *)
    do 2 eexists. split; [reflexivity|].
    split; [split; [apply midnight_first_in_calendar; lia | split; reflexivity]|].
    split; [split; [apply midnight_first_in_calendar; lia | split; reflexivity]|].
    split; [clear - Hms Hds Hns; ts_arith|].
    split; [cbn [offset_next midnight year nanos]; clear - Hms Hds Hns; ts_arith|].
    destruct (ts_eqb e (midnight (year e) 1 1)) eqn:E; cbn [negb].
    + apply ts_eqb_eq in E. rewrite <- E.
      split; [apply ts_le_refl | left; reflexivity].
    + cbn [add_years year].
      split; [clear - Hme Hde Hne; ts_arith|]. right.
      exists (midnight (year e) 1 1).
      split; [split; [apply midnight_first_in_calendar; lia | split; reflexivity]|].
      split; [|reflexivity].
      assert (Hneq : e <> midnight (year e) 1 1).
      { intros Heq. apply ts_eqb_eq in Heq. congruence. }
      clear - Hme Hde Hne Hneq. destruct e as [y m d n].
      rewrite ts_eq_fields in Hneq. unfold ts_lt, midnight in *.
      cbn [year month day nanos] in *. lia.
  - (* month *)
    do 2 eexists. split; [reflexivity|].
    split; [split; [apply midnight_first_in_calendar; lia | split; reflexivity]|].
    assert (Hy : 1 <= month (if negb (ts_eqb e (midnight (year e) (month e) 1))
                             then add_months e 1 else e) <= 12).
    { destruct (negb _); [|exact Hme].
      apply (add_months_fields e 1 Hme). lia. }
    split; [split; [apply midnight_first_in_calendar; exact Hy
                   | split; reflexivity]|].
    split; [clear - Hms Hds Hns; ts_arith|].
    split.
    { cbn [offset_next midnight year month nanos].
      destruct (Z.ltb_spec (month s) 12); clear - Hms Hds Hns H; ts_arith. }
    destruct (ts_eqb e (midnight (year e) (month e) 1)) eqn:E; cbn [negb] in *.
    + apply ts_eqb_eq in E. rewrite <- E.
      split; [apply ts_le_refl | left; reflexivity].
    + assert (H1 : 0 <= 1 <= 12) by lia.
      pose proof (add_months_fields e 1 Hme H1) as (_ & Hsum).
      assert (Hneq : e <> midnight (year e) (month e) 1).
      { intros Heq. apply ts_eqb_eq in Heq. congruence. }
      set (e' := add_months e 1) in *. clearbody e'.
      split; [clear - Hme Hde Hne Hy Hsum; ts_arith|]. right.
      exists (midnight (year e) (month e) 1).
      split; [split; [apply midnight_first_in_calendar; lia | split; reflexivity]|].
      split.
      * clear - Hme Hde Hne Hneq. destruct e as [y m d n].
        rewrite ts_eq_fields in Hneq. unfold ts_lt, midnight in *.
        cbn [year month day nanos] in *. lia.
      * cbn [offset_next midnight year month nanos].
        destruct (Z.ltb_spec (month e) 12); apply ts_eq_fields;
          unfold midnight; cbn [year month day nanos]; lia.
  - (* quarter *)
    pose proof (quarter_start_month (month s) Hms) as ((ks & Hks & Hks') & Hqs & Hqs').
    pose proof (quarter_start_month (month e) Hme) as ((ke & Hke & Hke') & Hqe & Hqe').
    set (qs := 3 * (((month s - 1) / 3 + 1) - 1) + 1) in *.
    set (qe := 3 * (((month e - 1) / 3 + 1) - 1) + 1) in *.
    assert (Hbq : forall y q k, q = 3 * k + 1 -> 0 <= k <= 3 ->
                                boundary QS (midnight y q 1)).
    { intros y q k -> Hk.
      split; [apply midnight_first_in_calendar; lia|].
      split; [reflexivity|]. cbn [on_offset midnight month day].
      replace ((3 * k + 1 - 1) mod 3) with 0
        by (Z.div_mod_to_equations; lia).
      reflexivity. }
    assert (Hnext : forall y q k, q = 3 * k + 1 -> 0 <= k <= 3 ->
              offset_next QS (midnight y q 1)
              = if q <? 10 then midnight y (q + 3) 1 else midnight (y + 1) 1 1).
    { intros y q k -> Hk. cbn [offset_next midnight year month nanos].
      cbv zeta.
      replace (3 * ((3 * k + 1 - 1) / 3) + 1) with (3 * k + 1)
        by (Z.div_mod_to_equations; lia).
      reflexivity. }
    destruct (ts_eqb e (midnight (year e) qe 1)) eqn:E; cbn [negb]; cbv iota.
    + do 2 eexists. split; [reflexivity|].
      split; [apply (Hbq _ _ ks); assumption|].
      split; [apply (Hbq _ _ ke); assumption|].
      split; [clear - Hms Hds Hns Hqs; clearbody qs; ts_arith|].
      split.
      { rewrite (Hnext _ _ ks) by assumption.
        destruct (Z.ltb_spec qs 10); clear - Hms Hds Hns Hqs H; clearbody qs;
          ts_arith. }
      apply ts_eqb_eq in E. rewrite <- E.
      split; [apply ts_le_refl | left; reflexivity].
    + assert (H3 : 0 <= 3 <= 12) by lia.
      pose proof (add_months_fields e 3 Hme H3) as (Hm3 & Hsum).
      pose proof (quarter_start_month (month (add_months e 3)) Hm3)
        as ((k3 & Hk3 & Hk3') & Hq3 & Hq3').
      assert (Hneq : e <> midnight (year e) qe 1).
      { intros Heq. apply ts_eqb_eq in Heq. congruence. }
      set (e' := add_months e 3) in *.
      set (q3 := 3 * (((month e' - 1) / 3 + 1) - 1) + 1) in *.
      do 2 eexists. split; [reflexivity|].
      split; [apply (Hbq _ _ ks); assumption|].
      split; [apply (Hbq _ _ k3); assumption|].
      split; [clear - Hms Hds Hns Hqs; clearbody qs; ts_arith|].
      split.
      { rewrite (Hnext _ _ ks) by assumption.
        destruct (Z.ltb_spec qs 10); clear - Hms Hds Hns Hqs H; clearbody qs;
          ts_arith. }
      clearbody e'.
      split; [clearbody q3; clear - Hme Hde Hne Hm3 Hsum Hk3 Hq3; ts_arith|].
      right. exists (midnight (year e) qe 1).
      split; [apply (Hbq _ _ ke); assumption|].
      split.
      * clearbody qe. clear - Hme Hde Hne Hneq Hqe. destruct e as [y m d n].
        rewrite ts_eq_fields in Hneq. unfold ts_lt, midnight in *.
        cbn [year month day nanos] in *. lia.
      * rewrite (Hnext _ _ ke) by assumption.
        clearbody qe q3.
        destruct (Z.ltb_spec qe 10); apply ts_eq_fields;
          unfold midnight; cbn [year month day nanos]; lia.
  - (* day *)
    do 2 eexists. split; [reflexivity|].
    assert (Hcs : in_calendar s)
      by (destruct Hs as (H1 & H2 & _); split; assumption).
    assert (Hce : in_calendar e)
      by (destruct He as (H1 & H2 & _); split; assumption).
    split; [split; [exact Hcs | split; reflexivity]|].
    assert (Hnorm : boundary D (normalize e))
      by (split; [exact Hce | split; reflexivity]).
    split.
    { destruct (ts_eqb e (normalize e)) eqn:E; cbn [negb].
      - apply ts_eqb_eq in E. rewrite E. exact Hnorm.
      - apply (offset_next_boundary D). exact Hnorm. }
    split; [clear - Hns; ts_arith|].
    split; [apply (next_midnight_gt s)|].
    destruct (ts_eqb e (normalize e)) eqn:E; cbn [negb].
    + split; [apply ts_le_refl | left; reflexivity].
    + split; [left; apply next_midnight_gt|]. right.
      exists (normalize e). split; [exact Hnorm|]. split; [|reflexivity].
      assert (Hneq : e <> normalize e).
      { intros Heq. apply ts_eqb_eq in Heq. congruence. }
      clear - Hne Hneq. destruct e as [y m d n].
      rewrite ts_eq_fields in Hneq. unfold ts_lt, normalize, midnight in *.
      cbn [year month day nanos] in *. lia.
Qed.

(** X12. For a supported granularity and valid [start_time <= end_time],
    whenever [get_partitioning_boundaries] returns, it returns the starts of
    the calendar units from the unit of [start_time] on: the first one is
    the start of the unit that holds [start_time], each one is followed by
    the start of the next unit, and the last one is [end_time] itself when
    [end_time] is the start of a unit, and the start of the unit after the
    one of [end_time] otherwise; and it does return when [start_time] is not
    before 1678 and [end_time] not after 2260. *)
Theorem boundaries_run_from_the_unit_of_start_to_the_end tp start_time end_time :
  supported tp ->
  valid_timestamp start_time -> valid_timestamp end_time ->
  ts_le start_time end_time ->
  (years_in_range start_time end_time ->
   exists bs, get_partitioning_boundaries start_time end_time tp = Ok bs) /\
  (forall bs,
     get_partitioning_boundaries start_time end_time tp = Ok bs ->
     exists first rest,
       bs = first :: rest /\
       Forall (boundary (freq_of tp)) (first :: rest) /\
       ts_le first start_time /\
       ts_lt start_time (offset_next (freq_of tp) first) /\
       regular (freq_of tp) end_time (first :: rest) /\
       ts_le end_time (last (first :: rest) first) /\
       (end_time = last (first :: rest) first \/
        exists p, boundary (freq_of tp) p /\ ts_lt p end_time /\
                  last (first :: rest) first = offset_next (freq_of tp) p)).
Proof.
  intros Htp Hs He Hle.
  destruct (boundaries_endpoints tp _ _ Htp Hs He)
    as (a & z & Hrun & Ha & Hz & Has & Hsa & Hez & Hlast).
  assert (Haz : ts_le a z).
  { eapply ts_le_trans; [exact Has|]. eapply ts_le_trans; eassumption. }
  destruct (date_range_ends tp a z Htp Ha Hz Haz) as (rest & Hrange & Hend).
  destruct (date_range_regular (freq_of tp) a z end_time Ha (proj1 Hz) Hez)
    as (Hreg & Hall).
  rewrite Hrange in Hrun, Hreg, Hall.
  split.
  - intros Hy. exists (a :: rest).
    rewrite boundaries_in_range by assumption. exact Hrun.
  - intros bs Hbs. apply boundaries_on_calendar in Hbs.
    rewrite Hrun in Hbs. injection Hbs as <-.
    exists a, rest. rewrite Hend.
    split; [reflexivity|]. repeat (split; [assumption|]). exact Hlast.
Qed.

Lemma boundaries_run_from_the_unit_of_start_to_the_end_witness :
  (exists bs,
     get_partitioning_boundaries (mkTimestamp 2021 1 15 (hms 6 0 0))
       (mkTimestamp 2021 3 10 0) "month" = Ok bs) /\
  (exists first rest,
     [midnight 2021 1 1; midnight 2021 2 1; midnight 2021 3 1;
      midnight 2021 4 1] = first :: rest /\
     Forall (boundary (freq_of "month")) (first :: rest) /\
     ts_le first (mkTimestamp 2021 1 15 (hms 6 0 0)) /\
     ts_lt (mkTimestamp 2021 1 15 (hms 6 0 0))
       (offset_next (freq_of "month") first) /\
     regular (freq_of "month") (mkTimestamp 2021 3 10 0) (first :: rest) /\
     ts_le (mkTimestamp 2021 3 10 0) (last (first :: rest) first) /\
     (mkTimestamp 2021 3 10 0 = last (first :: rest) first \/
      exists p, boundary (freq_of "month") p /\
                ts_lt p (mkTimestamp 2021 3 10 0) /\
                last (first :: rest) first = offset_next (freq_of "month") p)).
Proof.
  assert (Hs : valid_timestamp (mkTimestamp 2021 1 15 (hms 6 0 0)))
    by (unfold valid_timestamp; vm_compute; intuition discriminate).
  assert (He : valid_timestamp (mkTimestamp 2021 3 10 0))
    by (unfold valid_timestamp; vm_compute; intuition discriminate).
  assert (Hle : ts_le (mkTimestamp 2021 1 15 (hms 6 0 0))
                  (mkTimestamp 2021 3 10 0))
    by (left; unfold ts_lt; simpl; lia).
  destruct (boundaries_run_from_the_unit_of_start_to_the_end "month"
              (mkTimestamp 2021 1 15 (hms 6 0 0)) (mkTimestamp 2021 3 10 0)
              (or_intror (or_introl eq_refl)) Hs He Hle) as (Hreturns & Hright).
  split.
  - apply Hreturns. unfold years_in_range. cbn. lia.
  - apply Hright. vm_compute. reflexivity.
Defined.

(* ------------------------------------------------------------------------- *)
(** ** The labels of the partitions *)

Lemma split_on_nonempty c s : split_on c s <> [].
Proof.
  destruct s as [|a s]; cbn [split_on]; [discriminate|].
  destruct (Ascii.eqb a c); [discriminate|].
  destruct (split_on c s); discriminate.
Qed.

Lemma split_on_app_sep c b : forall a,
  split_on c (a ++ String c b) = (split_on c a ++ split_on c b)%list.
Proof.
  induction a as [|x a IH]; cbn [String.append split_on].
  - rewrite Ascii.eqb_refl. reflexivity.
  - destruct (Ascii.eqb x c); [rewrite IH; reflexivity|].
    rewrite IH. pose proof (split_on_nonempty c a) as Hne.
    destruct (split_on c a) as [|w ws]; [contradiction | reflexivity].
Qed.

Lemma split_on_clean c : forall p,
  has_char c p = false -> split_on c p = [p].
Proof.
  induction p as [|a p IH]; cbn [has_char split_on]; [reflexivity|].
  intros H. apply orb_false_iff in H as (Ha & Hp).
  rewrite Ha, (IH Hp). reflexivity.
Qed.

Lemma split_on_join c : forall parts,
  parts <> [] -> Forall (fun p => has_char c p = false) parts ->
  split_on c (join_with c parts) = parts.
Proof.
  induction parts as [|p parts IH]; intros Hne Hall; [contradiction|].
  inversion Hall as [|? ? Hp Hrest]; subst.
  destruct parts as [|q parts].
  - cbn [join_with]. apply split_on_clean. exact Hp.
  - change (join_with c (p :: q :: parts))
      with (p ++ String c (join_with c (q :: parts)))%string.
    rewrite split_on_app_sep, (split_on_clean c p Hp), IH;
      [reflexivity | discriminate | exact Hrest].
Qed.

Lemma last_n_app {A} (n : nat) (xs t : list A) :
  (0 < n)%nat -> List.length t = n -> last_n n (xs ++ t) = t.
Proof.
  intros Hn Hlen. unfold last_n. destruct n as [|n]; [lia|].
  rewrite length_app, Hlen.
  replace (List.length xs + S n - S n)%nat with (List.length xs + 0)%nat by lia.
  rewrite skipn_app, Nat.add_0_r, skipn_all.
  replace (List.length xs - List.length xs)%nat with 0%nat by lia.
  reflexivity.
Qed.

Lemma rstrip_clean c : forall p,
  p <> ""%string -> has_char c p = false -> rstrip c p = p.
Proof.
  induction p as [|a p IH]; intros Hne Hp; [contradiction|].
  cbn [has_char] in Hp. apply orb_false_iff in Hp as (Ha & Hp).
  cbn [rstrip]. destruct p as [|b p].
  - cbn [rstrip]. rewrite Ha. reflexivity.
  - rewrite IH by (discriminate || exact Hp). reflexivity.
Qed.

Lemma rstrip_app c t : forall s,
  t <> ""%string -> rstrip c t = t -> rstrip c (s ++ t) = (s ++ t)%string.
Proof.
  intros s Hne Ht. induction s as [|a s IH]; [exact Ht|].
  cbn [String.append rstrip]. rewrite IH.
  destruct (s ++ t)%string eqn:E; [|reflexivity].
  destruct s; cbn in E; [contradiction | discriminate].
Qed.

Lemma join_with_not_empty c : forall parts,
  parts <> [] -> Forall (fun p => p <> ""%string) parts ->
  join_with c parts <> ""%string.
Proof.
  intros [|p [|q parts]] Hne Hall; [contradiction | |];
    inversion Hall as [|? ? Hp _]; subst.
  - exact Hp.
  - change (join_with c (p :: q :: parts))
      with (p ++ String c (join_with c (q :: parts)))%string.
    destruct p; [contradiction | discriminate].
Qed.

Lemma rstrip_join c : forall parts,
  parts <> [] ->
  Forall (fun p => p <> ""%string /\ has_char c p = false) parts ->
  rstrip c (join_with c parts) = join_with c parts.
Proof.
  induction parts as [|p parts IH]; intros Hne Hall; [contradiction|].
  inversion Hall as [|? ? (Hp & Hc) Hrest]; subst.
  destruct parts as [|q parts].
  - cbn [join_with]. apply rstrip_clean; assumption.
  - change (join_with c (p :: q :: parts))
      with (p ++ String c (join_with c (q :: parts)))%string.
    apply rstrip_app with (t := String c (join_with c (q :: parts)));
      [discriminate|].
    assert (Hq : rstrip c (join_with c (q :: parts)) = join_with c (q :: parts))
      by (apply IH; [discriminate | exact Hrest]).
    cbn [rstrip]. rewrite Hq.
    pose proof (join_with_not_empty c (q :: parts)) as Hj.
    destruct (join_with c (q :: parts)); [|reflexivity].
    exfalso. apply Hj; [discriminate | | reflexivity].
    eapply Forall_impl; [|exact Hrest]. intros a Ha. apply Ha.
Qed.

Lemma join_with_head c : forall parts,
  parts <> [] ->
  Forall (fun p => p <> ""%string /\ has_char c p = false) parts ->
  exists a rest, join_with c parts = String a rest /\ Ascii.eqb a c = false.
Proof.
  intros [|p parts] Hne Hall; [contradiction|].
  inversion Hall as [|? ? (Hp & Hc) _]; subst.
  destruct p as [|a p]; [contradiction|].
  cbn [has_char] in Hc. apply orb_false_iff in Hc as (Ha & _).
  destruct parts as [|q parts].
  - exists a, p. split; [reflexivity | exact Ha].
  - exists a, (p ++ String c (join_with c (q :: parts)))%string.
    split; [reflexivity | exact Ha].
Qed.

(** The path of a partition, without the separators at its ends, ends with
    the components of the directory tree. *)
Lemma strip_partition_path c tree :
  rstrip c tree = tree -> tree <> ""%string ->
  (exists a rest, tree = String a rest /\ Ascii.eqb a c = false) ->
  forall root,
  exists xs,
    split_on c (strip c (root ++ String c tree))
    = (xs ++ split_on c tree)%list.
Proof.
  intros Hr Hne (a & rest & Htree & Ha). unfold strip.
  induction root as [|x root IH].
  - exists []. cbn [String.append lstrip]. rewrite Ascii.eqb_refl.
    rewrite Htree at 1. cbn [lstrip]. rewrite Ha, <- Htree, Hr. reflexivity.
  - cbn [String.append lstrip]. destruct (Ascii.eqb x c); [exact IH|].
    exists (split_on c (String x root)).
    change (String x (root ++ String c tree))
      with (String x root ++ String c tree)%string.
    rewrite rstrip_app with (t := String c tree);
      [apply split_on_app_sep | discriminate|].
    cbn [rstrip]. rewrite Hr. destruct tree; [contradiction | reflexivity].
Qed.

Lemma partition_label c n root parts :
  (0 < n)%nat -> List.length parts = n ->
  Forall (fun p => p <> ""%string /\ has_char c p = false) parts ->
  join_with c (last_n n (split_on c (strip c (root ++ String c (join_with c parts)))))
  = join_with c parts.
Proof.
  intros Hn Hlen Hall.
  assert (Hne : parts <> []) by (destruct parts; [cbn in Hlen; lia | discriminate]).
  assert (Hclean : Forall (fun p => has_char c p = false) parts)
    by (eapply Forall_impl; [|exact Hall]; intros a Ha; apply Ha).
  assert (Hfull : Forall (fun p => p <> ""%string) parts)
    by (eapply Forall_impl; [|exact Hall]; intros a Ha; apply Ha).
  destruct (strip_partition_path c (join_with c parts)
              (rstrip_join c parts Hne Hall)
              (join_with_not_empty c parts Hne Hfull)
              (join_with_head c parts Hne Hall) root) as (xs & ->).
  rewrite split_on_join by assumption.
  rewrite last_n_app by assumption. reflexivity.
Qed.

Lemma fold_dict_set_fresh {V} (key : string -> string) (value : string -> V) :
  forall paths acc,
  NoDup (dict_keys acc ++ map key paths) ->
  fold_left (fun d path => dict_set d (key path) (value path)) paths acc
  = (acc ++ map (fun path => (key path, value path)) paths)%list.
Proof.
  induction paths as [|p paths IH]; intros acc Hnd.
  - cbn. rewrite app_nil_r. reflexivity.
  - cbn [fold_left map] in *.
    pose proof (NoDup_remove_2 _ _ _ Hnd) as Hk.
    rewrite dict_set_fresh
      by (intros Hin; apply Hk; apply in_or_app; left; exact Hin).
    rewrite IH.
    + rewrite <- app_assoc. reflexivity.
    + unfold dict_keys in *. rewrite map_app. cbn [map fst].
      rewrite <- app_assoc. exact Hnd.
Qed.

(** X13. When the partition directories found in the source bucket are the
    directory trees of the partitioning under one root, each tree with as
    many components as the partitioning has levels, [define_dict_partitions]
    labels each partition with its directory tree and gives it its own
    directory as the only source, in the order of the listing: the
    destination bucket gets the directory trees of the source. *)
Theorem partitions_are_labelled_with_their_directory_tree E src_bucket_dir
  (src_spatial_partitioning : SpatialPartitioning (DataFrame E)) root trees w :
  (0 < n_levels src_spatial_partitioning)%nat ->
  get_exisiting_partitions_paths E src_bucket_dir
    (directories src_spatial_partitioning) (fs w)
  = Ok (map (fun tree => (root ++ String sep tree)%string) trees) ->
  NoDup trees ->
  Forall (fun tree =>
            exists parts,
              tree = join_with sep parts /\
              List.length parts = n_levels src_spatial_partitioning /\
              Forall (fun p => p <> ""%string /\ has_char sep p = false) parts)
    trees ->
  define_dict_partitions E src_bucket_dir src_spatial_partitioning None w
  = (Ok (map (fun tree => (tree, [(root ++ String sep tree)%string])) trees), w).
Proof.
  intros Hn Hlist Hnd Htrees.
  unfold define_dict_partitions, bindM, reading. rewrite Hlist. unfold ret.
  f_equal. f_equal.
  assert (Hlabel : forall tree, In tree trees ->
            join_with sep
              (last_n (n_levels src_spatial_partitioning)
                 (split_on sep (strip sep (root ++ String sep tree))))
            = tree).
  { intros tree Hin. rewrite Forall_forall in Htrees.
    destruct (Htrees tree Hin) as (parts & -> & Hlen & Hparts).
    apply partition_label; assumption. }
  rewrite (fold_dict_set_fresh
             (fun path => join_with sep
                            (last_n (n_levels src_spatial_partitioning)
                               (split_on sep (strip sep path))))
             (fun path => [path])).
  - cbn [app]. rewrite map_map. apply map_ext_in.
    intros tree Hin. rewrite (Hlabel tree Hin). reflexivity.
  - cbn [dict_keys map app]. rewrite map_map.
    rewrite (map_ext_in _ (fun tree => tree)) by exact Hlabel.
    rewrite map_id. exact Hnd.
Qed.

Lemma partitions_are_labelled_with_their_directory_tree_witness :
  define_dict_partitions package_collaborators "/granules" sample_partitioning
    None bucket_world
  = (Ok (map (fun tree => (tree, [("/granules" ++ String sep tree)%string]))
           ["lon_bin=0/lat_bin=0"; "lon_bin=1/lat_bin=0"]),
     bucket_world).
Proof.
  apply (partitions_are_labelled_with_their_directory_tree
           package_collaborators "/granules" sample_partitioning "/granules"
           ["lon_bin=0/lat_bin=0"; "lon_bin=1/lat_bin=0"] bucket_world).
  - cbn. lia.
  - vm_compute. reflexivity.
  - repeat constructor; cbn; intuition discriminate.
  - repeat constructor.
    + exists ["lon_bin=0"; "lat_bin=0"].
      split; [reflexivity|]. split; [reflexivity|].
      repeat constructor; discriminate.
    + exists ["lon_bin=1"; "lat_bin=0"].
      split; [reflexivity|]. split; [reflexivity|].
      repeat constructor; discriminate.
Defined.

(* ------------------------------------------------------------------------- *)
(** ** A keyword of the writer given twice *)

Lemma explicit_keywords_free_raises callee writer_kwargs k :
  In k (dict_keys writer_kwargs) -> In k explicit_keywords ->
  exists msg,
    explicit_keywords_free callee writer_kwargs = Raise (mkExn TypeError msg).
Proof.
  intros Hk Hexplicit. unfold explicit_keywords_free.
  destruct (find (fun k => existsb (String.eqb k) explicit_keywords)
              (dict_keys writer_kwargs)) as [k'|] eqn:Hfind.
  - eexists. reflexivity.
  - exfalso. pose proof (find_none _ _ Hfind k Hk) as Hnone.
    cbv beta in Hnone.
    assert (Hsome : existsb (String.eqb k) explicit_keywords = true).
    { apply existsb_exists. exists k. split; [exact Hexplicit|].
      apply String.eqb_refl. }
    congruence.
Qed.

Lemma dict_set_keys_keep {V} k (v : V) k' : forall d,
  In k' (dict_keys d) -> In k' (dict_keys (dict_set d k v)).
Proof.
  unfold dict_keys.
  induction d as [|[k0 v0] d IH]; cbn [dict_set map fst In]; [tauto|].
  destruct (String.eqb_spec k0 k) as [-> | Hne]; cbn [map fst In].
  - tauto.
  - intros [H | H]; [left; exact H | right; apply IH; exact H].
Qed.

Lemma split_list_in_blocks_first {A} (first : A) rest block_size :
  0 < block_size ->
  exists v block blocks,
    split_list_in_blocks (first :: rest) block_size
    = Ok ((v :: block) :: blocks).
Proof.
  intros Hbs.
  destruct (split_list_in_blocks_concat (first :: rest) block_size Hbs)
    as (blocks & Hsplit & Hconcat).
  pose proof Hsplit as Hshape.
  unfold split_list_in_blocks, py_range in Hshape.
  destruct (Z.eqb_spec block_size 0); [lia|].
  destruct (Z.ltb_spec block_size 0); [lia|].
  cbn [bind] in Hshape.
  pose proof (range_from_blocks (first :: rest) block_size Hbs
                (Z.to_nat (Z.of_nat (List.length (first :: rest)))) 0
                (Z.le_refl 0)) as (Hnonempty & _).
  cbv zeta in Hnonempty.
  assert (Hblocks :
    map (fun i => list_slice (first :: rest) i (i + block_size))
      (range_from (Z.to_nat (Z.of_nat (List.length (first :: rest)))) 0
         (Z.of_nat (List.length (first :: rest))) block_size) = blocks)
    by (injection Hshape as Hshape; exact Hshape).
  rewrite Hblocks in Hnonempty.
  destruct blocks as [|[|v block] blocks].
  - discriminate Hconcat.
  - inversion Hnonempty as [|? ? (Hne & _) _]. contradiction.
  - exists v, block, blocks. exact Hsplit.
Qed.

(** X18. The loop over the granules passes [src_filepath] by name next to
    [**writer_kwargs], outside the guard of [_try_write_granule_bucket]:
    when the keywords of the writer hold [src_filepath] and there is a
    granule to ingest, [write_granules_bucket] raises [TypeError] at the
    first call, after it has written the information of the bucket and
    announced the first block; no granule is ingested and no failure record
    is printed. *)
Theorem keyword_given_twice_ends_the_run E first rest bucket_dir sp
  (extractor : Extractor E) parallel max_concurrent_tasks block_size
  use_threads row_group_size writer_kwargs w :
  0 < block_size ->
  In "src_filepath"%string (dict_keys writer_kwargs) ->
  fst (write_bucket_info E bucket_dir sp None (fs w)) = Ok tt ->
  exists msg n_blocks,
    write_granules_bucket E (first :: rest) bucket_dir sp extractor parallel
      max_concurrent_tasks block_size use_threads row_group_size
      writer_kwargs w
    = (Raise (mkExn TypeError msg),
       mkWorld (snd (write_bucket_info E bucket_dir sp None (fs w)))
         (stdout w ++ [ExecutingBlock 1 n_blocks])).
Proof.
  intros Hbs Hkey Hinfo.
  destruct (split_list_in_blocks_first first rest block_size Hbs)
    as (v & block & blocks & Hsplit).
  destruct (explicit_keywords_free_raises (callee_name E parallel)
              (dict_set (dict_set writer_kwargs "row_group_size" row_group_size)
                 "use_threads" (VBool use_threads)) "src_filepath")
    as (msg & Hraise).
  { apply dict_set_keys_keep, dict_set_keys_keep. exact Hkey. }
  { left. reflexivity. }
  exists msg, (Z.of_nat (List.length ((v :: block) :: blocks))).
  unfold write_granules_bucket. unfold bindM at 1. unfold on_fs.
  destruct (write_bucket_info E bucket_dir sp None (fs w)) as [r f1] eqn:Hw.
  cbn [fst snd] in *. subst r.
  unfold bindM at 1. unfold lift at 1. rewrite Hsplit.
  cbn [enumerate_from for_each]. unfold bindM at 1.
  unfold write_granules_block. unfold bindM at 1. unfold print at 1.
  cbn [fs stdout]. unfold bindM at 1. unfold lift at 1.
  rewrite Hraise. reflexivity.
Qed.

Lemma keyword_given_twice_ends_the_run_witness :
  exists msg n_blocks,
    write_granules_bucket package_collaborators five_granules "/granules"
      sample_partitioning third_fails false None 500 false (VStr "500MB")
      [("src_filepath", VStr "/data/g1.HDF5")] empty_world
    = (Raise (mkExn TypeError msg),
       mkWorld
         (snd (write_bucket_info package_collaborators "/granules"
                 sample_partitioning None (fs empty_world)))
         (stdout empty_world ++ [ExecutingBlock 1 n_blocks])).
Proof.
  apply (keyword_given_twice_ends_the_run package_collaborators
           "/data/g1.HDF5"
           ["/data/g2.HDF5"; "/data/g3.HDF5"; "/data/g4.HDF5"; "/data/g5.HDF5"]
           "/granules" sample_partitioning third_fails false None 500 false
           (VStr "500MB") [("src_filepath", VStr "/data/g1.HDF5")] empty_world).
  - lia.
  - left. reflexivity.
  - reflexivity.
Defined.

(* ------------------------------------------------------------------------- *)
(** ** info.py: the dictionary of [parse_filename_pattern] *)

Lemma dict_get_set_same {V} k (v : V) : forall d,
  dict_get (dict_set d k v) k = Some v.
Proof.
  induction d as [|[k' v'] d IH]; cbn [dict_set dict_get].
  - rewrite String.eqb_refl. reflexivity.
  - destruct (String.eqb_spec k' k) as [-> | Hne]; cbn [dict_get].
    + rewrite String.eqb_refl. reflexivity.
    + destruct (String.eqb_spec k' k); [contradiction | exact IH].
Qed.

Lemma dict_get_set_other {V} k k' (v : V) : k <> k' -> forall d,
  dict_get (dict_set d k v) k' = dict_get d k'.
Proof.
  intros Hne. induction d as [|[k0 v0] d IH]; cbn [dict_set dict_get].
  - destruct (String.eqb_spec k k'); [contradiction | reflexivity].
  - destruct (String.eqb_spec k0 k) as [-> | Hk]; cbn [dict_get].
    + destruct (String.eqb_spec k k'); [contradiction | reflexivity].
    + rewrite IH. reflexivity.
Qed.

Lemma dict_get_pop_other {V} k k' : k <> k' -> forall d : Dict V,
  dict_get (dict_pop d k) k' = dict_get d k'.
Proof.
  intros Hne. induction d as [|[k0 v0] d IH]; cbn [dict_pop dict_get].
  - reflexivity.
  - destruct (String.eqb_spec k0 k) as [-> | Hk]; cbn [dict_get].
    + destruct (String.eqb_spec k k'); [contradiction | reflexivity].
    + rewrite IH. reflexivity.
Qed.

Lemma dict_get_absent {V} k : forall d : Dict V,
  ~ In k (dict_keys d) -> dict_get d k = None.
Proof.
  induction d as [|[k0 v0] d IH]; intros Hk; [reflexivity|].
  cbn [dict_get]. cbn in Hk.
  destruct (String.eqb_spec k0 k); [tauto | apply IH; tauto].
Qed.

Lemma dict_keys_set {V} k (v : V) : forall d,
  dict_keys (dict_set d k v)
  = if existsb (String.eqb k) (dict_keys d) then dict_keys d
    else (dict_keys d ++ [k])%list.
Proof.
  unfold dict_keys.
  induction d as [|[k0 v0] d IH]; cbn [dict_set map existsb fst]; [reflexivity|].
  rewrite (String.eqb_sym k k0).
  destruct (String.eqb_spec k0 k) as [-> | Hk]; cbn [map fst orb];
    [reflexivity|].
  rewrite IH. destruct (existsb (String.eqb k) (map fst d)); reflexivity.
Qed.

Lemma dict_set_nodup {V} k (v : V) d :
  NoDup (dict_keys d) -> NoDup (dict_keys (dict_set d k v)).
Proof.
  intros Hnd. rewrite dict_keys_set.
  destruct (existsb (String.eqb k) (dict_keys d)) eqn:Hk; [exact Hnd|].
  apply NoDup_app; [exact Hnd | repeat constructor; tauto |].
  intros x Hx [<- | []].
  apply existsb_eqb_In in Hx. congruence.
Qed.

Lemma dict_pop_keys {V} k k' : forall d : Dict V,
  In k' (dict_keys (dict_pop d k)) -> In k' (dict_keys d).
Proof.
  unfold dict_keys.
  induction d as [|[k0 v0] d IH]; cbn [dict_pop map fst]; [tauto|].
  destruct (String.eqb_spec k0 k); cbn [map fst In]; [tauto|].
  intros [H | H]; [left; exact H | right; apply IH; exact H].
Qed.

Lemma dict_pop_nodup {V} k : forall d : Dict V,
  NoDup (dict_keys d) ->
  NoDup (dict_keys (dict_pop d k)) /\ ~ In k (dict_keys (dict_pop d k)).
Proof.
  induction d as [|[k0 v0] d IH]; intros Hnd.
  - split; [constructor | intros []].
  - cbn in Hnd. inversion Hnd as [|? ? Hk0 Hnd']; subst.
    cbn [dict_pop]. destruct (String.eqb_spec k0 k) as [-> | Hk].
    + split; assumption.
    + destruct (IH Hnd') as [H1 H2]. split.
      * cbn. constructor; [|exact H1].
        intros Hin. apply Hk0. eapply dict_pop_keys. exact Hin.
      * cbn. intros [H | H]; [contradiction | exact (H2 H)].
Qed.

(** What [parse_filename_pattern] does to the dictionary of the parser,
    whichever way the two instants were obtained. *)
Lemma parse_filename_pattern_inv P filename filename_pattern info d :
  trollsift_parse P filename_pattern filename = Ok info ->
  parse_filename_pattern P filename filename_pattern = Ok d ->
  exists start_datetime end_datetime,
    d = dict_pop
          (dict_pop
             (dict_set (dict_set info "start_time" (IDatetime start_datetime))
                "end_time" (IDatetime end_datetime))
             "start_date")
          "end_date" /\
    match dict_get info "end_time" with
    | Some (IDatetime t) => end_datetime = t
    | Some (ITime t) =>
        match match dict_get info "end_date" with
              | Some end_date => combine_date_time end_date t
              | None => None
              end with
        | Some c => end_datetime = c
        | None =>
            end_datetime
            = if ts_ltb (replace_hms start_datetime t) start_datetime
              then add_one_day (replace_hms start_datetime t)
              else replace_hms start_datetime t
        end
    | _ => False
    end.
Proof.
  intros Hparse Hrun. unfold parse_filename_pattern in Hrun.
  rewrite Hparse in Hrun. cbn [bind] in Hrun.
  match type of Hrun with
  | bind ?start _ = _ => destruct start as [s | ex] eqn:Hstart
  end; [|discriminate].
  cbn [bind] in Hrun.
  match type of Hrun with
  | bind ?en _ = _ => destruct en as [e | ex] eqn:Hend
  end; [|discriminate].
  cbn [bind] in Hrun. injection Hrun as <-.
  exists s, e. split; [reflexivity|].
  destruct (dict_get info "end_time") as [[t | t | y m dd | str] |];
    try discriminate.
  - injection Hend as <-. reflexivity.
  - destruct (match dict_get info "end_date" with
              | Some end_date => combine_date_time end_date t
              | None => None
              end) as [c |].
    + injection Hend as <-. reflexivity.
    + injection Hend as <-. reflexivity.
Qed.

Lemma parsed_start_time info s e :
  dict_get
    (dict_pop
       (dict_pop
          (dict_set (dict_set info "start_time" (IDatetime s))
             "end_time" (IDatetime e))
          "start_date")
       "end_date") "start_time" = Some (IDatetime s).
Proof.
  rewrite !dict_get_pop_other, dict_get_set_other by discriminate.
  apply dict_get_set_same.
Qed.

Lemma parsed_end_time info s e :
  dict_get
    (dict_pop
       (dict_pop
          (dict_set (dict_set info "start_time" (IDatetime s))
             "end_time" (IDatetime e))
          "start_date")
       "end_date") "end_time" = Some (IDatetime e).
Proof.
  rewrite !dict_get_pop_other by discriminate. apply dict_get_set_same.
Qed.

(** X16. The dictionary that [parse_filename_pattern] returns holds a datetime
    under [start_time] and under [end_time], has no [start_date] and no
    [end_date], and has every other field as the parser gave it. *)
Theorem parsed_info_holds_two_datetimes P filename filename_pattern info d :
  trollsift_parse P filename_pattern filename = Ok info ->
  NoDup (dict_keys info) ->
  parse_filename_pattern P filename filename_pattern = Ok d ->
  (exists start_datetime end_datetime,
     dict_get d "start_time" = Some (IDatetime start_datetime) /\
     dict_get d "end_time" = Some (IDatetime end_datetime)) /\
  dict_get d "start_date" = None /\
  dict_get d "end_date" = None /\
  (forall k, k <> "start_time"%string -> k <> "end_time"%string ->
             k <> "start_date"%string -> k <> "end_date"%string ->
             dict_get d k = dict_get info k) /\
  NoDup (dict_keys d).
Proof.
  intros Hparse Hnd Hrun.
  destruct (parse_filename_pattern_inv _ _ _ _ _ Hparse Hrun)
    as (s & e & -> & _).
  pose proof (dict_set_nodup "end_time" (IDatetime e) _
                (dict_set_nodup "start_time" (IDatetime s) _ Hnd)) as Hnd2.
  destruct (dict_pop_nodup "start_date" _ Hnd2) as [Hnd3 Hsd].
  destruct (dict_pop_nodup "end_date" _ Hnd3) as [Hnd4 Hed].
  split; [|split; [|split; [|split]]].
  - exists s, e. split; [apply parsed_start_time | apply parsed_end_time].
  - rewrite dict_get_pop_other by discriminate.
    apply dict_get_absent. exact Hsd.
  - apply dict_get_absent. exact Hed.
  - intros k H1 H2 H3 H4.
    rewrite !dict_get_pop_other, !dict_get_set_other by congruence.
    reflexivity.
  - exact Hnd4.
Qed.

Lemma parsed_info_holds_two_datetimes_witness :
  (exists start_datetime end_datetime,
     dict_get [("start_time", IDatetime (mkTimestamp 1900 1 1 (hms 23 0 0)));
               ("end_time", IDatetime (mkTimestamp 1900 1 1 (hms 0 30 0)));
               ("orbit", IStr "041760")] "start_time"
     = Some (IDatetime start_datetime) /\
     dict_get [("start_time", IDatetime (mkTimestamp 1900 1 1 (hms 23 0 0)));
               ("end_time", IDatetime (mkTimestamp 1900 1 1 (hms 0 30 0)));
               ("orbit", IStr "041760")] "end_time"
     = Some (IDatetime end_datetime)) /\
  dict_get [("start_time", IDatetime (mkTimestamp 1900 1 1 (hms 23 0 0)));
            ("end_time", IDatetime (mkTimestamp 1900 1 1 (hms 0 30 0)));
            ("orbit", IStr "041760")] "start_date" = None /\
  dict_get [("start_time", IDatetime (mkTimestamp 1900 1 1 (hms 23 0 0)));
            ("end_time", IDatetime (mkTimestamp 1900 1 1 (hms 0 30 0)));
            ("orbit", IStr "041760")] "end_date" = None /\
  (forall k, k <> "start_time"%string -> k <> "end_time"%string ->
             k <> "start_date"%string -> k <> "end_date"%string ->
             dict_get [("start_time", IDatetime (mkTimestamp 1900 1 1 (hms 23 0 0)));
                       ("end_time", IDatetime (mkTimestamp 1900 1 1 (hms 0 30 0)));
                       ("orbit", IStr "041760")] k
             = dict_get [("start_date", IDatetime (midnight 2024 5 1));
                         ("start_time", IDatetime (mkTimestamp 1900 1 1 (hms 23 0 0)));
                         ("end_time", IDatetime (mkTimestamp 1900 1 1 (hms 0 30 0)));
                         ("orbit", IStr "041760")] k) /\
  NoDup (dict_keys
           [("start_time", IDatetime (mkTimestamp 1900 1 1 (hms 23 0 0)));
            ("end_time", IDatetime (mkTimestamp 1900 1 1 (hms 0 30 0)));
            ("orbit", IStr "041760")]).
Proof.
  apply (parsed_info_holds_two_datetimes
           (parsed [("start_date", IDatetime (midnight 2024 5 1));
                    ("start_time", IDatetime (mkTimestamp 1900 1 1 (hms 23 0 0)));
                    ("end_time", IDatetime (mkTimestamp 1900 1 1 (hms 0 30 0)));
                    ("orbit", IStr "041760")])
           "20240501-S230000-E003000.041760"
           "{start_date:%Y%m%d}-S{start_time:%H%M%S}-E{end_time:%H%M%S}.{orbit}").
  - reflexivity.
  - repeat constructor; cbn; intuition discriminate.
  - vm_compute. reflexivity.
Defined.

Lemma dict_set_same_value {V} k (v : V) : forall d,
  dict_get d k = Some v -> dict_set d k v = d.
Proof.
  induction d as [|[k0 v0] d IH]; cbn [dict_get dict_set]; [discriminate|].
  destruct (String.eqb_spec k0 k) as [-> | Hne].
  - intros H. injection H as ->. reflexivity.
  - intros H. rewrite (IH H). reflexivity.
Qed.

(** X19. When the parser gives a datetime under [start_time] and a datetime
    under [end_time], [parse_filename_pattern] returns the dictionary of the
    parser with [start_date] and [end_date] removed and nothing else changed:
    the two instants are the ones of the parser, and a date given under
    [start_date] or [end_date] does not enter them. *)
Theorem datetimes_of_the_parser_are_kept P filename filename_pattern info
  start_time end_time :
  trollsift_parse P filename_pattern filename = Ok info ->
  dict_get info "start_time" = Some (IDatetime start_time) ->
  dict_get info "end_time" = Some (IDatetime end_time) ->
  parse_filename_pattern P filename filename_pattern
  = Ok (dict_pop (dict_pop info "start_date") "end_date").
Proof.
  intros Hparse Hstart Hend. unfold parse_filename_pattern.
  rewrite Hparse. cbn [bind]. rewrite Hstart. cbn [bind].
  rewrite Hend. cbn [bind]. cbv zeta.
  rewrite (dict_set_same_value "start_time" (IDatetime start_time) info Hstart).
  rewrite (dict_set_same_value "end_time" (IDatetime end_time) info Hend).
  reflexivity.
Qed.

Lemma datetimes_of_the_parser_are_kept_witness :
  parse_filename_pattern
    (parsed [("start_date", IDatetime (midnight 2024 5 1));
             ("start_time", IDatetime (mkTimestamp 1900 1 1 (hms 23 0 0)));
             ("end_time", IDatetime (mkTimestamp 1900 1 1 (hms 0 30 0)))])
    "20240501-S230000-E003000"
    "{start_date:%Y%m%d}-S{start_time:%H%M%S}-E{end_time:%H%M%S}"
  = Ok [("start_time", IDatetime (mkTimestamp 1900 1 1 (hms 23 0 0)));
        ("end_time", IDatetime (mkTimestamp 1900 1 1 (hms 0 30 0)))].
Proof.
  apply (datetimes_of_the_parser_are_kept
           (parsed [("start_date", IDatetime (midnight 2024 5 1));
                    ("start_time", IDatetime (mkTimestamp 1900 1 1 (hms 23 0 0)));
                    ("end_time", IDatetime (mkTimestamp 1900 1 1 (hms 0 30 0)))])
           "20240501-S230000-E003000"
           "{start_date:%Y%m%d}-S{start_time:%H%M%S}-E{end_time:%H%M%S}"
           [("start_date", IDatetime (midnight 2024 5 1));
            ("start_time", IDatetime (mkTimestamp 1900 1 1 (hms 23 0 0)));
            ("end_time", IDatetime (mkTimestamp 1900 1 1 (hms 0 30 0)))]
           (mkTimestamp 1900 1 1 (hms 23 0 0))
           (mkTimestamp 1900 1 1 (hms 0 30 0))).
  - reflexivity.
  - reflexivity.
  - reflexivity.
Defined.
